(** * gestionnaire_resto: the derived-state chains of the back office

    A shallow embedding of the model methods that keep stock, invoices,
    orders and reservations consistent:

    - [inventory/models.py]: [Product.stock_status], [StockMovement.save];
    - [accounting/models.py]: [Invoice.update_status], [Payment.save];
    - [orders/models.py]: [Order.calculate_totals], [Order.mark_paid],
      [OrderItem.save], [OrderItem.deduct_from_inventory];
    - [bookings/models.py]: [Table.is_available_at] and the
      [unique_together] constraint of [Reservation].

    Model instances are records, the database is a record of tables, a
    table is the list of its rows in primary-key order, and a method that
    touches the database takes it and returns it.  Amounts are Python
    [Decimal]s. *)

From Stdlib Require Import ZArith NArith QArith List Ascii String Bool Lia.
Import ListNotations.

Local Open Scope Z_scope.

(* ================================================================== *)
(** * Python's [decimal.Decimal] *)
(* ================================================================== *)

(** A finite [Decimal] is a signed coefficient and an exponent; every
    amount of the application has an exponent that is zero or negative,
    so the record keeps the number of decimal places: [mkDec 2550 2] is
    [Decimal('25.50')] and [mkDec 10 0] is [Decimal(10)].

    The operations are the exact ones of the [decimal] module: the
    coefficients met here stay far below the 28 significant digits of the
    default context, where the module starts to round. *)
Module Dec.

Record Decimal : Type := mkDec { coef : Z; places : nat }.

Definition pow10 (n : nat) : Z := 10 ^ Z.of_nat n.

(** [Decimal(n)] for an [int] n: what Python builds when an [int] meets
    a [Decimal] in an arithmetic operation or a comparison. *)
Definition of_int (n : Z) : Decimal := mkDec n 0.

(** [a + b]: the exponent of the sum is the smaller of the two. *)
Definition add (a b : Decimal) : Decimal :=
  let e := Nat.max (places a) (places b) in
  mkDec (coef a * pow10 (e - places a) + coef b * pow10 (e - places b)) e.

(** [a - b]. *)
Definition sub (a b : Decimal) : Decimal :=
  let e := Nat.max (places a) (places b) in
  mkDec (coef a * pow10 (e - places a) - coef b * pow10 (e - places b)) e.

(** [a * b]: coefficients multiply, exponents add. *)
Definition mul (a b : Decimal) : Decimal :=
  mkDec (coef a * coef b) (places a + places b).

(** [a / 100].  The quotient is exact; [Decimal.__truediv__] then brings
    its exponent as close to the exponent of [a] as the coefficient
    allows: [Decimal('250.00') / 100] is [Decimal('2.50')] and
    [Decimal('2.55') / 100] is [Decimal('0.0255')]. *)
Definition div100 (a : Decimal) : Decimal :=
  if coef a mod 100 =? 0 then mkDec (coef a / 100) (places a)
  else if coef a mod 10 =? 0 then mkDec (coef a / 10) (places a + 1)
  else mkDec (coef a) (places a + 2).

(** Comparisons are numeric: [Decimal('2.50') == Decimal('2.5')]. *)
Definition leb (a b : Decimal) : bool :=
  coef a * pow10 (places b) <=? coef b * pow10 (places a).

Definition ltb (a b : Decimal) : bool :=
  coef a * pow10 (places b) <? coef b * pow10 (places a).

Definition geb (a b : Decimal) : bool := leb b a.
Definition gtb (a b : Decimal) : bool := ltb b a.

Definition eqb (a b : Decimal) : bool :=
  coef a * pow10 (places b) =? coef b * pow10 (places a).

(** The number a [Decimal] denotes. *)
Definition val (a : Decimal) : Q :=
  (inject_Z (coef a) / inject_Z (pow10 (places a)))%Q.

End Dec.

Export Dec(Decimal, mkDec).

Declare Scope dec_scope.
Delimit Scope dec_scope with dec.
Bind Scope dec_scope with Decimal.
Notation "a + b" := (Dec.add a b) : dec_scope.
Notation "a - b" := (Dec.sub a b) : dec_scope.
Notation "a * b" := (Dec.mul a b) : dec_scope.
Notation "a <=? b" := (Dec.leb a b) : dec_scope.
Notation "a <? b" := (Dec.ltb a b) : dec_scope.
Notation "a >=? b" := (Dec.geb a b) (at level 70) : dec_scope.
Notation "a >? b" := (Dec.gtb a b) (at level 70) : dec_scope.

(* ================================================================== *)
(** * The persistence layer *)
(* ================================================================== *)

(** What the methods use of the ORM: a model instance has a primary key,
    [None] until its first save; [Model.save] inserts an instance without
    a key under a fresh one and rewrites the row of an instance that has
    one; a unique constraint that another row already satisfies makes the
    save raise [IntegrityError]; fetching a missing row raises
    [DoesNotExist].  A table lists its rows in insertion order, and a
    row stores the values it is given: the amounts met here have at most
    the two decimal places of their [DecimalField], for which storing is
    exact. *)
Module Orm.

Inductive Exception : Type := IntegrityError | DoesNotExist.

Inductive result (A : Type) : Type :=
| Ok (a : A)
| Raise (e : Exception).
#[global] Arguments Ok {A} a.
#[global] Arguments Raise {A} e.

Class Model (A : Type) : Type := {
  pk_of : A -> option Z;
  with_pk : Z -> A -> A;
  (** [unique_clash x r]: the rows [x] and [r] cannot both be stored
      under the [unique] and [unique_together] declarations of the
      model. *)
  unique_clash : A -> A -> bool
}.

Section Table.
Context {A : Type} `{Model A}.

Definition has_pk (k : Z) (r : A) : bool :=
  match pk_of r with
  | Some k' => k' =? k
  | None => false
  end.

Definition get (t : list A) (k : Z) : option A := find (has_pk k) t.

Definition max_pk (t : list A) : Z :=
  fold_right (fun r m => match pk_of r with
                         | Some k => Z.max k m
                         | None => m
                         end) 0 t.

Definition next_pk (t : list A) : Z := max_pk t + 1.

Definition other_row (x r : A) : bool :=
  match pk_of x with
  | Some k => negb (has_pk k r)
  | None => true
  end.

Definition violates (t : list A) (x : A) : bool :=
  existsb (fun r => other_row x r && unique_clash x r) t.

Definition replace_row (k : Z) (x : A) (t : list A) : list A :=
  map (fun r => if has_pk k r then x else r) t.

(** [Model.save]: the new table and the instance as it is afterwards. *)
Definition save (t : list A) (x : A) : result (list A * A) :=
  if violates t x then Raise IntegrityError
  else match pk_of x with
       | None => let x' := with_pk (next_pk t) x in Ok (t ++ [x'], x')
       | Some k =>
           if existsb (has_pk k) t then Ok (replace_row k x t, x)
           else Ok (t ++ [x], x)
       end.
End Table.

(** [qs.first()] of a query set ordered by a key: the row with the
    least key, the earliest such row if several have it. *)
Fixpoint first_by {A : Type} (le : A -> A -> bool) (l : list A) : option A :=
  match l with
  | [] => None
  | x :: l' =>
      match first_by le l' with
      | None => Some x
      | Some y => if le x y then Some x else Some y
      end
  end.

End Orm.

Export Orm(Exception, IntegrityError, DoesNotExist, result, Ok, Raise, Model).

Definition str_in (s : string) (l : list string) : bool :=
  existsb (String.eqb s) l.

Definition opt_Z_eqb (a b : option Z) : bool :=
  match a, b with
  | Some x, Some y => x =? y
  | None, None => true
  | _, _ => false
  end.

Definition is_None {A : Type} (o : option A) : bool :=
  match o with
  | None => true
  | Some _ => false
  end.

Local Open Scope string_scope.
Local Open Scope list_scope.

(* ================================================================== *)
(** * The models *)
(* ================================================================== *)

(** Each model keeps the columns its methods read or write; names,
    notes, images and audit columns are left out, and with them the
    unique columns [Product.reference] and [Invoice.invoice_number],
    which no method here writes.  Statuses and types are the strings of
    the [choices].  Dates are day numbers and instants are second
    counts. *)

(** ** inventory *)

Module Product.
Record t : Type := mk {
  pk : option Z;
  quantity_in_stock : Decimal;
  minimum_stock : Decimal;
  optimal_stock : Decimal;
  unit_price : Decimal
}.

Definition set_quantity_in_stock (q : Decimal) (self : t) : t :=
  mk (pk self) q (minimum_stock self) (optimal_stock self) (unit_price self).

#[global] Instance model : Model t := {
  pk_of := pk;
  with_pk k self :=
    mk (Some k) (quantity_in_stock self) (minimum_stock self)
       (optimal_stock self) (unit_price self);
  unique_clash _ _ := false
}.

Definition is_low_stock (self : t) : bool :=
  (quantity_in_stock self <? minimum_stock self)%dec.

Definition stock_status (self : t) : string :=
  if (quantity_in_stock self <=? Dec.of_int 0)%dec then "OUT_OF_STOCK"
  else if (quantity_in_stock self <? minimum_stock self)%dec then "LOW_STOCK"
  else if (quantity_in_stock self <? optimal_stock self)%dec then "NORMAL"
  else "OPTIMAL".
End Product.

Module StockMovement.
Record t : Type := mk {
  pk : option Z;
  product_id : Z;
  movement_type : string;
  quantity : Decimal;
  unit_price : Decimal
}.

#[global] Instance model : Model t := {
  pk_of := pk;
  with_pk k self :=
    mk (Some k) (product_id self) (movement_type self) (quantity self)
       (unit_price self);
  unique_clash _ _ := false
}.

Definition total_value (self : t) : Decimal :=
  (quantity self * unit_price self)%dec.
End StockMovement.

(** ** accounting *)

Module AccountCategory.
Record t : Type := mk {
  pk : option Z;
  code : string;
  account_type : string
}.

#[global] Instance model : Model t := {
  pk_of := pk;
  with_pk k self := mk (Some k) (code self) (account_type self);
  unique_clash x r := String.eqb (code x) (code r)
}.

(** [Meta.ordering = ['code']]. *)
Definition ordering (x y : t) : bool := String.leb (code x) (code y).
End AccountCategory.

Module Transaction.
Record t : Type := mk {
  pk : option Z;
  transaction_number : string;
  transaction_type : string;
  category_id : option Z;
  date : Z;
  amount : Decimal;
  payment_method : string
}.

#[global] Instance model : Model t := {
  pk_of := pk;
  with_pk k self :=
    mk (Some k) (transaction_number self) (transaction_type self)
       (category_id self) (date self) (amount self) (payment_method self);
  unique_clash x r :=
    String.eqb (transaction_number x) (transaction_number r)
}.
End Transaction.

Module Invoice.
Record t : Type := mk {
  pk : option Z;
  due_date : Z;
  total_amount : Decimal;
  paid_amount : Decimal;
  status : string
}.

Definition set_paid_amount (a : Decimal) (self : t) : t :=
  mk (pk self) (due_date self) (total_amount self) a (status self).

Definition set_status (s : string) (self : t) : t :=
  mk (pk self) (due_date self) (total_amount self) (paid_amount self) s.

#[global] Instance model : Model t := {
  pk_of := pk;
  with_pk k self :=
    mk (Some k) (due_date self) (total_amount self) (paid_amount self)
       (status self);
  unique_clash _ _ := false
}.

Definition remaining_balance (self : t) : Decimal :=
  (total_amount self - paid_amount self)%dec.

(** [today] is [timezone.now().date()]. *)
Definition is_overdue (today : Z) (self : t) : bool :=
  (due_date self <? today)%Z
  && negb (str_in (status self) ["PAID"; "CANCELLED"]).

Definition update_status (today : Z) (self : t) : t :=
  if (paid_amount self >=? total_amount self)%dec then
    set_status "PAID" self
  else if (paid_amount self >? Dec.of_int 0)%dec then
    set_status "PARTIALLY_PAID" self
  else if is_overdue today self then
    set_status "OVERDUE" self
  else self.
End Invoice.

Module Payment.
Record t : Type := mk {
  pk : option Z;
  payment_number : string;
  invoice_id : Z;
  amount : Decimal
}.

#[global] Instance model : Model t := {
  pk_of := pk;
  with_pk k self :=
    mk (Some k) (payment_number self) (invoice_id self) (amount self);
  unique_clash x r := String.eqb (payment_number x) (payment_number r)
}.
End Payment.

(** ** bookings *)

Module Reservation.
Record t : Type := mk {
  pk : option Z;
  reservation_number : string;
  reservation_date : Z;
  time_slot : string;
  table_id : option Z;
  status : string
}.

Definition set_status (s : string) (self : t) : t :=
  mk (pk self) (reservation_number self) (reservation_date self)
     (time_slot self) (table_id self) s.

(** [unique_together = ['table', 'reservation_date', 'time_slot']]:
    two rows clash when they name the same table, date and slot; a
    row without a table (a NULL column) clashes with none. *)
Definition same_booking (x r : t) : bool :=
  match table_id x, table_id r with
  | Some a, Some b =>
      (a =? b)%Z && (reservation_date x =? reservation_date r)%Z
      && String.eqb (time_slot x) (time_slot r)
  | _, _ => false
  end.

#[global] Instance model : Model t := {
  pk_of := pk;
  with_pk k self :=
    mk (Some k) (reservation_number self) (reservation_date self)
       (time_slot self) (table_id self) (status self);
  unique_clash x r :=
    String.eqb (reservation_number x) (reservation_number r)
    || same_booking x r
}.
End Reservation.

(** ** orders *)

Module MenuItem.
Record t : Type := mk {
  pk : option Z;
  price : Decimal;
  track_inventory : bool
}.

#[global] Instance model : Model t := {
  pk_of := pk;
  with_pk k self := mk (Some k) (price self) (track_inventory self);
  unique_clash _ _ := false
}.
End MenuItem.

Module MenuItemIngredient.
Record t : Type := mk {
  pk : option Z;
  menu_item_id : Z;
  product_id : Z;
  quantity_needed : Decimal
}.

#[global] Instance model : Model t := {
  pk_of := pk;
  with_pk k self :=
    mk (Some k) (menu_item_id self) (product_id self) (quantity_needed self);
  unique_clash x r :=
    (menu_item_id x =? menu_item_id r)%Z && (product_id x =? product_id r)%Z
}.
End MenuItemIngredient.

Module Order.
Record t : Type := mk {
  pk : option Z;
  order_number : string;
  status : string;
  paid_at : option Z;
  subtotal : Decimal;
  tax_rate : Decimal;
  tax_amount : Decimal;
  discount_amount : Decimal;
  total_amount : Decimal
}.

Definition set_totals (sub tax total : Decimal) (self : t) : t :=
  mk (pk self) (order_number self) (status self) (paid_at self)
     sub (tax_rate self) tax (discount_amount self) total.

Definition set_paid (now : Z) (self : t) : t :=
  mk (pk self) (order_number self) "PAID" (Some now)
     (subtotal self) (tax_rate self) (tax_amount self)
     (discount_amount self) (total_amount self).

#[global] Instance model : Model t := {
  pk_of := pk;
  with_pk k self :=
    mk (Some k) (order_number self) (status self) (paid_at self)
       (subtotal self) (tax_rate self) (tax_amount self)
       (discount_amount self) (total_amount self);
  unique_clash x r := String.eqb (order_number x) (order_number r)
}.
End Order.

Module OrderItem.
Record t : Type := mk {
  pk : option Z;
  order_id : Z;
  menu_item_id : Z;
  quantity : Z;
  unit_price : Decimal
}.

#[global] Instance model : Model t := {
  pk_of := pk;
  with_pk k self :=
    mk (Some k) (order_id self) (menu_item_id self) (quantity self)
       (unit_price self);
  unique_clash _ _ := false
}.

(** [self.quantity * self.unit_price], an [int] times a [Decimal]. *)
Definition total_price (self : t) : Decimal :=
  (Dec.of_int (quantity self) * unit_price self)%dec.
End OrderItem.

(* ================================================================== *)
(** * The database and the methods that write to it *)
(* ================================================================== *)

Record DB : Type := mkDB {
  products : list Product.t;
  stock_movements : list StockMovement.t;
  account_categories : list AccountCategory.t;
  transactions : list Transaction.t;
  invoices : list Invoice.t;
  payments : list Payment.t;
  reservations : list Reservation.t;
  menu_items : list MenuItem.t;
  menu_item_ingredients : list MenuItemIngredient.t;
  orders : list Order.t;
  order_items : list OrderItem.t
}.

(** A table of the database: how to read it and how to replace it. *)
Record Objects (A : Type) : Type := mkObjects {
  rows : DB -> list A;
  put_rows : list A -> DB -> DB
}.
Arguments rows {A} _ _.
Arguments put_rows {A} _ _ _.

Definition Product_objects : Objects Product.t :=
  mkObjects _ products
    (fun t d => mkDB t (stock_movements d) (account_categories d)
                  (transactions d) (invoices d) (payments d) (reservations d)
                  (menu_items d) (menu_item_ingredients d) (orders d)
                  (order_items d)).

Definition StockMovement_objects : Objects StockMovement.t :=
  mkObjects _ stock_movements
    (fun t d => mkDB (products d) t (account_categories d)
                  (transactions d) (invoices d) (payments d) (reservations d)
                  (menu_items d) (menu_item_ingredients d) (orders d)
                  (order_items d)).

Definition Transaction_objects : Objects Transaction.t :=
  mkObjects _ transactions
    (fun t d => mkDB (products d) (stock_movements d) (account_categories d)
                  t (invoices d) (payments d) (reservations d)
                  (menu_items d) (menu_item_ingredients d) (orders d)
                  (order_items d)).

Definition Invoice_objects : Objects Invoice.t :=
  mkObjects _ invoices
    (fun t d => mkDB (products d) (stock_movements d) (account_categories d)
                  (transactions d) t (payments d) (reservations d)
                  (menu_items d) (menu_item_ingredients d) (orders d)
                  (order_items d)).

Definition Payment_objects : Objects Payment.t :=
  mkObjects _ payments
    (fun t d => mkDB (products d) (stock_movements d) (account_categories d)
                  (transactions d) (invoices d) t (reservations d)
                  (menu_items d) (menu_item_ingredients d) (orders d)
                  (order_items d)).

Definition Reservation_objects : Objects Reservation.t :=
  mkObjects _ reservations
    (fun t d => mkDB (products d) (stock_movements d) (account_categories d)
                  (transactions d) (invoices d) (payments d) t
                  (menu_items d) (menu_item_ingredients d) (orders d)
                  (order_items d)).

Definition MenuItem_objects : Objects MenuItem.t :=
  mkObjects _ menu_items
    (fun t d => mkDB (products d) (stock_movements d) (account_categories d)
                  (transactions d) (invoices d) (payments d) (reservations d)
                  t (menu_item_ingredients d) (orders d) (order_items d)).

Definition Order_objects : Objects Order.t :=
  mkObjects _ orders
    (fun t d => mkDB (products d) (stock_movements d) (account_categories d)
                  (transactions d) (invoices d) (payments d) (reservations d)
                  (menu_items d) (menu_item_ingredients d) t (order_items d)).

Definition OrderItem_objects : Objects OrderItem.t :=
  mkObjects _ order_items
    (fun t d => mkDB (products d) (stock_movements d) (account_categories d)
                  (transactions d) (invoices d) (payments d) (reservations d)
                  (menu_items d) (menu_item_ingredients d) (orders d) t).

(** A method call: it runs against the database and either returns or
    raises.  What it wrote before raising stays written: no method here
    opens a transaction. *)
Definition M (A : Type) : Type := DB -> result A * DB.

Definition ret {A : Type} (a : A) : M A := fun d => (Ok a, d).

Definition bind {A B : Type} (m : M A) (k : A -> M B) : M B :=
  fun d => match m d with
           | (Ok a, d') => k a d'
           | (Raise e, d') => (Raise e, d')
           end.

Notation "x <- m ;; k" := (bind m (fun x => k))
  (at level 61, m at next level, right associativity).
Notation "m ;;; k" := (bind m (fun _ => k))
  (at level 61, right associativity).

(** [super().save()] on the table [o]. *)
Definition Model_save {A : Type} `{Model A} (o : Objects A) (self : A) : M A :=
  fun d => match Orm.save (rows o d) self with
           | Ok (t, self') => (Ok self', put_rows o t d)
           | Raise e => (Raise e, d)
           end.

(** Following a foreign key, or [objects.get(pk=k)]. *)
Definition fetch {A : Type} `{Model A} (o : Objects A) (k : Z) : M A :=
  fun d => match Orm.get (rows o d) k with
           | Some r => (Ok r, d)
           | None => (Raise DoesNotExist, d)
           end.

(** ** [StockMovement.save] *)

(** The branch on [movement_type] taken for a new movement, on the
    instance behind [self.product]. *)
Definition StockMovement_apply (self : StockMovement.t) (product : Product.t)
  : Product.t :=
  let q := Product.quantity_in_stock product in
  let mt := StockMovement.movement_type self in
  if String.eqb mt "IN" then
    Product.set_quantity_in_stock (q + StockMovement.quantity self)%dec product
  else if str_in mt ["OUT"; "WASTE"] then
    Product.set_quantity_in_stock (q - StockMovement.quantity self)%dec product
  else if String.eqb mt "ADJUSTMENT" then
    product
  else if String.eqb mt "RETURN" then
    Product.set_quantity_in_stock (q + StockMovement.quantity self)%dec product
  else product.

(** [product] is the instance behind [self.product]: the method changes
    it in memory, then writes it back. *)
Definition StockMovement_save (self : StockMovement.t) (product : Product.t)
  : M (StockMovement.t * Product.t) :=
  let is_new := is_None (StockMovement.pk self) in
  product <-
    (if is_new then
       Model_save Product_objects (StockMovement_apply self product)
     else ret product) ;;
  self <- Model_save StockMovement_objects self ;;
  ret (self, product).

(** [StockMovement.objects.create(product=Product.objects.get(pk=k), ...)]. *)
Definition StockMovement_create (k : Z) (movement_type : string)
    (quantity unit_price : Decimal) : M StockMovement.t :=
  product <- fetch Product_objects k ;;
  r <- StockMovement_save
         (StockMovement.mk None k movement_type quantity unit_price) product ;;
  ret (fst r).

(** ** [Payment.save]

    [invoice] is the instance behind [self.invoice]. *)
Definition Payment_save (today : Z) (self : Payment.t) (invoice : Invoice.t)
  : M (Payment.t * Invoice.t) :=
  let is_new := is_None (Payment.pk self) in
  self <- Model_save Payment_objects self ;;
  if is_new then
    let invoice :=
      Invoice.set_paid_amount
        (Invoice.paid_amount invoice + Payment.amount self)%dec invoice in
    let invoice := Invoice.update_status today invoice in
    invoice <- Model_save Invoice_objects invoice ;;
    ret (self, invoice)
  else ret (self, invoice).

(** The view [invoice_add_payment]: the invoice is read from the
    database, then the payment is saved against it. *)
Definition invoice_add_payment (today : Z) (k : Z) (payment_number : string)
    (amount : Decimal) : M (Payment.t * Invoice.t) :=
  invoice <- fetch Invoice_objects k ;;
  Payment_save today (Payment.mk None payment_number k amount) invoice.

(** ** [Order] *)

(** [self.items.all()]: the rows of [OrderItem] that point to the order. *)
Definition Order_items (d : DB) (self : Order.t) : list OrderItem.t :=
  filter (fun i => opt_Z_eqb (Some (OrderItem.order_id i)) (Order.pk self))
         (order_items d).

(** Python's [sum]: it starts from the [int] 0. *)
Definition py_sum (l : list Decimal) : Decimal :=
  fold_left Dec.add l (Dec.of_int 0).

(** [Order.calculate_totals]: it changes the instance, not the database. *)
Definition Order_calculate_totals (d : DB) (self : Order.t) : Order.t :=
  let subtotal := py_sum (map OrderItem.total_price (Order_items d self)) in
  let tax_amount := Dec.div100 (subtotal * Order.tax_rate self)%dec in
  let total_amount :=
    (subtotal + tax_amount - Order.discount_amount self)%dec in
  Order.set_totals subtotal tax_amount total_amount self.

Definition date_of (now : Z) : Z := now / 86400.

(** [AccountCategory.objects.filter(account_type='REVENUE').first()]. *)
Definition first_revenue_category (d : DB) : option AccountCategory.t :=
  Orm.first_by AccountCategory.ordering
    (filter (fun c => String.eqb (AccountCategory.account_type c) "REVENUE")
            (account_categories d)).

(** The transaction that [Order.mark_paid] creates for the category [c]. *)
Definition income_transaction (now : Z) (self : Order.t)
    (c : AccountCategory.t) : Transaction.t :=
  Transaction.mk None (String.append "TXN-" (Order.order_number self))
    "INCOME" (AccountCategory.pk c) (date_of now) (Order.total_amount self)
    "CASH".

(** [Order.mark_paid]; [now] is [timezone.now()]. *)
Definition Order_mark_paid (now : Z) (self : Order.t) : M Order.t :=
  let self := Order.set_paid now self in
  self <- Model_save Order_objects self ;;
  fun d =>
    match first_revenue_category d with
    | Some revenue_category =>
        (Model_save Transaction_objects
           (income_transaction now self revenue_category) ;;;
         ret self) d
    | None => ret self d
    end.

(** ** [OrderItem] *)

(** The loop of [OrderItem.deduct_from_inventory] over the ingredients. *)
Fixpoint deduct_each (self : OrderItem.t) (l : list MenuItemIngredient.t)
  : M unit :=
  match l with
  | [] => ret tt
  | ingredient :: l' =>
      let quantity_to_deduct :=
        (MenuItemIngredient.quantity_needed ingredient
         * Dec.of_int (OrderItem.quantity self))%dec in
      product <- fetch Product_objects
                   (MenuItemIngredient.product_id ingredient) ;;
      StockMovement_save
        (StockMovement.mk None (MenuItemIngredient.product_id ingredient)
           "OUT" quantity_to_deduct (Product.unit_price product))
        product ;;;
      deduct_each self l'
  end.

(** [self.menu_item.ingredients.all()]. *)
Definition MenuItem_ingredients (d : DB) (k : Z) : list MenuItemIngredient.t :=
  filter (fun i => (MenuItemIngredient.menu_item_id i =? k)%Z)
         (menu_item_ingredients d).

Definition OrderItem_deduct_from_inventory (self : OrderItem.t) : M unit :=
  fun d =>
    deduct_each self (MenuItem_ingredients d (OrderItem.menu_item_id self)) d.

Definition OrderItem_save (self : OrderItem.t) : M OrderItem.t :=
  let is_new := is_None (OrderItem.pk self) in
  self <- Model_save OrderItem_objects self ;;
  if is_new then
    menu_item <- fetch MenuItem_objects (OrderItem.menu_item_id self) ;;
    if MenuItem.track_inventory menu_item then
      OrderItem_deduct_from_inventory self ;;; ret self
    else ret self
  else ret self.

(** ** bookings *)

(** [Table.is_available_at] for the table with key [table]. *)
Definition Table_is_available_at (d : DB) (table : Z) (date : Z)
    (time_slot : string) : bool :=
  let reservations :=
    filter (fun r =>
              opt_Z_eqb (Reservation.table_id r) (Some table)
              && (Reservation.reservation_date r =? date)%Z
              && String.eqb (Reservation.time_slot r) time_slot
              && str_in (Reservation.status r) ["PENDING"; "CONFIRMED"])
           (reservations d) in
  negb (match reservations with [] => false | _ :: _ => true end).

(** [reservation.save()]: [Reservation] does not override [save]. *)
Definition Reservation_save (self : Reservation.t) : M Reservation.t :=
  Model_save Reservation_objects self.

(** [Reservation.cancel]. *)
Definition Reservation_cancel (self : Reservation.t) : M Reservation.t :=
  Reservation_save (Reservation.set_status "CANCELLED" self).

From Stdlib Require Import Lqa.

(* ================================================================== *)
(** * More of the views and methods *)
(* ================================================================== *)

Definition delete_row {A : Type} `{Model A} (k : Z) (t : list A) : list A :=
  filter (fun r => negb (Orm.has_pk k r)) t.

(** [instance.delete()] for the stored instance with key [k]. *)
Definition Model_delete {A : Type} `{Model A} (o : Objects A) (k : Z)
  : M unit :=
  fun d => (Ok tt, put_rows o (delete_row k (rows o d)) d).

(** ** inventory *)

(** The branch on [movement_type] of the view [stock_movement_delete],
    on the instance behind [movement.product]. *)
Definition StockMovement_undo (movement : StockMovement.t)
    (product : Product.t) : Product.t :=
  let q := Product.quantity_in_stock product in
  let mt := StockMovement.movement_type movement in
  if String.eqb mt "IN" then
    Product.set_quantity_in_stock (q - StockMovement.quantity movement)%dec
                                  product
  else if str_in mt ["OUT"; "WASTE"] then
    Product.set_quantity_in_stock (q + StockMovement.quantity movement)%dec
                                  product
  else if String.eqb mt "RETURN" then
    Product.set_quantity_in_stock (q - StockMovement.quantity movement)%dec
                                  product
  else product.

(** The body of the view [stock_movement_delete] for a POST request;
    [get_object_or_404] fails as a missing row does. *)
Definition stock_movement_delete (pk : Z) : M unit :=
  movement <- fetch StockMovement_objects pk ;;
  product <- fetch Product_objects (StockMovement.product_id movement) ;;
  Model_save Product_objects (StockMovement_undo movement product) ;;;
  Model_delete StockMovement_objects pk.

(** The stock-status filter of the view [product_list], as a test on a
    product row; a value that is none of the four filters nothing. *)
Definition product_list_stock_filter (stock_status : string) (p : Product.t)
  : bool :=
  let q := Product.quantity_in_stock p in
  if String.eqb stock_status "OUT_OF_STOCK" then
    Dec.eqb q (Dec.of_int 0)
  else if String.eqb stock_status "LOW_STOCK" then
    (q >? Dec.of_int 0)%dec && (q <? Product.minimum_stock p)%dec
  else if String.eqb stock_status "NORMAL" then
    (q >=? Product.minimum_stock p)%dec && (q <? Product.optimal_stock p)%dec
  else if String.eqb stock_status "OPTIMAL" then
    (q >=? Product.optimal_stock p)%dec
  else true.

(** ** accounting *)

(** The check that a form runs on the value of a
    [DecimalField(max_digits, decimal_places)]: no more decimal places
    than the column has, and no more digits before the point than it
    leaves. *)
Definition DecimalValidator (max_digits decimal_places : nat) (a : Decimal)
  : bool :=
  (Dec.places a <=? decimal_places)%nat
  && (Z.abs (Dec.coef a)
      <? Dec.pow10 (max_digits - decimal_places + Dec.places a))%Z.

Definition MinValueValidator (limit_value : Z) (a : Decimal) : bool :=
  (Dec.of_int limit_value <=? a)%dec.

(** What [PaymentForm.is_valid()] asks of the amount: the column is a
    [DecimalField(10, 2)] with [MinValueValidator(0)]. *)
Definition PaymentForm_clean_amount (amount : Decimal) : bool :=
  DecimalValidator 10 2 amount && MinValueValidator 0 amount.

(** [PaymentForm.is_valid()] for a payment number and an amount, the
    other fields of the form being well-formed: the amount passes its
    checks, and no stored payment has the number. *)
Definition PaymentForm_is_valid (payment_number : string) (amount : Decimal)
  : M bool :=
  fun d =>
    (Ok (PaymentForm_clean_amount amount
         && negb (existsb
                    (fun r => String.eqb payment_number
                                         (Payment.payment_number r))
                    (payments d))),
     d).

(** The body of the view [invoice_add_payment] for a POST request, with
    the validation of the form: an invalid form stores nothing and the
    page is shown again, [None] here. *)
Definition invoice_add_payment_view (today : Z) (pk : Z)
    (payment_number : string) (amount : Decimal)
  : M (option (Payment.t * Invoice.t)) :=
  invoice <- fetch Invoice_objects pk ;;
  valid <- PaymentForm_is_valid payment_number amount ;;
  if valid then
    r <- Payment_save today (Payment.mk None payment_number pk amount)
           invoice ;;
    ret (Some r)
  else ret None.

(** ** bookings *)

(** [Reservation.complete] and [Reservation.mark_no_show]. *)
Definition Reservation_complete (self : Reservation.t) : M Reservation.t :=
  Reservation_save (Reservation.set_status "COMPLETED" self).

Definition Reservation_mark_no_show (self : Reservation.t)
  : M Reservation.t :=
  Reservation_save (Reservation.set_status "NO_SHOW" self).

Module TimeSlotAvailability.
Record t : Type := mk {
  pk : option Z;
  date : Z;
  time_slot : string;
  max_reservations : Z;
  is_available : bool
}.
End TimeSlotAvailability.

Definition TimeSlotAvailability_get_current_reservations (d : DB)
    (self : TimeSlotAvailability.t) : Z :=
  Z.of_nat
    (List.length
       (filter (fun r =>
                  (Reservation.reservation_date r
                   =? TimeSlotAvailability.date self)%Z
                  && String.eqb (Reservation.time_slot r)
                                (TimeSlotAvailability.time_slot self)
                  && str_in (Reservation.status r) ["PENDING"; "CONFIRMED"])
               (reservations d))).

Definition TimeSlotAvailability_get_available_spots (d : DB)
    (self : TimeSlotAvailability.t) : Z :=
  TimeSlotAvailability.max_reservations self
  - TimeSlotAvailability_get_current_reservations d self.

Definition TimeSlotAvailability_is_fully_booked (d : DB)
    (self : TimeSlotAvailability.t) : bool :=
  (TimeSlotAvailability_get_available_spots d self <=? 0)%Z.

(* ================================================================== *)
(** * Vocabulary of the statements *)
(* ================================================================== *)

Local Open Scope Q_scope.

(** What a movement of a given type and quantity adds to the stock on
    hand, as a number. *)
Definition signed (movement_type : string) (quantity : Q) : Q :=
  if str_in movement_type ["IN"; "RETURN"] then quantity
  else if str_in movement_type ["OUT"; "WASTE"] then - quantity
  else 0.

(** A movement to create: its type, quantity and unit price. *)
Definition movement_spec : Type := (string * Decimal * Decimal)%type.

Definition signed_sum (l : list movement_spec) : Q :=
  fold_right (fun m s => signed (fst (fst m)) (Dec.val (snd (fst m))) + s) 0 l.

(** Creating the movements of [l] one after the other against the
    product with key [k]. *)
Fixpoint create_movements (k : Z) (l : list movement_spec) : M unit :=
  match l with
  | [] => ret tt
  | m :: l' =>
      StockMovement_create k (fst (fst m)) (snd (fst m)) (snd m) ;;;
      create_movements k l'
  end.

(** The four cases of the stock status, each read on its own. *)
Definition stock_status_cases_as_stated (p : Product.t) : Prop :=
  let q := Dec.val (Product.quantity_in_stock p) in
  let lo := Dec.val (Product.minimum_stock p) in
  let hi := Dec.val (Product.optimal_stock p) in
  (q <= 0 -> Product.stock_status p = "OUT_OF_STOCK")
  /\ (0 < q /\ q < lo -> Product.stock_status p = "LOW_STOCK")
  /\ (lo <= q /\ q < hi -> Product.stock_status p = "NORMAL")
  /\ (hi <= q -> Product.stock_status p = "OPTIMAL").

(** A product as [Product] creates it when only defaults are given:
    nothing in stock, no thresholds. *)
Definition default_product : Product.t :=
  Product.mk (Some 1%Z) (Dec.of_int 0) (Dec.of_int 0) (Dec.of_int 0)
             (Dec.of_int 0).

Definition quantity_value (p : Product.t) : Q :=
  Dec.val (Product.quantity_in_stock p).

(** The database after the new movement [m] was saved against the
    product [p], stored under the key [k]. *)
Definition after_movement (d : DB) (k : Z) (m : StockMovement.t)
    (p : Product.t) : DB :=
  put_rows StockMovement_objects
    (stock_movements d
     ++ [Orm.with_pk (Orm.next_pk (stock_movements d)) m])
    (put_rows Product_objects
       (Orm.replace_row k (StockMovement_apply m p) (products d)) d).

(** Saving the same movement [n] more times. *)
Fixpoint resave_movement (n : nat) (m : StockMovement.t) (p : Product.t)
  : M unit :=
  match n with
  | O => ret tt
  | S n' => StockMovement_save m p ;;; resave_movement n' m p
  end.

(** ** Payments *)

(** A payment to record: the day it is recorded, its number and its
    amount. *)
Definition payment_spec : Type := (Z * string * Decimal)%type.

Definition amounts (l : list payment_spec) : Q :=
  fold_right (fun p s => Dec.val (snd p) + s) 0 l.

(** Recording the payments of [l] one after the other against the
    invoice with key [k], through the view. *)
Fixpoint add_payments (k : Z) (l : list payment_spec) : M unit :=
  match l with
  | [] => ret tt
  | p :: l' =>
      invoice_add_payment (fst (fst p)) k (snd (fst p)) (snd p) ;;;
      add_payments k l'
  end.

(** Saving the same payment [n] more times. *)
Fixpoint resave_payment (n : nat) (today : Z) (p : Payment.t)
    (i : Invoice.t) : M unit :=
  match n with
  | O => ret tt
  | S n' => Payment_save today p i ;;; resave_payment n' today p i
  end.

(** The invoice as [Payment.save] leaves it after a new payment of
    amount [a] recorded on day [today]. *)
Definition credited (today : Z) (a : Decimal) (i : Invoice.t) : Invoice.t :=
  Invoice.update_status today
    (Invoice.set_paid_amount (Dec.add (Invoice.paid_amount i) a) i).

Definition paid_value (i : Invoice.t) : Q := Dec.val (Invoice.paid_amount i).
Definition total_value (i : Invoice.t) : Q := Dec.val (Invoice.total_amount i).

(** The status rule of invoices read as a description of every invoice
    after its payments: [before] is the invoice before the payments of
    [l], [prev] before the last payment, recorded on day [today], and
    [after] after it. *)
Definition invoice_status_as_stated (before prev after : Invoice.t)
    (l : list payment_spec) (today : Z) : Prop :=
  paid_value after == paid_value before + amounts l
  /\ (Invoice.status after = "PAID" <-> total_value after <= paid_value after)
  /\ (Invoice.status after = "PARTIALLY_PAID"
      <-> 0 < paid_value after /\ paid_value after < total_value after)
  /\ (Invoice.status after = "OVERDUE" ->
      ~ total_value after <= paid_value after
      /\ ~ (0 < paid_value after /\ paid_value after < total_value after)
      /\ (Invoice.due_date after < today)%Z)
  /\ (~ total_value after <= paid_value after ->
      ~ (0 < paid_value after /\ paid_value after < total_value after) ->
      ~ (Invoice.due_date after < today)%Z ->
      Invoice.status after = Invoice.status prev).

(** An invoice of 100.00 that staff marked [PAID] in the invoice form
    before anything was received, and a payment of 0.00 recorded on it. *)
Definition premarked_invoice : Invoice.t :=
  Invoice.mk (Some 1%Z) 200%Z (mkDec 10000 2) (mkDec 0 2) "PAID".

Definition premarked_db : DB :=
  mkDB [] [] [] [] [premarked_invoice] [] [] [] [] [] [].

Definition zero_payment : payment_spec := (150%Z, "PAY-1", mkDec 0 2).

(** ** Orders *)

(** The sum of quantity times unit price over order items. *)
Definition items_value (l : list OrderItem.t) : Q :=
  fold_right (fun i s => inject_Z (OrderItem.quantity i)
                         * Dec.val (OrderItem.unit_price i) + s) 0 l.

(** The order and the two items of the scenario: tax rate 10, no
    discount, 2 at 10.00 and 1 at 5.00. *)
Definition scenario_order : Order.t :=
  Order.mk (Some 1%Z) "ORD-1" "PENDING" None (mkDec 0 2) (mkDec 1000 2)
           (mkDec 0 2) (mkDec 0 2) (mkDec 0 2).

Definition scenario_db : DB :=
  mkDB [] [] [] [] [] [] [] [] [] [scenario_order]
       [OrderItem.mk (Some 1%Z) 1 7 2 (mkDec 1000 2);
        OrderItem.mk (Some 2%Z) 1 8 1 (mkDec 500 2)].

(** The unit price of the product with key [k], as the database has
    it. *)
Definition price_in (d : DB) (k : Z) : option Decimal :=
  option_map Product.unit_price (Orm.get (products d) k).

(** [m] is the stored movement that the order item [item] creates for
    the ingredient [ing] when the prices are those of [d]. *)
Definition deducts (d : DB) (item : OrderItem.t)
    (ing : MenuItemIngredient.t) (m : StockMovement.t) : Prop :=
  StockMovement.pk m <> None
  /\ StockMovement.product_id m = MenuItemIngredient.product_id ing
  /\ StockMovement.movement_type m = "OUT"
  /\ StockMovement.quantity m
     = Dec.mul (MenuItemIngredient.quantity_needed ing)
               (Dec.of_int (OrderItem.quantity item))
  /\ price_in d (MenuItemIngredient.product_id ing)
     = Some (StockMovement.unit_price m).

(** What the ingredients of [l] take of the product with key [k] for
    the order item [item]. *)
Definition deducted (item : OrderItem.t) (l : list MenuItemIngredient.t)
    (k : Z) : Q :=
  fold_right
    (fun ing s =>
       if (MenuItemIngredient.product_id ing =? k)%Z
       then Dec.val (MenuItemIngredient.quantity_needed ing)
            * inject_Z (OrderItem.quantity item) + s
       else s) 0 l.

(** ** Marking an order paid *)

(** A transaction numbered [n] is stored. *)
Definition transaction_number_taken (d : DB) (n : string) : bool :=
  existsb (fun t => String.eqb n (Transaction.transaction_number t))
          (transactions d).

(** The number [mark_paid] gives the transaction of an order. *)
Definition income_number (o : Order.t) : string :=
  String.append "TXN-" (Order.order_number o).

(** What marking an order paid does, read for every order and every
    database. *)
Definition mark_paid_as_stated (now : Z) (o : Order.t) (d : DB) : Prop :=
  exists o' d',
    Order_mark_paid now o d = (Ok o', d')
    /\ Order.status o' = "PAID"
    /\ match first_revenue_category d with
       | Some c =>
           exists t,
             transactions d' = transactions d ++ [t]
             /\ Transaction.transaction_type t = "INCOME"
             /\ Transaction.amount t = Order.total_amount o
             /\ Transaction.category_id t = AccountCategory.pk c
       | None => transactions d' = transactions d
       end.

(** A served order of 27.50, one revenue category, no transaction. *)
Definition served_order : Order.t :=
  Order.mk (Some 1%Z) "ORD-1" "SERVED" None (mkDec 2500 2) (mkDec 1000 2)
           (mkDec 250 2) (mkDec 0 2) (mkDec 2750 2).

Definition served_db : DB :=
  mkDB [] [] [AccountCategory.mk (Some 1%Z) "700" "REVENUE"] [] [] [] []
       [] [] [served_order] [].

(** The database once the order was marked paid, at instant 1000. *)
Definition paid_once_db : DB := snd (Order_mark_paid 1000 served_order served_db).

(** The order as a second request reads it from that database. *)
Definition paid_once_order : Order.t := Order.set_paid 1000 served_order.

(** ** Reservations *)

(** Table 3 on day 100 at 19:00: the one stored reservation, in the
    status [s], and a new reservation for the same table, day and slot. *)
Definition stored_reservation (s : string) : Reservation.t :=
  Reservation.mk (Some 1%Z) "RES-1" 100 "19:00" (Some 3%Z) s.

Definition booked_db (s : string) : DB :=
  mkDB [] [] [] [] [] []
       [Reservation.mk (Some 1%Z) "RES-1" 100 "19:00" (Some 3%Z) s]
       [] [] [] [].

Definition new_reservation : Reservation.t :=
  Reservation.mk None "RES-2" 100 "19:00" (Some 3%Z) "PENDING".

(** ** Stock that runs out *)

(** 2.00 in stock of product 1; the menu item 1 tracks inventory and
    needs 1.50 of it; an order item asks for 2 of the menu item. *)
Definition short_db : DB :=
  mkDB [Product.mk (Some 1%Z) (mkDec 200 2) (mkDec 0 2) (mkDec 0 2)
                   (mkDec 120 2)]
       [] [] [] [] [] []
       [MenuItem.mk (Some 1%Z) (mkDec 900 2) true]
       [MenuItemIngredient.mk (Some 1%Z) 1 1 (mkDec 150 2)]
       [] [].

Definition short_item : OrderItem.t :=
  OrderItem.mk None 1 1 2 (mkDec 900 2).

(** ** Worked instances *)

(** Product 1 with 10.00 in stock, and five movements against it. *)
Definition ledger_product : Product.t :=
  Product.mk (Some 1%Z) (mkDec 1000 2) (mkDec 500 2) (mkDec 2000 2)
             (mkDec 120 2).

Definition ledger_db : DB :=
  mkDB [ledger_product] [] [] [] [] [] [] [] [] [] [].

Definition ledger_moves : list movement_spec :=
  [("IN", mkDec 500 2, mkDec 120 2);
   ("OUT", mkDec 250 2, mkDec 120 2);
   ("ADJUSTMENT", mkDec 300 2, mkDec 120 2);
   ("RETURN", mkDec 100 2, mkDec 120 2);
   ("WASTE", mkDec 50 2, mkDec 120 2)].

(** The four products of the classification examples. *)
Definition empty_product : Product.t :=
  Product.mk (Some 1%Z) (mkDec 0 2) (mkDec 1000 2) (mkDec 2000 2) (mkDec 0 2).
Definition low_product : Product.t :=
  Product.mk (Some 2%Z) (mkDec 500 2) (mkDec 1000 2) (mkDec 2000 2)
             (mkDec 0 2).
Definition normal_product : Product.t :=
  Product.mk (Some 3%Z) (mkDec 1500 2) (mkDec 1000 2) (mkDec 2000 2)
             (mkDec 0 2).
Definition optimal_product : Product.t :=
  Product.mk (Some 4%Z) (mkDec 2500 2) (mkDec 1000 2) (mkDec 2000 2)
             (mkDec 0 2).

(** An invoice of 54.00 due on day 30, paid by 20.00 on day 10 and by
    34.00 on day 11. *)
Definition sent_invoice : Invoice.t :=
  Invoice.mk (Some 1%Z) 30 (mkDec 5400 2) (mkDec 0 2) "SENT".

Definition sent_db : DB :=
  mkDB [] [] [] [] [sent_invoice] [] [] [] [] [] [].

Definition first_payment : payment_spec := (10%Z, "PAY-1", mkDec 2000 2).
Definition second_payment : payment_spec := (11%Z, "PAY-2", mkDec 3400 2).

Definition part_paid_db : DB := snd (add_payments 1 [first_payment] sent_db).
Definition part_paid_invoice : Invoice.t :=
  Invoice.mk (Some 1%Z) 30 (mkDec 5400 2) (mkDec 2000 2) "PARTIALLY_PAID".
Definition paid_db : DB := snd (add_payments 1 [second_payment] part_paid_db).

(** A menu item that tracks inventory and takes 0.20 of product 1 and
    0.05 of product 2; an order item for 3 of it. *)
Definition kitchen_db : DB :=
  mkDB [Product.mk (Some 1%Z) (mkDec 1000 2) (mkDec 0 2) (mkDec 0 2)
                   (mkDec 350 2);
        Product.mk (Some 2%Z) (mkDec 400 2) (mkDec 0 2) (mkDec 0 2)
                   (mkDec 1200 2)]
       [] [] [] [] [] []
       [MenuItem.mk (Some 1%Z) (mkDec 1450 2) true;
        MenuItem.mk (Some 2%Z) (mkDec 300 2) false]
       [MenuItemIngredient.mk (Some 1%Z) 1 1 (mkDec 20 2);
        MenuItemIngredient.mk (Some 2%Z) 1 2 (mkDec 5 2)]
       [] [].

Definition kitchen_item : OrderItem.t :=
  OrderItem.mk None 1 1 3 (mkDec 1450 2).

(** A stored movement and a stored payment, as a later request reads
    them. *)
Definition stored_movement : StockMovement.t :=
  StockMovement.mk (Some 1%Z) 1 "OUT" (mkDec 250 2) (mkDec 120 2).

Definition stored_payment : Payment.t :=
  Payment.mk (Some 1%Z) "PAY-1" 1 (mkDec 2000 2).

Local Close Scope Q_scope.

(* ================================================================== *)
(** * More vocabulary *)
(* ================================================================== *)

Definition balance_value (i : Invoice.t) : Q :=
  Dec.val (Invoice.remaining_balance i).

(** The reservation [r] counts against the slot [s]: same day, same
    time, and pending or confirmed. *)
Definition takes_spot (s : TimeSlotAvailability.t) (r : Reservation.t)
  : bool :=
  (Reservation.reservation_date r =? TimeSlotAvailability.date s)%Z
  && String.eqb (Reservation.time_slot r) (TimeSlotAvailability.time_slot s)
  && str_in (Reservation.status r) ["PENDING"; "CONFIRMED"].

Definition spot (b : bool) : Z := if b then 1%Z else 0%Z.

(** What a call leaves of the tables of orders, order items and menu
    items. *)
Definition keeps_orders (d d' : DB) : Prop :=
  order_items d' = order_items d /\ orders d' = orders d
  /\ menu_items d' = menu_items d
  /\ menu_item_ingredients d' = menu_item_ingredients d.

(** ** More worked instances *)

(** Product 1 with its stored movement of 2.50 out. *)
Definition moved_db : DB :=
  mkDB [ledger_product] [stored_movement] [] [] [] [] [] [] [] [] [].

(** A product that was drawn 1.00 below zero. *)
Definition overdrawn_product : Product.t :=
  Product.mk (Some 5%Z) (mkDec (-100) 2) (mkDec 1000 2) (mkDec 2000 2)
             (mkDec 0 2).

(** Nothing in stock, no minimum, an optimal stock of 10.00. *)
Definition idle_product : Product.t :=
  Product.mk (Some 6%Z) (mkDec 0 2) (mkDec 0 2) (mkDec 1000 2) (mkDec 0 2).

(** 5.00 in stock for a minimum of 10.00 and an optimal stock of 3.00. *)
Definition inverted_product : Product.t :=
  Product.mk (Some 7%Z) (mkDec 500 2) (mkDec 1000 2) (mkDec 300 2)
             (mkDec 0 2).

(** The invoice of 54.00 once it is paid. *)
Definition settled_invoice : Invoice.t :=
  Invoice.mk (Some 1%Z) 30 (mkDec 5400 2) (mkDec 5400 2) "PAID".

(** The invoice of 54.00 paid by 60.00. *)
Definition overpaid_invoice : Invoice.t :=
  Invoice.mk (Some 1%Z) 30 (mkDec 5400 2) (mkDec 6000 2) "PAID".

Definition overpaid_db : DB :=
  mkDB [] [] [] [] [overpaid_invoice] [] [] [] [] [] [].

Definition third_payment : payment_spec := (12%Z, "PAY-3", mkDec 100 2).

(** The slot of day 100 at 19:00, with room for one reservation. *)
Definition evening_slot : TimeSlotAvailability.t :=
  TimeSlotAvailability.mk (Some 1%Z) 100 "19:00" 1 true.

(** A reservation for another table on the same day and slot. *)
Definition other_table_reservation : Reservation.t :=
  Reservation.mk None "RES-3" 100 "19:00" (Some 4%Z) "PENDING".

(** An open order at 10 per cent of tax, without items. *)
Definition open_order : Order.t :=
  Order.mk (Some 1%Z) "ORD-7" "PENDING" None (mkDec 0 2) (mkDec 1000 2)
           (mkDec 0 2) (mkDec 0 2) (mkDec 0 2).


From Stdlib Require Import Permutation.

(* ================================================================== *)
(** * Purchase orders, stock-takings and invoice lines *)
(* ================================================================== *)

(** ** The models *)

Module PurchaseOrder.
Record t : Type := mk {
  pk : option Z;
  order_number : string;
  status : string;
  actual_delivery_date : option Z;
  total_amount : Decimal
}.

Definition set_total_amount (a : Decimal) (self : t) : t :=
  mk (pk self) (order_number self) (status self) (actual_delivery_date self) a.

(** The two assignments at the end of the view [purchase_order_receive]. *)
Definition set_received (today : Z) (self : t) : t :=
  mk (pk self) (order_number self) "RECEIVED" (Some today)
     (total_amount self).

#[global] Instance model : Model t := {
  pk_of := pk;
  with_pk k self :=
    mk (Some k) (order_number self) (status self)
       (actual_delivery_date self) (total_amount self);
  unique_clash x r := String.eqb (order_number x) (order_number r)
}.
End PurchaseOrder.

Module PurchaseOrderItem.
Record t : Type := mk {
  pk : option Z;
  purchase_order_id : Z;
  product_id : Z;
  quantity : Decimal;
  unit_price : Decimal;
  received_quantity : Decimal
}.

Definition set_received_quantity (q : Decimal) (self : t) : t :=
  mk (pk self) (purchase_order_id self) (product_id self) (quantity self)
     (unit_price self) q.

#[global] Instance model : Model t := {
  pk_of := pk;
  with_pk k self :=
    mk (Some k) (purchase_order_id self) (product_id self) (quantity self)
       (unit_price self) (received_quantity self);
  unique_clash _ _ := false
}.

Definition total_price (self : t) : Decimal :=
  (quantity self * unit_price self)%dec.

Definition is_fully_received (self : t) : bool :=
  (received_quantity self >=? quantity self)%dec.
End PurchaseOrderItem.

(** The model [Inventory], a stock-taking. *)
Module StockTaking.
Record t : Type := mk {
  pk : option Z;
  inventory_number : string;
  status : string
}.

Definition set_status (s : string) (self : t) : t :=
  mk (pk self) (inventory_number self) s.

#[global] Instance model : Model t := {
  pk_of := pk;
  with_pk k self := mk (Some k) (inventory_number self) (status self);
  unique_clash x r := String.eqb (inventory_number x) (inventory_number r)
}.
End StockTaking.

Module InventoryItem.
Record t : Type := mk {
  pk : option Z;
  inventory_id : Z;
  product_id : Z;
  theoretical_quantity : Decimal;
  physical_quantity : Decimal
}.

(** [unique_together = ['inventory', 'product']]. *)
#[global] Instance model : Model t := {
  pk_of := pk;
  with_pk k self :=
    mk (Some k) (inventory_id self) (product_id self)
       (theoretical_quantity self) (physical_quantity self);
  unique_clash x r :=
    (inventory_id x =? inventory_id r)%Z && (product_id x =? product_id r)%Z
}.

Definition discrepancy (self : t) : Decimal :=
  (physical_quantity self - theoretical_quantity self)%dec.

(** [product] is the instance behind [self.product]. *)
Definition discrepancy_value (self : t) (product : Product.t) : Decimal :=
  (discrepancy self * Product.unit_price product)%dec.
End InventoryItem.

Module InvoiceItem.
Record t : Type := mk {
  pk : option Z;
  invoice_id : Z;
  quantity : Decimal;
  unit_price : Decimal
}.

#[global] Instance model : Model t := {
  pk_of := pk;
  with_pk k self :=
    mk (Some k) (invoice_id self) (quantity self) (unit_price self);
  unique_clash _ _ := false
}.

Definition total_price (self : t) : Decimal :=
  (quantity self * unit_price self)%dec.
End InvoiceItem.

(** The columns [subtotal], [tax_rate] and [tax_amount] of an invoice:
    the part of its row that [Invoice.t] leaves out, kept under the key
    of the invoice. *)
Module InvoiceTotals.
Record t : Type := mk {
  pk : option Z;
  subtotal : Decimal;
  tax_rate : Decimal;
  tax_amount : Decimal
}.

Definition set_amounts (sub tax : Decimal) (self : t) : t :=
  mk (pk self) sub (tax_rate self) tax.

#[global] Instance model : Model t := {
  pk_of := pk;
  with_pk k self := mk (Some k) (subtotal self) (tax_rate self)
                       (tax_amount self);
  unique_clash _ _ := false
}.
End InvoiceTotals.

(** ** Decimal columns *)

(** [Decimal.quantize] to a number of decimal places, rounding half to
    even as the default context does. *)
Definition quantize (decimal_places : nat) (a : Decimal) : Decimal :=
  if (Dec.places a <=? decimal_places)%nat then
    mkDec (Dec.coef a * Dec.pow10 (decimal_places - Dec.places a))
          decimal_places
  else
    let unit := Dec.pow10 (Dec.places a - decimal_places) in
    let q := (Dec.coef a / unit)%Z in
    let r := (Dec.coef a mod unit)%Z in
    mkDec (if (2 * r <? unit)%Z then q
           else if (unit <? 2 * r)%Z then (q + 1)%Z
           else if Z.even q then q else (q + 1)%Z)
          decimal_places.

(** A value on its way into a [DecimalField(max_digits,
    decimal_places)] column, as [django.db.backends.utils.format_number]
    prepares it: quantized in a context of [max_digits] digits.  [None]
    stands for [decimal.InvalidOperation], which the quantization raises
    when its result has more digits than that. *)
Definition DecimalField (max_digits decimal_places : nat) (a : Decimal)
  : option Decimal :=
  let r := quantize decimal_places a in
  if (Z.abs (Dec.coef r) <? Dec.pow10 max_digits)%Z then Some r else None.

(** ** The database with these tables *)

Record Store : Type := mkStore {
  db : DB;
  purchase_orders : list PurchaseOrder.t;
  purchase_order_items : list PurchaseOrderItem.t;
  inventories : list StockTaking.t;
  inventory_items : list InventoryItem.t;
  invoice_items : list InvoiceItem.t;
  invoice_totals : list InvoiceTotals.t
}.

Definition set_db (d : DB) (s : Store) : Store :=
  mkStore d (purchase_orders s) (purchase_order_items s) (inventories s)
          (inventory_items s) (invoice_items s) (invoice_totals s).

Record Table (A : Type) : Type := mkTable {
  table_rows : Store -> list A;
  table_put : list A -> Store -> Store
}.
Arguments mkTable {A} _ _.
Arguments table_rows {A} _ _.
Arguments table_put {A} _ _ _.

Definition PurchaseOrder_objects : Table PurchaseOrder.t :=
  mkTable purchase_orders
    (fun t s => mkStore (db s) t (purchase_order_items s) (inventories s)
                        (inventory_items s) (invoice_items s)
                        (invoice_totals s)).

Definition PurchaseOrderItem_objects : Table PurchaseOrderItem.t :=
  mkTable purchase_order_items
    (fun t s => mkStore (db s) (purchase_orders s) t (inventories s)
                        (inventory_items s) (invoice_items s)
                        (invoice_totals s)).

Definition StockTaking_objects : Table StockTaking.t :=
  mkTable inventories
    (fun t s => mkStore (db s) (purchase_orders s) (purchase_order_items s) t
                        (inventory_items s) (invoice_items s)
                        (invoice_totals s)).

Definition InventoryItem_objects : Table InventoryItem.t :=
  mkTable inventory_items
    (fun t s => mkStore (db s) (purchase_orders s) (purchase_order_items s)
                        (inventories s) t (invoice_items s)
                        (invoice_totals s)).

Definition InvoiceItem_objects : Table InvoiceItem.t :=
  mkTable invoice_items
    (fun t s => mkStore (db s) (purchase_orders s) (purchase_order_items s)
                        (inventories s) (inventory_items s) t
                        (invoice_totals s)).

Definition InvoiceTotals_objects : Table InvoiceTotals.t :=
  mkTable invoice_totals
    (fun t s => mkStore (db s) (purchase_orders s) (purchase_order_items s)
                        (inventories s) (inventory_items s)
                        (invoice_items s) t).

(** What a call on these tables can raise: the exceptions of the
    methods above, the one of [QuerySet.get] when several rows match,
    and the one of a decimal column that cannot hold a value. *)
Inductive Failure : Type :=
| Db (e : Exception)
| MultipleObjectsReturned
| InvalidOperation.

Inductive outcome (A : Type) : Type :=
| Done (a : A)
| Failed (e : Failure).
Arguments Done {A} a.
Arguments Failed {A} e.

(** A view: like a method, it keeps what it wrote before it raised. *)
Definition W (A : Type) : Type := Store -> outcome A * Store.

Definition W_ret {A : Type} (a : A) : W A := fun s => (Done a, s).

Definition W_bind {A B : Type} (m : W A) (k : A -> W B) : W B :=
  fun s => match m s with
           | (Done a, s') => k a s'
           | (Failed e, s') => (Failed e, s')
           end.

Declare Scope store_scope.
Delimit Scope store_scope with store.
Notation "x <- m ;; k" := (W_bind m (fun x => k))
  (at level 61, m at next level, right associativity) : store_scope.
Notation "m ;;; k" := (W_bind m (fun _ => k))
  (at level 61, right associativity) : store_scope.

(** A method of the models above, called from a view. *)
Definition lift {A : Type} (m : M A) : W A :=
  fun s => match m (db s) with
           | (Ok a, d) => (Done a, set_db d s)
           | (Raise e, d) => (Failed (Db e), set_db d s)
           end.

Definition Table_save {A : Type} `{Model A} (o : Table A) (self : A) : W A :=
  fun s => match Orm.save (table_rows o s) self with
           | Ok (t, self') => (Done self', table_put o t s)
           | Raise e => (Failed (Db e), s)
           end.

Definition Table_fetch {A : Type} `{Model A} (o : Table A) (k : Z) : W A :=
  fun s => match Orm.get (table_rows o s) k with
           | Some r => (Done r, s)
           | None => (Failed (Db DoesNotExist), s)
           end.

Definition Table_delete {A : Type} `{Model A} (o : Table A) (k : Z)
  : W unit :=
  fun s => (Done tt, table_put o (delete_row k (table_rows o s)) s).

(** ** Saving computed amounts *)

(** The instance with the key of the row that was stored for it. *)
Definition keyed {A : Type} `{Model A} (stored self : A) : A :=
  match Orm.pk_of stored with
  | Some k => Orm.with_pk k self
  | None => self
  end.

(** [Model.save] where the decimal columns count: [columns] gives the
    row as the database holds it, each amount prepared for its column,
    and [save] writes that row; the instance keeps the values it has.
    The methods above save amounts that come from rows and forms, which
    their columns hold as they are; the views below save amounts they
    have computed. *)
Definition save_columns {A : Type} `{Model A} (columns : A -> option A)
    (save : A -> W A) (self : A) : W A :=
  match columns self with
  | None => fun s => (Failed InvalidOperation, s)
  | Some row => (stored <- save row ;; W_ret (keyed stored self))%store
  end.

Definition PurchaseOrder_columns (self : PurchaseOrder.t)
  : option PurchaseOrder.t :=
  match DecimalField 10 2 (PurchaseOrder.total_amount self) with
  | Some total_amount =>
      Some (PurchaseOrder.set_total_amount total_amount self)
  | None => None
  end.

Definition PurchaseOrder_save (self : PurchaseOrder.t) : W PurchaseOrder.t :=
  save_columns PurchaseOrder_columns (Table_save PurchaseOrder_objects) self.

Definition PurchaseOrderItem_columns (self : PurchaseOrderItem.t)
  : option PurchaseOrderItem.t :=
  match DecimalField 10 2 (PurchaseOrderItem.quantity self),
        DecimalField 10 2 (PurchaseOrderItem.unit_price self),
        DecimalField 10 2 (PurchaseOrderItem.received_quantity self) with
  | Some quantity, Some unit_price, Some received_quantity =>
      Some (PurchaseOrderItem.mk
              (PurchaseOrderItem.pk self)
              (PurchaseOrderItem.purchase_order_id self)
              (PurchaseOrderItem.product_id self)
              quantity unit_price received_quantity)
  | _, _, _ => None
  end.

Definition PurchaseOrderItem_save (self : PurchaseOrderItem.t)
  : W PurchaseOrderItem.t :=
  save_columns PurchaseOrderItem_columns
               (Table_save PurchaseOrderItem_objects) self.

(** ** Purchase orders *)

(** [self.items.all()], in the order of the keys. *)
Definition PurchaseOrder_items (s : Store) (self : PurchaseOrder.t)
  : list PurchaseOrderItem.t :=
  filter (fun i => opt_Z_eqb (Some (PurchaseOrderItem.purchase_order_id i))
                             (PurchaseOrder.pk self))
         (purchase_order_items s).

(** [PurchaseOrder.calculate_total]: it changes the instance, not the
    database. *)
Definition PurchaseOrder_calculate_total (s : Store) (self : PurchaseOrder.t)
  : PurchaseOrder.t :=
  let total :=
    py_sum (map PurchaseOrderItem.total_price (PurchaseOrder_items s self)) in
  PurchaseOrder.set_total_amount total self.

(** What the forms of these pages ask of a quantity or a price: its
    column is a [DecimalField(10, 2)] with [MinValueValidator(0)]. *)
Definition clean_decimal (a : Decimal) : bool :=
  DecimalValidator 10 2 a && MinValueValidator 0 a.

(** [PurchaseOrderItemForm.is_valid()] for the fields that are columns
    here, the notes being free: the product is a stored one, and the
    three amounts pass their checks. *)
Definition PurchaseOrderItemForm_is_valid (product_id : Z)
    (quantity unit_price received_quantity : Decimal) : W bool :=
  fun s =>
    (Done (match Orm.get (products (db s)) product_id with
           | Some _ => true
           | None => false
           end
           && clean_decimal quantity && clean_decimal unit_price
           && clean_decimal received_quantity),
     s).

(** The body of the view [purchase_order_add_item] for a POST request:
    an invalid form stores nothing and the page is shown again, [None]
    here. *)
Definition purchase_order_add_item (pk product_id : Z)
    (quantity unit_price received_quantity : Decimal)
  : W (option PurchaseOrder.t) :=
  (order <- Table_fetch PurchaseOrder_objects pk ;;
   valid <- PurchaseOrderItemForm_is_valid product_id quantity unit_price
              received_quantity ;;
   if valid then
     PurchaseOrderItem_save
       (PurchaseOrderItem.mk None pk product_id quantity unit_price
                             received_quantity) ;;;
     order <- (fun s =>
                 PurchaseOrder_save (PurchaseOrder_calculate_total s order)
                                    s) ;;
     W_ret (Some order)
   else W_ret None
  )%store.

(** The body of the view [purchase_order_item_delete] for a POST
    request. *)
Definition purchase_order_item_delete (pk : Z) : W PurchaseOrder.t :=
  (item <- Table_fetch PurchaseOrderItem_objects pk ;;
   order <- Table_fetch PurchaseOrder_objects
              (PurchaseOrderItem.purchase_order_id item) ;;
   Table_delete PurchaseOrderItem_objects pk ;;;
   fun s => PurchaseOrder_save (PurchaseOrder_calculate_total s order) s
  )%store.

(** The loop of the view [purchase_order_receive] over the items read
    at its start. *)
Fixpoint receive_each (items : list PurchaseOrderItem.t) : W unit :=
  match items with
  | [] => W_ret tt
  | item :: items' =>
      ((if (PurchaseOrderItem.received_quantity item
            <? PurchaseOrderItem.quantity item)%dec
        then
          let qty_to_receive :=
            (PurchaseOrderItem.quantity item
             - PurchaseOrderItem.received_quantity item)%dec in
          lift (StockMovement_create (PurchaseOrderItem.product_id item) "IN"
                  qty_to_receive (PurchaseOrderItem.unit_price item)) ;;;
          Table_save PurchaseOrderItem_objects
            (PurchaseOrderItem.set_received_quantity
               (PurchaseOrderItem.quantity item) item) ;;;
          W_ret tt
        else W_ret tt) ;;;
       receive_each items')%store
  end.

(** The body of the view [purchase_order_receive] for a POST request;
    [today] is [timezone.now().date()]. *)
Definition purchase_order_receive (today : Z) (pk : Z) : W PurchaseOrder.t :=
  (order <- Table_fetch PurchaseOrder_objects pk ;;
   (fun s => receive_each (PurchaseOrder_items s order) s) ;;;
   Table_save PurchaseOrder_objects (PurchaseOrder.set_received today order)
  )%store.

(* ================================================================== *)
(** * Vocabulary for purchase orders and stock-takings *)
(* ================================================================== *)

(** ** Amounts in columns *)

(** [x] is the number [y] as a column of two decimal places holds it:
    two places, and within half a cent of [y]. *)
Definition cents (x : Decimal) (y : Q) : Prop :=
  Dec.places x = 2%nat
  /\ (y - (1 # 200) <= Dec.val x)%Q
  /\ (Dec.val x <= y + (1 # 200))%Q.

(** ** Purchase orders *)

(** The item belongs to the purchase order. *)
Definition of_purchase_order (o : PurchaseOrder.t) (i : PurchaseOrderItem.t)
  : bool :=
  opt_Z_eqb (Some (PurchaseOrderItem.purchase_order_id i))
            (PurchaseOrder.pk o).

(** Something of the item is still to come. *)
Definition to_receive (i : PurchaseOrderItem.t) : bool :=
  (PurchaseOrderItem.received_quantity i <? PurchaseOrderItem.quantity i)%dec.

(** The item once everything ordered has come. *)
Definition received (i : PurchaseOrderItem.t) : PurchaseOrderItem.t :=
  PurchaseOrderItem.set_received_quantity (PurchaseOrderItem.quantity i) i.

Definition receive_item (i : PurchaseOrderItem.t) : PurchaseOrderItem.t :=
  if to_receive i then received i else i.

(** The table of items once the purchase order [o] is received. *)
Definition receive_items_of (o : PurchaseOrder.t)
    (t : list PurchaseOrderItem.t) : list PurchaseOrderItem.t :=
  map (fun r => if of_purchase_order o r then receive_item r else r) t.

(** What is still to come of an item, as a number. *)
Definition outstanding (i : PurchaseOrderItem.t) : Q :=
  if to_receive i
  then (Dec.val (PurchaseOrderItem.quantity i)
        - Dec.val (PurchaseOrderItem.received_quantity i))%Q
  else 0%Q.

(** What is still to come of the product with key [k] over the items. *)
Definition outstanding_of (l : list PurchaseOrderItem.t) (k : Z) : Q :=
  fold_right
    (fun i s => if (PurchaseOrderItem.product_id i =? k)%Z
                then (outstanding i + s)%Q else s) 0%Q l.

(** [m] is the stored movement that the reception creates for [i]. *)
Definition receives (i : PurchaseOrderItem.t) (m : StockMovement.t) : Prop :=
  StockMovement.pk m <> None
  /\ StockMovement.product_id m = PurchaseOrderItem.product_id i
  /\ StockMovement.movement_type m = "IN"
  /\ StockMovement.quantity m
     = (PurchaseOrderItem.quantity i
        - PurchaseOrderItem.received_quantity i)%dec
  /\ StockMovement.unit_price m = PurchaseOrderItem.unit_price i.

(** The sum of quantity times unit price over purchase order items. *)
Definition purchase_value (l : list PurchaseOrderItem.t) : Q :=
  fold_right (fun i s => (Dec.val (PurchaseOrderItem.quantity i)
                          * Dec.val (PurchaseOrderItem.unit_price i) + s)%Q)
             0%Q l.

(** One step of the reception on a stored row: the row of the item
    [i] becomes the received item. *)
Definition same_key (i r : PurchaseOrderItem.t) : bool :=
  match PurchaseOrderItem.pk i with
  | Some k => Orm.has_pk k r
  | None => false
  end.

Definition receipt (r i : PurchaseOrderItem.t) : PurchaseOrderItem.t :=
  if to_receive i && same_key i r then received i else r.

Definition receipts (l : list PurchaseOrderItem.t) (r : PurchaseOrderItem.t)
  : PurchaseOrderItem.t :=
  fold_left receipt l r.

(* ================================================================== *)
(** * Stock-takings *)
(* ================================================================== *)

(** [abs] of a [Decimal]. *)
Definition Dec_abs (a : Decimal) : Decimal :=
  mkDec (Z.abs (Dec.coef a)) (Dec.places a).

(** The rows of [InventoryItem] that point to the stock-taking, as the
    table has them. *)
Definition StockTaking_rows (s : Store) (self : StockTaking.t)
  : list InventoryItem.t :=
  filter (fun i => opt_Z_eqb (Some (InventoryItem.inventory_id i))
                             (StockTaking.pk self))
         (inventory_items s).

(** [self.items.all()].  [Meta.ordering] sorts the items by the name of
    their product, which is no column here: [by_name] stands for that
    sort. *)
Definition StockTaking_items
    (by_name : list InventoryItem.t -> list InventoryItem.t)
    (s : Store) (self : StockTaking.t) : list InventoryItem.t :=
  by_name (StockTaking_rows s self).

(** An entry of the list that [calculate_discrepancies] returns. *)
Module Discrepancy.
Record t : Type := mk {
  product : Product.t;
  difference : Decimal;
  value : Decimal
}.
End Discrepancy.

(** The loop of [Inventory.calculate_discrepancies]; [item.product] is
    read when the entry is built. *)
Fixpoint discrepancies_of (items : list InventoryItem.t)
  : W (list Discrepancy.t) :=
  match items with
  | [] => W_ret []
  | item :: items' =>
      let diff := (InventoryItem.physical_quantity item
                   - InventoryItem.theoretical_quantity item)%dec in
      if negb (Dec.eqb diff (Dec.of_int 0)) then
        (product <- lift (fetch Product_objects
                            (InventoryItem.product_id item)) ;;
         discrepancies <- discrepancies_of items' ;;
         W_ret (Discrepancy.mk product diff
                  (diff * Product.unit_price product)%dec
                :: discrepancies))%store
      else discrepancies_of items'
  end.

Definition StockTaking_calculate_discrepancies
    (by_name : list InventoryItem.t -> list InventoryItem.t)
    (self : StockTaking.t) : W (list Discrepancy.t) :=
  fun s => discrepancies_of (StockTaking_items by_name s self) s.

(** [inventory.items.get(product=product)]. *)
Definition StockTaking_items_get (self : StockTaking.t) (product : Product.t)
  : W InventoryItem.t :=
  fun s =>
    match filter (fun i => opt_Z_eqb (Some (InventoryItem.product_id i))
                                     (Product.pk product))
                 (StockTaking_rows s self) with
    | [] => (Failed (Db DoesNotExist), s)
    | [item] => (Done item, s)
    | _ :: _ :: _ => (Failed MultipleObjectsReturned, s)
    end.

(** The loop of the view [inventory_complete] over the discrepancies.
    The product of an entry was read from its table, so it has a key;
    a movement cannot point to a product without one. *)
Fixpoint adjust_each (inventory : StockTaking.t)
    (discrepancies : list Discrepancy.t) : W unit :=
  match discrepancies with
  | [] => W_ret tt
  | disc :: discrepancies' =>
      let product := Discrepancy.product disc in
      match Product.pk product with
      | None => fun s => (Failed (Db IntegrityError), s)
      | Some product_id =>
          (r <- lift (StockMovement_save
                        (StockMovement.mk None product_id "ADJUSTMENT"
                           (Dec_abs (Discrepancy.difference disc))
                           (Product.unit_price product))
                        product) ;;
           let product := snd r in
           item <- StockTaking_items_get inventory product ;;
           lift (Model_save Product_objects
                   (Product.set_quantity_in_stock
                      (InventoryItem.physical_quantity item) product)) ;;;
           adjust_each inventory discrepancies')%store
      end
  end.

(** The body of the view [inventory_complete] for a POST request. *)
Definition inventory_complete
    (by_name : list InventoryItem.t -> list InventoryItem.t) (pk : Z)
  : W StockTaking.t :=
  (inventory <- Table_fetch StockTaking_objects pk ;;
   discrepancies <- StockTaking_calculate_discrepancies by_name inventory ;;
   adjust_each inventory discrepancies ;;;
   Table_save StockTaking_objects
     (StockTaking.set_status "COMPLETED" inventory))%store.

(** ** Vocabulary *)

(** The count of the item differs from the quantity it expected. *)
Definition differs (i : InventoryItem.t) : bool :=
  negb (Dec.eqb (InventoryItem.discrepancy i) (Dec.of_int 0)).

(** [m] is the stored movement that the completion creates for the item
    [i] when the prices are those of [d]. *)
Definition adjusts (d : DB) (i : InventoryItem.t) (m : StockMovement.t)
  : Prop :=
  StockMovement.pk m <> None
  /\ StockMovement.product_id m = InventoryItem.product_id i
  /\ StockMovement.movement_type m = "ADJUSTMENT"
  /\ StockMovement.quantity m = Dec_abs (InventoryItem.discrepancy i)
  /\ price_in d (InventoryItem.product_id i)
     = Some (StockMovement.unit_price m).

(** The product row once the item was counted. *)
Definition counted (i : InventoryItem.t) (p : Product.t) : Product.t :=
  if differs i
  then Product.set_quantity_in_stock (InventoryItem.physical_quantity i) p
  else p.

(** [e] is the entry that [calculate_discrepancies] builds for [i]
    when the products are those of [d]. *)
Definition entry_of (d : DB) (i : InventoryItem.t) (e : Discrepancy.t)
  : Prop :=
  Orm.get (products d) (InventoryItem.product_id i)
  = Some (Discrepancy.product e)
  /\ Discrepancy.difference e = InventoryItem.discrepancy i
  /\ Discrepancy.value e
     = InventoryItem.discrepancy_value i (Discrepancy.product e).

(** The stock-taking has the item [i] and no other for its product. *)
Definition only_item (s : Store) (inv : StockTaking.t) (i : InventoryItem.t)
  : Prop :=
  filter (fun r => (InventoryItem.product_id r =? InventoryItem.product_id i)%Z)
         (StockTaking_rows s inv) = [i].

(* ================================================================== *)
(** * Invoice lines *)
(* ================================================================== *)

(** An invoice instance: the columns of [Invoice.t] and the three of
    [InvoiceTotals.t]. *)
Definition InvoiceInstance : Type := (Invoice.t * InvoiceTotals.t)%type.

Definition Invoice_set_total_amount (a : Decimal) (self : Invoice.t)
  : Invoice.t :=
  Invoice.mk (Invoice.pk self) (Invoice.due_date self) a
             (Invoice.paid_amount self) (Invoice.status self).

(** [self.items.all()], in the order of the keys. *)
Definition Invoice_items (s : Store) (self : Invoice.t) : list InvoiceItem.t :=
  filter (fun i => opt_Z_eqb (Some (InvoiceItem.invoice_id i))
                             (Invoice.pk self))
         (invoice_items s).

(** [Invoice.calculate_totals]: it changes the instance, not the
    database. *)
Definition Invoice_calculate_totals (s : Store) (self : InvoiceInstance)
  : InvoiceInstance :=
  let subtotal :=
    py_sum (map InvoiceItem.total_price (Invoice_items s (fst self))) in
  let tax_amount :=
    Dec.div100 (subtotal * InvoiceTotals.tax_rate (snd self))%dec in
  let total_amount := (subtotal + tax_amount)%dec in
  (Invoice_set_total_amount total_amount (fst self),
   InvoiceTotals.set_amounts subtotal tax_amount (snd self)).

(** [get_object_or_404(Invoice, pk=pk)], or following the foreign key
    of an item: both parts of the row. *)
Definition Invoice_fetch (pk : Z) : W InvoiceInstance :=
  (invoice <- lift (fetch Invoice_objects pk) ;;
   totals <- Table_fetch InvoiceTotals_objects pk ;;
   W_ret (invoice, totals))%store.

#[global] Instance InvoiceInstance_model : Model InvoiceInstance := {
  pk_of self := Invoice.pk (fst self);
  with_pk k self := (Orm.with_pk k (fst self), Orm.with_pk k (snd self));
  unique_clash _ _ := false
}.

Definition Invoice_columns (self : InvoiceInstance) : option InvoiceInstance :=
  match DecimalField 10 2 (InvoiceTotals.subtotal (snd self)),
        DecimalField 5 2 (InvoiceTotals.tax_rate (snd self)),
        DecimalField 10 2 (InvoiceTotals.tax_amount (snd self)),
        DecimalField 10 2 (Invoice.total_amount (fst self)),
        DecimalField 10 2 (Invoice.paid_amount (fst self)) with
  | Some subtotal, Some tax_rate, Some tax_amount, Some total_amount,
    Some paid_amount =>
      Some (Invoice.mk (Invoice.pk (fst self)) (Invoice.due_date (fst self))
                       total_amount paid_amount (Invoice.status (fst self)),
            InvoiceTotals.mk (InvoiceTotals.pk (snd self)) subtotal tax_rate
                             tax_amount)
  | _, _, _, _, _ => None
  end.

(** [invoice.save()] after [calculate_totals]: both parts of the row
    are written. *)
Definition Invoice_save (self : InvoiceInstance) : W InvoiceInstance :=
  save_columns Invoice_columns
    (fun row =>
       (invoice <- lift (Model_save Invoice_objects (fst row)) ;;
        totals <- Table_save InvoiceTotals_objects (snd row) ;;
        W_ret (invoice, totals))%store)
    self.

Definition InvoiceItem_columns (self : InvoiceItem.t) : option InvoiceItem.t :=
  match DecimalField 10 2 (InvoiceItem.quantity self),
        DecimalField 10 2 (InvoiceItem.unit_price self) with
  | Some quantity, Some unit_price =>
      Some (InvoiceItem.mk (InvoiceItem.pk self) (InvoiceItem.invoice_id self)
                           quantity unit_price)
  | _, _ => None
  end.

Definition InvoiceItem_save (self : InvoiceItem.t) : W InvoiceItem.t :=
  save_columns InvoiceItem_columns (Table_save InvoiceItem_objects) self.

(** [InvoiceItemForm.is_valid()] for the fields that are columns here,
    the description being given: the quantity and the price pass their
    checks. *)
Definition InvoiceItemForm_is_valid (quantity unit_price : Decimal) : bool :=
  clean_decimal quantity && clean_decimal unit_price.

(** The body of the view [invoice_add_item] for a POST request: an
    invalid form stores nothing and the page is shown again, [None]
    here. *)
Definition invoice_add_item (pk : Z) (quantity unit_price : Decimal)
  : W (option InvoiceInstance) :=
  (invoice <- Invoice_fetch pk ;;
   if InvoiceItemForm_is_valid quantity unit_price then
     InvoiceItem_save (InvoiceItem.mk None pk quantity unit_price) ;;;
     invoice <- (fun s => Invoice_save (Invoice_calculate_totals s invoice)
                                       s) ;;
     W_ret (Some invoice)
   else W_ret None)%store.

(** The body of the view [invoice_item_delete] for a POST request. *)
Definition invoice_item_delete (pk : Z) : W InvoiceInstance :=
  (item <- Table_fetch InvoiceItem_objects pk ;;
   invoice <- Invoice_fetch (InvoiceItem.invoice_id item) ;;
   Table_delete InvoiceItem_objects pk ;;;
   fun s => Invoice_save (Invoice_calculate_totals s invoice) s)%store.

(** ** Vocabulary *)

(** The sum of quantity times unit price over invoice lines. *)
Definition lines_value (l : list InvoiceItem.t) : Q :=
  fold_right (fun i s => (Dec.val (InvoiceItem.quantity i)
                          * Dec.val (InvoiceItem.unit_price i) + s)%Q)
             0%Q l.

(** A subtotal with the tax at [rate] per cent. *)
Definition with_tax (rate : Decimal) (subtotal : Q) : Q :=
  (subtotal + subtotal * Dec.val rate / 100)%Q.

(* ================================================================== *)
(** * Worked instances on these tables *)
(* ================================================================== *)

(** A cancelled purchase order: 5.00 of product 1 at 1.20, of which 2.00
    have come, and 3.00 of product 2 at 2.50, which have all come; and an
    item of another order.  The products are those of [kitchen_db]:
    10.00 of product 1 and 4.00 of product 2. *)
Definition supply_order : PurchaseOrder.t :=
  PurchaseOrder.mk (Some 1%Z) "PO-1" "CANCELLED" None (mkDec 1350 2).

Definition supply_items : list PurchaseOrderItem.t :=
  [PurchaseOrderItem.mk (Some 1%Z) 1 1 (mkDec 500 2) (mkDec 120 2)
                        (mkDec 200 2);
   PurchaseOrderItem.mk (Some 2%Z) 1 2 (mkDec 300 2) (mkDec 250 2)
                        (mkDec 300 2);
   PurchaseOrderItem.mk (Some 3%Z) 2 1 (mkDec 100 2) (mkDec 120 2)
                        (mkDec 0 2)].

Definition supply_store : Store :=
  mkStore kitchen_db [supply_order] supply_items [] [] [] [].

(** A stock-taking of the same products: product 1 was expected at
    10.00 and counted at 8.50; product 2 was expected at 6.00 and
    counted at 6.00, while 4.00 are in stock. *)
Definition count : StockTaking.t :=
  StockTaking.mk (Some 1%Z) "INV-1" "IN_PROGRESS".

Definition count_items : list InventoryItem.t :=
  [InventoryItem.mk (Some 1%Z) 1 1 (mkDec 1000 2) (mkDec 850 2);
   InventoryItem.mk (Some 2%Z) 1 2 (mkDec 600 2) (mkDec 600 2)].

Definition count_store : Store :=
  mkStore kitchen_db [] [] [count] count_items [] [].

(** The order the rows are stored in, for the sort by name. *)
Definition as_stored (l : list InventoryItem.t) : list InventoryItem.t := l.

(** The paid invoice of 54.00: one line of 1.00 at 45.00, and 20 per
    cent of tax. *)
Definition billed_line : InvoiceItem.t :=
  InvoiceItem.mk (Some 1%Z) 1 (mkDec 100 2) (mkDec 4500 2).

Definition billed_totals : InvoiceTotals.t :=
  InvoiceTotals.mk (Some 1%Z) (mkDec 4500 2) (mkDec 2000 2) (mkDec 900 2).

Definition billed_store : Store :=
  mkStore (mkDB [] [] [] [] [settled_invoice] [] [] [] [] [] [])
          [] [] [] [] [billed_line] [billed_totals].

(* ================================================================== *)
(** * The views on order items *)
(* ================================================================== *)

Definition Order_columns (self : Order.t) : option Order.t :=
  match DecimalField 10 2 (Order.subtotal self),
        DecimalField 5 2 (Order.tax_rate self),
        DecimalField 10 2 (Order.tax_amount self),
        DecimalField 10 2 (Order.discount_amount self),
        DecimalField 10 2 (Order.total_amount self) with
  | Some subtotal, Some tax_rate, Some tax_amount, Some discount_amount,
    Some total_amount =>
      Some (Order.mk (Order.pk self) (Order.order_number self)
                     (Order.status self) (Order.paid_at self)
                     subtotal tax_rate tax_amount discount_amount
                     total_amount)
  | _, _, _, _, _ => None
  end.

(** [order.save()] after [calculate_totals]. *)
Definition Order_save (self : Order.t) : W Order.t :=
  save_columns Order_columns (fun row => lift (Model_save Order_objects row))
               self.

(** [OrderItemForm.is_valid()] for the fields that are columns here,
    the instructions being free: the menu item is one of
    [MenuItem.objects.filter(is_available=True)], where [is_available]
    gives the column of that name of the menu item with a key, and the
    quantity passes [MinValueValidator(1)]. *)
Definition OrderItemForm_is_valid (is_available : Z -> bool)
    (menu_item_id quantity : Z) : W bool :=
  fun s =>
    (Done (match Orm.get (menu_items (db s)) menu_item_id with
           | Some _ => is_available menu_item_id
           | None => false
           end
           && (1 <=? quantity)%Z),
     s).

(** The body of the view [order_add_items] for a POST request whose
    form names the menu item [menu_item_id] and the quantity
    [quantity]: an invalid form stores nothing and the page is shown
    again, [None] here. *)
Definition order_add_items (is_available : Z -> bool)
    (pk menu_item_id quantity : Z) : W (option Order.t) :=
  (order <- lift (fetch Order_objects pk) ;;
   valid <- OrderItemForm_is_valid is_available menu_item_id quantity ;;
   if valid then
     menu_item <- lift (fetch MenuItem_objects menu_item_id) ;;
     lift (OrderItem_save
             (OrderItem.mk None pk menu_item_id quantity
                           (MenuItem.price menu_item))) ;;;
     order <- (fun s => Order_save (Order_calculate_totals (db s) order) s) ;;
     W_ret (Some order)
   else W_ret None)%store.

(** The body of the view [order_item_delete] for a POST request. *)
Definition order_item_delete (pk : Z) : W Order.t :=
  (item <- lift (fetch OrderItem_objects pk) ;;
   order <- lift (fetch Order_objects (OrderItem.order_id item)) ;;
   lift (Model_delete OrderItem_objects pk) ;;;
   fun s => Order_save (Order_calculate_totals (db s) order) s)%store.

(** ** Vocabulary *)

(** The value is one that its column holds as it is. *)
Definition column_value (max_digits decimal_places : nat) (a : Decimal)
  : Prop :=
  DecimalField max_digits decimal_places a = Some a.

(** The stored totals of [row] follow from the subtotal [sub] at the tax
    rate and the discount of the order [o], each as its column of two
    decimal places holds it. *)
Definition totals_follow (o row : Order.t) (sub : Q) : Prop :=
  cents (Order.subtotal row) sub
  /\ cents (Order.tax_amount row) (sub * Dec.val (Order.tax_rate o) / 100)
  /\ cents (Order.total_amount row)
           (sub + sub * Dec.val (Order.tax_rate o) / 100
            - Dec.val (Order.discount_amount o)).

(** ** Worked instances *)

(** Every dish is on offer. *)
Definition on_offer (menu_item_id : Z) : bool := true.

(** The kitchen of [kitchen_db] with the open order, and a third dish
    at 14.55 that does not track inventory. *)
Definition bistro_store : Store :=
  mkStore
    (mkDB (products kitchen_db) [] [] [] [] [] []
          (menu_items kitchen_db
           ++ [MenuItem.mk (Some 3%Z) (mkDec 1455 2) false])
          (menu_item_ingredients kitchen_db) [open_order] [])
    [] [] [] [] [] [].

(** An order at 10 per cent of tax with 2 at 10.00 and 1 at 14.55:
    34.55, 3.46 of tax, 38.00 in all. *)
Definition table_order : Order.t :=
  Order.mk (Some 1%Z) "ORD-8" "PREPARING" None (mkDec 3455 2) (mkDec 1000 2)
           (mkDec 346 2) (mkDec 0 2) (mkDec 3800 2).

Definition table_store : Store :=
  mkStore
    (mkDB [] [] [] [] [] [] [] [] [] [table_order]
          [OrderItem.mk (Some 1%Z) 1 7 2 (mkDec 1000 2);
           OrderItem.mk (Some 2%Z) 1 3 1 (mkDec 1455 2)])
    [] [] [] [] [] [].

(* ================================================================== *)
(** * Facts about [Decimal] *)
(* ================================================================== *)

Module DecFacts.
Import Dec.

Lemma pow10_pos n : 0 < pow10 n.
Proof. unfold pow10. apply Z.pow_pos_nonneg; lia. Qed.

Lemma pow10_add n m : pow10 (n + m) = pow10 n * pow10 m.
Proof. unfold pow10. rewrite Nat2Z.inj_add, Z.pow_add_r; lia. Qed.

Lemma pow10_0 : pow10 0 = 1.
Proof. reflexivity. Qed.

Lemma pow10_max_l n m : pow10 (Nat.max n m) = pow10 (Nat.max n m - n) * pow10 n.
Proof. rewrite <- pow10_add. f_equal. lia. Qed.

Lemma pow10_max_r n m : pow10 (Nat.max n m) = pow10 (Nat.max n m - m) * pow10 m.
Proof. rewrite <- pow10_add. f_equal. lia. Qed.

(** A quotient of integers with a positive denominator. *)
Lemma frac_eq (a b c d : Z) :
  0 < b -> 0 < d ->
  (inject_Z a / inject_Z b == inject_Z c / inject_Z d)%Q <-> a * d = c * b.
Proof.
  intros Hb Hd.
  destruct b as [|b|b]; try lia. destruct d as [|d|d]; try lia.
  unfold Qeq, Qdiv, Qmult, Qinv, inject_Z; simpl. lia.
Qed.

Lemma frac_le (a b c d : Z) :
  0 < b -> 0 < d ->
  (inject_Z a / inject_Z b <= inject_Z c / inject_Z d)%Q <-> a * d <= c * b.
Proof.
  intros Hb Hd.
  destruct b as [|b|b]; try lia. destruct d as [|d|d]; try lia.
  unfold Qle, Qdiv, Qmult, Qinv, inject_Z; simpl. lia.
Qed.

Lemma frac_lt (a b c d : Z) :
  0 < b -> 0 < d ->
  (inject_Z a / inject_Z b < inject_Z c / inject_Z d)%Q <-> a * d < c * b.
Proof.
  intros Hb Hd.
  destruct b as [|b|b]; try lia. destruct d as [|d|d]; try lia.
  unfold Qlt, Qdiv, Qmult, Qinv, inject_Z; simpl. lia.
Qed.

Lemma val_of_int n : (val (of_int n) == inject_Z n)%Q.
Proof. unfold val, of_int; simpl. rewrite pow10_0. field. Qed.


Lemma inject_nonzero z : 0 < z -> ~ (inject_Z z == 0)%Q.
Proof. intros Hz. unfold Qeq; simpl. lia. Qed.

Lemma frac_plus (x y e : Z) :
  0 < e ->
  (inject_Z (x + y) / inject_Z e
   == inject_Z x / inject_Z e + inject_Z y / inject_Z e)%Q.
Proof.
  intros He. rewrite inject_Z_plus. field. now apply inject_nonzero.
Qed.

Lemma frac_minus (x y e : Z) :
  0 < e ->
  (inject_Z (x - y) / inject_Z e
   == inject_Z x / inject_Z e - inject_Z y / inject_Z e)%Q.
Proof.
  intros He. unfold Z.sub. rewrite inject_Z_plus, inject_Z_opp. field.
  now apply inject_nonzero.
Qed.

Lemma frac_scale (c k p : Z) :
  0 < p -> 0 < k ->
  (inject_Z (c * k) / inject_Z (k * p) == inject_Z c / inject_Z p)%Q.
Proof. intros Hp Hk. apply frac_eq; nia. Qed.

Lemma val_add a b : (val (add a b) == val a + val b)%Q.
Proof.
  unfold val, add; cbn [coef places].
  pose proof (pow10_pos (places a)). pose proof (pow10_pos (places b)).
  pose proof (pow10_pos (Nat.max (places a) (places b) - places a)).
  pose proof (pow10_pos (Nat.max (places a) (places b) - places b)).
  pose proof (pow10_pos (Nat.max (places a) (places b))).
  rewrite frac_plus by assumption.
  apply Qplus_comp.
  - rewrite (pow10_max_l (places a) (places b)) at 1. now apply frac_scale.
  - rewrite (pow10_max_r (places a) (places b)) at 1. now apply frac_scale.
Qed.

Lemma val_sub a b : (val (sub a b) == val a - val b)%Q.
Proof.
  unfold val, sub; cbn [coef places].
  pose proof (pow10_pos (places a)). pose proof (pow10_pos (places b)).
  pose proof (pow10_pos (Nat.max (places a) (places b) - places a)).
  pose proof (pow10_pos (Nat.max (places a) (places b) - places b)).
  pose proof (pow10_pos (Nat.max (places a) (places b))).
  rewrite frac_minus by assumption.
  unfold Qminus. apply Qplus_comp; [|apply Qopp_comp].
  - rewrite (pow10_max_l (places a) (places b)) at 1. now apply frac_scale.
  - rewrite (pow10_max_r (places a) (places b)) at 1. now apply frac_scale.
Qed.

Lemma val_mul a b : (val (mul a b) == val a * val b)%Q.
Proof.
  unfold val, mul; cbn [coef places].
  rewrite pow10_add, !inject_Z_mult. field.
  split; apply inject_nonzero, pow10_pos.
Qed.

Lemma val_div100 a : (val (div100 a) == val a / inject_Z 100)%Q.
Proof.
  pose proof (pow10_pos (places a)) as Hp.
  assert (H100 : (val a / inject_Z 100
                  == inject_Z (coef a) / inject_Z (pow10 (places a) * 100))%Q).
  { unfold val. rewrite inject_Z_mult. field. apply inject_nonzero, Hp. }
  rewrite H100. unfold div100, val.
  destruct (Z.eqb_spec (coef a mod 100) 0) as [E|E];
    [|destruct (Z.eqb_spec (coef a mod 10) 0) as [E'|E']];
    cbn [coef places]; rewrite ?pow10_add.
  - apply frac_eq; try lia.
    pose proof (Z.div_mod (coef a) 100). nia.
  - change (pow10 1) with 10.
    apply frac_eq; try lia.
    pose proof (Z.div_mod (coef a) 10). nia.
  - change (pow10 2) with 100.
    apply frac_eq; lia.
Qed.

Lemma leb_le a b : leb a b = true <-> (val a <= val b)%Q.
Proof.
  unfold leb, val. rewrite Z.leb_le. symmetry. apply frac_le; apply pow10_pos.
Qed.

Lemma ltb_lt a b : ltb a b = true <-> (val a < val b)%Q.
Proof.
  unfold ltb, val. rewrite Z.ltb_lt. symmetry. apply frac_lt; apply pow10_pos.
Qed.

Lemma eqb_eq a b : eqb a b = true <-> (val a == val b)%Q.
Proof.
  unfold eqb, val. rewrite Z.eqb_eq. symmetry. apply frac_eq; apply pow10_pos.
Qed.

Lemma leb_gt a b : leb a b = false <-> (val b < val a)%Q.
Proof.
  rewrite <- ltb_lt. unfold leb, ltb. rewrite Z.leb_gt, Z.ltb_lt. tauto.
Qed.

Lemma ltb_ge a b : ltb a b = false <-> (val b <= val a)%Q.
Proof.
  rewrite <- leb_le. unfold leb, ltb. rewrite Z.ltb_ge, Z.leb_le. tauto.
Qed.

End DecFacts.

(* ================================================================== *)
(** * Facts about tables *)
(* ================================================================== *)

Module OrmFacts.
Import Orm.

Section Table.
Context {A : Type} `{Model A}.

Lemma get_has_pk (t : list A) k r : get t k = Some r -> has_pk k r = true.
Proof. intros Hg. apply find_some in Hg. tauto. Qed.

Lemma get_In (t : list A) k r : get t k = Some r -> In r t.
Proof. intros Hg. apply find_some in Hg. tauto. Qed.

Lemma has_pk_iff k (r : A) : has_pk k r = true <-> pk_of r = Some k.
Proof.
  unfold has_pk. destruct (pk_of r) as [k'|]; [|split; discriminate].
  rewrite Z.eqb_eq. split; congruence.
Qed.

Lemma get_pk (t : list A) k r : get t k = Some r -> pk_of r = Some k.
Proof. intros Hg. now apply has_pk_iff, (get_has_pk t). Qed.

Lemma get_exists (t : list A) k r :
  get t k = Some r -> existsb (has_pk k) t = true.
Proof.
  intros Hg. apply existsb_exists. exists r.
  split; [eapply get_In | eapply get_has_pk]; eassumption.
Qed.

Lemma get_replace_row (t : list A) k x r :
  pk_of x = Some k -> get t k = Some r -> get (replace_row k x t) k = Some x.
Proof.
  intros Hx. apply has_pk_iff in Hx. unfold get, replace_row.
  induction t as [|a t IH]; simpl; [discriminate|].
  destruct (has_pk k a) eqn:Ha.
  - now rewrite Hx.
  - rewrite Ha. exact IH.
Qed.

Lemma has_pk_other k k' (r : A) :
  pk_of r = Some k -> k' <> k -> has_pk k' r = false.
Proof.
  intros Hr Hk. unfold has_pk. rewrite Hr. now apply Z.eqb_neq.
Qed.

Lemma get_replace_row_other (t : list A) k k' x :
  pk_of x = Some k -> k' <> k -> get (replace_row k x t) k' = get t k'.
Proof.
  intros Hx Hk. unfold get, replace_row.
  induction t as [|a t IH]; simpl; [reflexivity|].
  destruct (has_pk k a) eqn:Ha.
  - apply has_pk_iff in Ha.
    rewrite (has_pk_other k k' x Hx Hk), (has_pk_other k k' a Ha Hk).
    exact IH.
  - now rewrite IH.
Qed.

Lemma violates_unconstrained (t : list A) x :
  (forall a b : A, unique_clash a b = false) -> violates t x = false.
Proof.
  intros Hu. unfold violates. induction t as [|a t IH]; simpl; [reflexivity|].
  now rewrite Hu, andb_false_r, IH.
Qed.

Lemma save_insert (t : list A) x :
  violates t x = false -> pk_of x = None ->
  save t x = Ok (t ++ [with_pk (next_pk t) x], with_pk (next_pk t) x).
Proof. intros Hv Hx. unfold save. now rewrite Hv, Hx. Qed.

Lemma save_update (t : list A) x k r :
  violates t x = false -> pk_of x = Some k -> get t k = Some r ->
  save t x = Ok (replace_row k x t, x).
Proof.
  intros Hv Hx Hg. unfold save. now rewrite Hv, Hx, (get_exists t k r Hg).
Qed.

Lemma save_violation (t : list A) x :
  violates t x = true -> save t x = Raise IntegrityError.
Proof. intros Hv. unfold save. now rewrite Hv. Qed.
End Table.

End OrmFacts.

(* ================================================================== *)
(** * The stock ledger *)
(* ================================================================== *)

Module Inventory.
Import Orm OrmFacts.

(** The branch taken by a new movement changes the quantity on hand by
    the signed quantity of the movement. *)
Lemma StockMovement_apply_value m p :
  (quantity_value (StockMovement_apply m p)
   == quantity_value p
      + signed (StockMovement.movement_type m)
               (Dec.val (StockMovement.quantity m)))%Q.
Proof.
  unfold StockMovement_apply, signed, quantity_value, str_in; simpl.
  destruct (String.eqb_spec (StockMovement.movement_type m) "IN") as [E|E];
    simpl; [rewrite DecFacts.val_add; reflexivity|].
  destruct (String.eqb_spec (StockMovement.movement_type m) "OUT") as [E1|E1];
    simpl.
  { rewrite E1; simpl. rewrite DecFacts.val_sub. reflexivity. }
  destruct (String.eqb_spec (StockMovement.movement_type m) "WASTE") as [E2|E2];
    simpl.
  { rewrite E2; simpl. rewrite DecFacts.val_sub. reflexivity. }
  destruct (String.eqb_spec (StockMovement.movement_type m) "ADJUSTMENT")
    as [E3|E3]; simpl.
  { rewrite E3; simpl. ring. }
  destruct (String.eqb_spec (StockMovement.movement_type m) "RETURN")
    as [E4|E4]; simpl; [rewrite DecFacts.val_add; reflexivity|ring].
Qed.

Lemma StockMovement_apply_frame m p :
  Product.pk (StockMovement_apply m p) = Product.pk p
  /\ Product.unit_price (StockMovement_apply m p) = Product.unit_price p
  /\ Product.minimum_stock (StockMovement_apply m p) = Product.minimum_stock p
  /\ Product.optimal_stock (StockMovement_apply m p) = Product.optimal_stock p.
Proof.
  unfold StockMovement_apply.
  repeat match goal with |- context [if ?b then _ else _] => destruct b end;
    simpl; auto.
Qed.

Lemma StockMovement_save_new d m p k r :
  StockMovement.pk m = None ->
  Product.pk p = Some k ->
  get (products d) k = Some r ->
  StockMovement_save m p d
  = (Ok (with_pk (next_pk (stock_movements d)) m, StockMovement_apply m p),
     after_movement d k m p).
Proof.
  intros Hm Hp Hr.
  unfold StockMovement_save, bind, Model_save, ret. rewrite Hm. simpl.
  rewrite (save_update (products d) (StockMovement_apply m p) k r);
    [|now apply violates_unconstrained
     |exact (eq_trans (proj1 (StockMovement_apply_frame m p)) Hp)
     |assumption].
  simpl.
  rewrite save_insert; [reflexivity|now apply violates_unconstrained|exact Hm].
Qed.

Lemma StockMovement_create_spec d k p mt q up :
  get (products d) k = Some p ->
  let m := StockMovement.mk None k mt q up in
  StockMovement_create k mt q up d
  = (Ok (with_pk (next_pk (stock_movements d)) m), after_movement d k m p).
Proof.
  intros Hp m. unfold StockMovement_create, bind at 1, fetch.
  change (rows Product_objects d) with (products d). rewrite Hp.
  unfold bind. fold m.
  rewrite (StockMovement_save_new d m p k p);
    [reflexivity|reflexivity|exact (get_pk _ _ _ Hp)|assumption].
Qed.

Lemma after_movement_product d k m p :
  Product.pk p = Some k -> get (products d) k = Some p ->
  get (products (after_movement d k m p)) k = Some (StockMovement_apply m p).
Proof.
  intros Hk Hp. unfold after_movement; simpl.
  apply get_replace_row with (r := p); [|assumption].
  exact (eq_trans (proj1 (StockMovement_apply_frame m p)) Hk).
Qed.

(** C1.  For every product of the database and every list of movements
    created against it one after the other, every creation succeeds, one
    movement row is stored per creation, and the quantity in stock ends
    at the initial quantity plus the signed sum of the movements: [IN]
    and [RETURN] add their quantity, [OUT] and [WASTE] subtract it,
    [ADJUSTMENT] adds nothing. *)
Theorem stock_is_initial_plus_signed_sum :
  forall (l : list movement_spec) (d : DB) (k : Z) (p : Product.t),
    get (products d) k = Some p ->
    exists d' p',
      create_movements k l d = (Ok tt, d')
      /\ get (products d') k = Some p'
      /\ (quantity_value p' == quantity_value p + signed_sum l)%Q
      /\ List.length (stock_movements d')
         = (List.length (stock_movements d) + List.length l)%nat.
Proof.
  induction l as [|[[mt q] up] l IH]; intros d k p Hp.
  - exists d, p. simpl. repeat split; try assumption.
    + ring.
    + now rewrite Nat.add_0_r.
  - set (m := StockMovement.mk None k mt q up).
    pose proof (get_pk _ _ _ Hp) as Hk.
    destruct (IH (after_movement d k m p) k (StockMovement_apply m p)
                (after_movement_product d k m p Hk Hp))
      as (d' & p' & Hrun & Hget & Hval & Hlen).
    exists d', p'. repeat split.
    + simpl. unfold bind at 1.
      rewrite (StockMovement_create_spec d k p mt q up Hp). exact Hrun.
    + exact Hget.
    + rewrite Hval, StockMovement_apply_value. simpl. ring.
    + rewrite Hlen. unfold after_movement; simpl.
      rewrite length_app; simpl. lia.
Qed.

Lemma val_zero : (Dec.val (Dec.of_int 0) == 0)%Q.
Proof. rewrite DecFacts.val_of_int. reflexivity. Qed.

(** Case analysis on the [Decimal] comparisons of the goal, each turned
    into the order of the numbers compared. *)
Ltac dec_cases :=
  repeat match goal with
    | |- context [Dec.leb ?a ?b] =>
        let E := fresh "E" in
        destruct (Dec.leb a b) eqn:E;
        [apply DecFacts.leb_le in E | apply DecFacts.leb_gt in E];
        rewrite ?val_zero in E
    | |- context [Dec.ltb ?a ?b] =>
        let E := fresh "E" in
        destruct (Dec.ltb a b) eqn:E;
        [apply DecFacts.ltb_lt in E | apply DecFacts.ltb_ge in E];
        rewrite ?val_zero in E
    end.

(** Two hypotheses that order the same numbers both ways. *)
Ltac q_contradiction :=
  match goal with
  | H1 : (?a < ?b)%Q, H2 : (?b <= ?a)%Q |- _ => exact (Qlt_not_le _ _ H1 H2)
  | H1 : (?a < ?b)%Q, H2 : (?b < ?a)%Q |- _ =>
      exact (Qlt_not_le _ _ H1 (Qlt_le_weak _ _ H2))
  end.

(** C6, as stated, fails on a product without stock and without
    thresholds: its quantity reaches the optimal stock, and the status
    is [OUT_OF_STOCK]. *)
Lemma stock_status_cases_as_stated_fails :
  ~ stock_status_cases_as_stated default_product.
Proof.
  intros (_ & _ & _ & Hopt).
  assert (H : Product.stock_status default_product = "OPTIMAL").
  { apply Hopt. simpl. rewrite val_zero. apply Qle_refl. }
  discriminate H.
Qed.

(** C6, amended.  [stock_status] reads the quantity and the two
    thresholds only, and tests in this order: [OUT_OF_STOCK] when the
    quantity is zero or less; [LOW_STOCK] when it is positive and below
    the minimum; [NORMAL] when it is positive, at least the minimum and
    below the optimum; [OPTIMAL] when it is positive and at least both
    thresholds. *)
Theorem stock_status_cases :
  forall p : Product.t,
    let q := Dec.val (Product.quantity_in_stock p) in
    let lo := Dec.val (Product.minimum_stock p) in
    let hi := Dec.val (Product.optimal_stock p) in
    ((q <= 0)%Q -> Product.stock_status p = "OUT_OF_STOCK")
    /\ ((0 < q)%Q /\ (q < lo)%Q -> Product.stock_status p = "LOW_STOCK")
    /\ ((0 < q)%Q /\ (lo <= q)%Q /\ (q < hi)%Q
        -> Product.stock_status p = "NORMAL")
    /\ ((0 < q)%Q /\ (lo <= q)%Q /\ (hi <= q)%Q
        -> Product.stock_status p = "OPTIMAL")
    /\ (forall p' : Product.t,
          Product.quantity_in_stock p' = Product.quantity_in_stock p ->
          Product.minimum_stock p' = Product.minimum_stock p ->
          Product.optimal_stock p' = Product.optimal_stock p ->
          Product.stock_status p' = Product.stock_status p).
Proof.
  intros p q lo hi. subst q lo hi.
  split; [|split; [|split; [|split]]];
    try (intros p' H1 H2 H3; unfold Product.stock_status;
         now rewrite H1, H2, H3);
    intros Hq; unfold Product.stock_status; dec_cases; try reflexivity;
    exfalso; decompose [and] Hq; q_contradiction.
Qed.

End Inventory.

(* ================================================================== *)
(** * Invoices and payments *)
(* ================================================================== *)

Module Accounting.
Import Orm OrmFacts.
Import Inventory(val_zero).

Lemma update_status_frame today i :
  Invoice.pk (Invoice.update_status today i) = Invoice.pk i
  /\ Invoice.due_date (Invoice.update_status today i) = Invoice.due_date i
  /\ Invoice.total_amount (Invoice.update_status today i)
     = Invoice.total_amount i
  /\ Invoice.paid_amount (Invoice.update_status today i)
     = Invoice.paid_amount i.
Proof.
  unfold Invoice.update_status.
  repeat match goal with |- context [if ?b then _ else _] => destruct b end;
    simpl; auto.
Qed.

(** The three branches of [update_status], on the numbers compared. *)
Lemma update_status_paid today i :
  (total_value i <= paid_value i)%Q ->
  Invoice.status (Invoice.update_status today i) = "PAID".
Proof.
  intros H. unfold Invoice.update_status, Dec.geb, Dec.gtb.
  Inventory.dec_cases; try reflexivity; exfalso;
    unfold total_value, paid_value in H; Inventory.q_contradiction.
Qed.

Lemma update_status_partial today i :
  (0 < paid_value i)%Q -> (paid_value i < total_value i)%Q ->
  Invoice.status (Invoice.update_status today i) = "PARTIALLY_PAID".
Proof.
  intros H0 H. unfold Invoice.update_status, Dec.geb, Dec.gtb.
  Inventory.dec_cases; try reflexivity; exfalso;
    unfold total_value, paid_value in *; Inventory.q_contradiction.
Qed.

Lemma update_status_unpaid today i :
  (paid_value i <= 0)%Q -> (paid_value i < total_value i)%Q ->
  Invoice.status (Invoice.update_status today i)
  = if Invoice.is_overdue today i then "OVERDUE" else Invoice.status i.
Proof.
  intros H0 H. unfold Invoice.update_status, Dec.geb, Dec.gtb.
  Inventory.dec_cases;
    try (exfalso; unfold total_value, paid_value in *;
         Inventory.q_contradiction).
  now destruct (Invoice.is_overdue today i).
Qed.

(** The invoice as [Payment.save] leaves it for a new payment of
    amount [a]. *)
Lemma credited_paid today a i :
  (paid_value (credited today a i) == paid_value i + Dec.val a)%Q.
Proof.
  unfold credited, paid_value.
  rewrite (proj2 (proj2 (proj2 (update_status_frame today _)))). simpl.
  apply DecFacts.val_add.
Qed.

Lemma credited_frame today a i :
  Invoice.pk (credited today a i) = Invoice.pk i
  /\ Invoice.due_date (credited today a i) = Invoice.due_date i
  /\ Invoice.total_amount (credited today a i) = Invoice.total_amount i.
Proof.
  unfold credited.
  destruct (update_status_frame today
              (Invoice.set_paid_amount
                 (Dec.add (Invoice.paid_amount i) a) i))
    as (H1 & H2 & H3 & _).
  rewrite H1, H2, H3. simpl. auto.
Qed.

Lemma Payment_save_new today d pay inv k r :
  Payment.pk pay = None ->
  violates (payments d) pay = false ->
  Invoice.pk inv = Some k ->
  get (invoices d) k = Some r ->
  Payment_save today pay inv d
  = (Ok (with_pk (next_pk (payments d)) pay,
         credited today (Payment.amount pay) inv),
     put_rows Invoice_objects
       (replace_row k (credited today (Payment.amount pay) inv) (invoices d))
       (put_rows Payment_objects
          (payments d ++ [with_pk (next_pk (payments d)) pay]) d)).
Proof.
  intros Hpay Hv Hk Hr.
  unfold Payment_save, bind, Model_save, ret. rewrite Hpay. simpl.
  rewrite save_insert by assumption. simpl.
  fold (credited today (Payment.amount pay) inv).
  rewrite (save_update (invoices d) _ k r);
    [reflexivity
    |now apply violates_unconstrained
    |exact (eq_trans (proj1 (credited_frame today _ inv)) Hk)
    |assumption].
Qed.

Lemma Payment_save_clash today d pay inv :
  violates (payments d) pay = true ->
  Payment_save today pay inv d = (Raise IntegrityError, d).
Proof.
  intros Hv. unfold Payment_save, bind, Model_save. simpl.
  now rewrite save_violation.
Qed.

(** What one recorded payment does to the invoice row. *)
Lemma invoice_add_payment_row today d k n a inv r d' :
  get (invoices d) k = Some inv ->
  invoice_add_payment today k n a d = (Ok r, d') ->
  get (invoices d') k = Some (credited today a inv).
Proof.
  intros Hinv Hrun.
  unfold invoice_add_payment, bind at 1, fetch in Hrun.
  change (rows Invoice_objects d) with (invoices d) in Hrun.
  rewrite Hinv in Hrun.
  destruct (violates (payments d) (Payment.mk None n k a)) eqn:Hv.
  - rewrite Payment_save_clash in Hrun by assumption. discriminate.
  - rewrite (Payment_save_new today d _ inv k inv) in Hrun;
      [|reflexivity|assumption|exact (get_pk _ _ _ Hinv)|assumption].
    injection Hrun as _ <-. simpl.
    apply get_replace_row with (r := inv); [|assumption].
    exact (eq_trans (proj1 (credited_frame today _ inv)) (get_pk _ _ _ Hinv)).
Qed.

(** A payment whose number is not taken yet is recorded. *)
Lemma invoice_add_payment_runs today d k n a inv :
  get (invoices d) k = Some inv ->
  violates (payments d) (Payment.mk None n k a) = false ->
  exists r d', invoice_add_payment today k n a d = (Ok r, d').
Proof.
  intros Hinv Hv.
  unfold invoice_add_payment, bind at 1, fetch.
  change (rows Invoice_objects d) with (invoices d). rewrite Hinv.
  rewrite (Payment_save_new today d _ inv k inv);
    [eauto|reflexivity|assumption|exact (get_pk _ _ _ Hinv)|assumption].
Qed.

Lemma amounts_app l l' : (amounts (l ++ l') == amounts l + amounts l')%Q.
Proof.
  induction l as [|p l IH]; simpl; [ring|]. rewrite IH. ring.
Qed.

Lemma add_payments_cons k p l d d' :
  add_payments k (p :: l) d = (Ok tt, d') ->
  exists r d1,
    invoice_add_payment (fst (fst p)) k (snd (fst p)) (snd p) d = (Ok r, d1)
    /\ add_payments k l d1 = (Ok tt, d').
Proof.
  simpl. unfold bind at 1.
  destruct (invoice_add_payment _ k _ _ d) as [[r|e] d1]; [eauto|discriminate].
Qed.

(** Payments add up on the invoice; its total and due date stay. *)
Lemma add_payments_paid k l :
  forall d d' inv,
    get (invoices d) k = Some inv ->
    add_payments k l d = (Ok tt, d') ->
    exists inv',
      get (invoices d') k = Some inv'
      /\ (paid_value inv' == paid_value inv + amounts l)%Q
      /\ Invoice.total_amount inv' = Invoice.total_amount inv
      /\ Invoice.due_date inv' = Invoice.due_date inv.
Proof.
  induction l as [|p l IH]; intros d d' inv Hinv Hrun.
  - injection Hrun as <-. exists inv. simpl. repeat split; try assumption.
    ring.
  - apply add_payments_cons in Hrun. destruct Hrun as (r & d1 & Hone & Hrest).
    pose proof (invoice_add_payment_row _ _ _ _ _ _ _ _ Hinv Hone) as Hrow.
    destruct (IH d1 d' _ Hrow Hrest) as (inv' & Hget & Hpaid & Htot & Hdue).
    exists inv'. destruct (credited_frame (fst (fst p)) (snd p) inv)
      as (_ & Hd & Ht).
    repeat split; try assumption.
    + rewrite Hpaid, credited_paid. simpl. ring.
    + congruence.
    + congruence.
Qed.



End Accounting.

(* ================================================================== *)
(** * Orders *)
(* ================================================================== *)

Module Orders.
Import Orm OrmFacts.

Lemma py_sum_from l acc :
  (Dec.val (fold_left Dec.add l acc)
   == Dec.val acc + fold_right (fun x s => Dec.val x + s) 0 l)%Q.
Proof.
  revert acc. induction l as [|x l IH]; intros acc; simpl; [ring|].
  rewrite IH, DecFacts.val_add. ring.
Qed.

Lemma py_sum_total_prices l :
  (Dec.val (py_sum (map OrderItem.total_price l)) == items_value l)%Q.
Proof.
  unfold py_sum. rewrite py_sum_from, Inventory.val_zero, Qplus_0_l.
  induction l as [|i l IH]; simpl; [reflexivity|].
  rewrite IH. unfold OrderItem.total_price.
  now rewrite DecFacts.val_mul, DecFacts.val_of_int.
Qed.

Lemma calculate_totals_values d o :
  let o' := Order_calculate_totals d o in
  (Dec.val (Order.subtotal o') == items_value (Order_items d o))%Q
  /\ (Dec.val (Order.tax_amount o')
      == Dec.val (Order.subtotal o') * Dec.val (Order.tax_rate o) / 100)%Q
  /\ (Dec.val (Order.total_amount o')
      == Dec.val (Order.subtotal o') + Dec.val (Order.tax_amount o')
         - Dec.val (Order.discount_amount o))%Q.
Proof.
  unfold Order_calculate_totals; simpl. repeat split.
  - apply py_sum_total_prices.
  - now rewrite DecFacts.val_div100, DecFacts.val_mul.
  - now rewrite DecFacts.val_sub, DecFacts.val_add.
Qed.


(** C8.  [calculate_totals] is idempotent: called again on its own
    result while the items of the order are the same rows, whatever else
    the database has become, it returns that result. *)
Theorem calculate_totals_idempotent :
  forall (d d' : DB) (o : Order.t),
    order_items d' = order_items d ->
    Order_calculate_totals d' (Order_calculate_totals d o)
    = Order_calculate_totals d o.
Proof.
  intros d d' o Hitems.
  unfold Order_calculate_totals, Order_items. simpl. now rewrite Hitems.
Qed.

(** ** Stock deduction *)

Lemma after_movement_get d k m p k' :
  get (products d) k = Some p ->
  get (products (after_movement d k m p)) k'
  = if (k' =? k)%Z then Some (StockMovement_apply m p)
    else get (products d) k'.
Proof.
  intros Hp. pose proof (get_pk _ _ _ Hp) as Hk.
  destruct (Z.eqb_spec k' k) as [->|Hne].
  - now apply Inventory.after_movement_product.
  - unfold after_movement; simpl.
    apply get_replace_row_other; [|assumption].
    exact (eq_trans (proj1 (Inventory.StockMovement_apply_frame m p)) Hk).
Qed.

Lemma after_movement_price d k m p k' :
  get (products d) k = Some p ->
  price_in (after_movement d k m p) k' = price_in d k'.
Proof.
  intros Hp. unfold price_in. rewrite (after_movement_get d k m p k' Hp).
  destruct (Z.eqb_spec k' k) as [->|Hne]; [|reflexivity].
  rewrite Hp. simpl.
  now rewrite (proj1 (proj2 (Inventory.StockMovement_apply_frame m p))).
Qed.

Lemma deducts_prices d d' item ing m :
  (forall k, price_in d' k = price_in d k) ->
  deducts d' item ing m -> deducts d item ing m.
Proof.
  intros Hprice (H1 & H2 & H3 & H4 & H5). unfold deducts.
  rewrite <- Hprice. auto.
Qed.

(** The loop over the ingredients: one stored [OUT] movement per
    ingredient, in order, and each product loses what its ingredients
    take. *)
Lemma deduct_each_spec item :
  forall l d,
    (forall ing, In ing l ->
                 get (products d) (MenuItemIngredient.product_id ing) <> None) ->
    exists d' new,
      deduct_each item l d = (Ok tt, d')
      /\ stock_movements d' = stock_movements d ++ new
      /\ Forall2 (deducts d item) l new
      /\ (forall k, price_in d' k = price_in d k)
      /\ (forall k p, get (products d) k = Some p ->
           exists p', get (products d') k = Some p'
                      /\ (quantity_value p'
                          == quantity_value p - deducted item l k)%Q).
Proof.
  induction l as [|ing l IH]; intros d Hex.
  - exists d, []. simpl. repeat split; auto.
    + now rewrite app_nil_r.
    + intros k p Hp. exists p. split; [assumption|]. unfold Qminus. ring.
  - set (k := MenuItemIngredient.product_id ing).
    destruct (get (products d) k) as [p|] eqn:Hp;
      [|exfalso; apply (Hex ing); [now left|exact Hp]].
    set (q := Dec.mul (MenuItemIngredient.quantity_needed ing)
                      (Dec.of_int (OrderItem.quantity item))).
    set (m := StockMovement.mk None k "OUT" q (Product.unit_price p)).
    set (d1 := after_movement d k m p).
    assert (Hex1 : forall ing', In ing' l ->
              get (products d1) (MenuItemIngredient.product_id ing') <> None).
    { intros ing' Hin. unfold d1. rewrite (after_movement_get d k m p _ Hp).
      destruct (Z.eqb_spec (MenuItemIngredient.product_id ing') k);
        [discriminate|]. apply Hex. now right. }
    destruct (IH d1 Hex1) as (d' & new & Hrun & Hmov & Hall & Hprice & Hqty).
    exists d', (with_pk (next_pk (stock_movements d)) m :: new).
    split; [|split; [|split; [|split]]].
    + simpl. fold k. fold q. unfold bind at 1, fetch.
      change (rows Product_objects d) with (products d). rewrite Hp.
      unfold bind at 1. fold m.
      rewrite (Inventory.StockMovement_save_new d m p k p);
        [exact Hrun|reflexivity|exact (get_pk _ _ _ Hp)|assumption].
    + rewrite Hmov. unfold d1, after_movement; simpl.
      now rewrite <- app_assoc.
    + constructor.
      * unfold deducts, price_in; simpl. fold k. rewrite Hp. simpl.
        repeat split; try reflexivity. discriminate.
      * eapply Forall2_impl; [|exact Hall].
        intros a b. apply deducts_prices.
        intros k'. apply after_movement_price. exact Hp.
    + intros k'. rewrite Hprice. now apply after_movement_price.
    + intros k' p0 Hp0.
      destruct (Hqty k' (if (k' =? k)%Z then StockMovement_apply m p else p0))
        as (p' & Hp' & Hval).
      { unfold d1. rewrite (after_movement_get d k m p k' Hp).
        destruct (Z.eqb_spec k' k); [reflexivity|assumption]. }
      exists p'. split; [assumption|]. rewrite Hval. simpl. fold k.
      rewrite (Z.eqb_sym k k').
      destruct (Z.eqb_spec k' k) as [->|Hne].
      * assert (p0 = p) by congruence. subst p0.
        rewrite Inventory.StockMovement_apply_value. simpl.
        unfold q. rewrite DecFacts.val_mul, DecFacts.val_of_int.
        unfold signed; simpl. ring.
      * reflexivity.
Qed.

Lemma deducted_other item l k :
  ~ In k (map MenuItemIngredient.product_id l) -> (deducted item l k == 0)%Q.
Proof.
  induction l as [|a l IH]; simpl; intros Hn; [reflexivity|].
  destruct (Z.eqb_spec (MenuItemIngredient.product_id a) k) as [E|E];
    [exfalso; apply Hn; now left|].
  apply IH. intros Hin. apply Hn. now right.
Qed.

(** With one ingredient per product, as [unique_together] on
    [(menu_item, product)] has it, a product loses the quantity of its
    ingredient. *)
Lemma deducted_unique item l ing :
  NoDup (map MenuItemIngredient.product_id l) -> In ing l ->
  (deducted item l (MenuItemIngredient.product_id ing)
   == Dec.val (MenuItemIngredient.quantity_needed ing)
      * inject_Z (OrderItem.quantity item))%Q.
Proof.
  induction l as [|a l IH]; simpl; intros Hnd Hin; [contradiction|].
  inversion Hnd as [|x xs Hnot Hnd']; subst.
  destruct Hin as [->|Hin].
  - rewrite Z.eqb_refl, (deducted_other item l _ Hnot). ring.
  - destruct (Z.eqb_spec (MenuItemIngredient.product_id a)
                         (MenuItemIngredient.product_id ing)) as [E|E].
    + exfalso. apply Hnot. rewrite E. now apply in_map.
    + now apply IH.
Qed.

Lemma OrderItem_save_new_row d (item : OrderItem.t) :
  OrderItem.pk item = None ->
  Model_save OrderItem_objects item d
  = (Ok (with_pk (next_pk (order_items d)) item),
     put_rows OrderItem_objects
       (order_items d ++ [with_pk (next_pk (order_items d)) item]) d).
Proof.
  intros Hnew. unfold Model_save.
  change (rows OrderItem_objects d) with (order_items d).
  rewrite save_insert;
    [reflexivity|now apply violates_unconstrained|exact Hnew].
Qed.

(** Saving a new order item whose menu item tracks inventory. *)
Lemma OrderItem_save_tracked d item mi :
  let ings := MenuItem_ingredients d (OrderItem.menu_item_id item) in
  OrderItem.pk item = None ->
  get (menu_items d) (OrderItem.menu_item_id item) = Some mi ->
  MenuItem.track_inventory mi = true ->
  (forall ing, In ing ings ->
     get (products d) (MenuItemIngredient.product_id ing) <> None) ->
  exists d' item' new,
    OrderItem_save item d = (Ok item', d')
    /\ stock_movements d' = stock_movements d ++ new
    /\ Forall2 (deducts d item) ings new
    /\ (forall k p, get (products d) k = Some p ->
         exists p', get (products d') k = Some p'
                    /\ (quantity_value p'
                        == quantity_value p - deducted item ings k)%Q).
Proof.
  intros ings Hnew Hmi Htrack Hex.
  set (item' := with_pk (next_pk (order_items d)) item).
  set (d0 := put_rows OrderItem_objects (order_items d ++ [item']) d).
  destruct (deduct_each_spec item' ings d0 Hex)
    as (d' & new & Hrun & Hmov & Hall & _ & Hqty).
  exists d', item', new. split; [|split; [|split]].
  - unfold OrderItem_save, bind at 1. rewrite Hnew.
    rewrite (OrderItem_save_new_row d item Hnew). fold item'. fold d0.
    unfold bind at 1, fetch. cbn beta iota delta [is_None].
    change (rows MenuItem_objects d0) with (menu_items d).
    change (OrderItem.menu_item_id item')
      with (OrderItem.menu_item_id item).
    rewrite Hmi, Htrack. unfold bind, OrderItem_deduct_from_inventory.
    change (MenuItem_ingredients d0 (OrderItem.menu_item_id item'))
      with ings.
    now rewrite Hrun.
  - exact Hmov.
  - exact Hall.
  - exact Hqty.
Qed.

(** Saving a new order item whose menu item does not track inventory. *)
Lemma OrderItem_save_untracked d item mi :
  OrderItem.pk item = None ->
  get (menu_items d) (OrderItem.menu_item_id item) = Some mi ->
  MenuItem.track_inventory mi = false ->
  exists d' item',
    OrderItem_save item d = (Ok item', d')
    /\ stock_movements d' = stock_movements d
    /\ products d' = products d.
Proof.
  intros Hnew Hmi Htrack.
  eexists. eexists. split; [|split].
  - unfold OrderItem_save, bind at 1. rewrite Hnew.
    rewrite (OrderItem_save_new_row d item Hnew).
    unfold bind at 1, fetch. cbn beta iota delta [is_None].
    match goal with
    | |- context [get (rows MenuItem_objects ?d0) ?k] =>
        change (get (rows MenuItem_objects d0) k)
          with (get (menu_items d) (OrderItem.menu_item_id item))
    end.
    rewrite Hmi, Htrack. reflexivity.
  - reflexivity.
  - reflexivity.
Qed.

(** Saving an order item that has a key. *)
Lemma OrderItem_save_again d item j :
  OrderItem.pk item = Some j ->
  exists d',
    OrderItem_save item d = (Ok item, d')
    /\ stock_movements d' = stock_movements d
    /\ products d' = products d.
Proof.
  intros Hj.
  unfold OrderItem_save, bind, Model_save, save. rewrite Hj.
  rewrite violates_unconstrained by reflexivity.
  change (pk_of item) with (OrderItem.pk item). rewrite Hj.
  destruct (existsb (has_pk j) (rows OrderItem_objects d));
    eexists; (split; [reflexivity|split; reflexivity]).
Qed.


(** ** Marking an order paid *)

Lemma ascii_compare_lt_trans a b c :
  Ascii.compare a b = Lt -> Ascii.compare b c = Lt -> Ascii.compare a c = Lt.
Proof.
  unfold Ascii.compare. rewrite !N.compare_lt_iff. lia.
Qed.

Lemma string_leb_trans : forall a b c,
  String.leb a b = true -> String.leb b c = true -> String.leb a c = true.
Proof.
  unfold String.leb.
  induction a as [|x a IH]; intros [|y b] [|z c]; simpl; auto; try discriminate.
  destruct (Ascii.compare x y) eqn:Exy; try discriminate;
    destruct (Ascii.compare y z) eqn:Eyz; try discriminate; intros H1 H2.
  - apply Ascii.compare_eq_iff in Exy, Eyz. subst.
    assert (E : Ascii.compare z z = Eq).
    { unfold Ascii.compare. apply N.compare_refl. }
    rewrite E. now apply (IH b c).
  - apply Ascii.compare_eq_iff in Exy. subst. now rewrite Eyz.
  - apply Ascii.compare_eq_iff in Eyz. subst. now rewrite Exy.
  - now rewrite (ascii_compare_lt_trans x y z).
Qed.

Section FirstBy.
Context {A : Type} (le : A -> A -> bool).
Hypothesis le_total : forall x y, le x y = true \/ le y x = true.
Hypothesis le_trans :
  forall x y z, le x y = true -> le y z = true -> le x z = true.

Lemma first_by_none l : first_by le l = None <-> l = [].
Proof.
  destruct l as [|x l]; simpl; [tauto|].
  destruct (first_by le l) as [y|]; [destruct (le x y)|];
    split; discriminate.
Qed.

Lemma first_by_least l x :
  first_by le l = Some x ->
  In x l /\ forall y, In y l -> le x y = true.
Proof.
  revert x. induction l as [|a l IH]; simpl; intros x Hx; [discriminate|].
  destruct (first_by le l) as [m|] eqn:Hm.
  - destruct (IH m eq_refl) as [Hin Hle].
    destruct (le a m) eqn:Ham; injection Hx as <-.
    + split; [now left|]. intros y [<-|Hy].
      * destruct (le_total a a); assumption.
      * eapply le_trans; [exact Ham|now apply Hle].
    + split; [now right|]. intros y [<-|Hy].
      * destruct (le_total m a); [assumption|congruence].
      * now apply Hle.
  - injection Hx as <-. apply first_by_none in Hm. subst l.
    split; [now left|]. intros y [<-|[]].
    destruct (le_total a a); assumption.
Qed.
End FirstBy.

(** The category [mark_paid] picks is a [REVENUE] category of the
    database, and no [REVENUE] category has a smaller code. *)
Lemma first_revenue_category_least d c :
  first_revenue_category d = Some c ->
  In c (account_categories d)
  /\ AccountCategory.account_type c = "REVENUE"
  /\ forall c', In c' (account_categories d) ->
                AccountCategory.account_type c' = "REVENUE" ->
                String.leb (AccountCategory.code c) (AccountCategory.code c')
                = true.
Proof.
  intros Hc. unfold first_revenue_category in Hc.
  apply first_by_least in Hc.
  - destruct Hc as [Hin Hle]. apply filter_In in Hin. destruct Hin as [Hin Ht].
    apply String.eqb_eq in Ht. repeat split; try assumption.
    intros c' Hin' Ht'. apply Hle, filter_In. split; [assumption|].
    now apply String.eqb_eq.
  - intros x y. apply String.leb_total.
  - intros x y z. apply string_leb_trans.
Qed.

Lemma first_revenue_category_none d :
  first_revenue_category d = None <->
  forall c, In c (account_categories d) ->
            AccountCategory.account_type c <> "REVENUE".
Proof.
  unfold first_revenue_category. rewrite first_by_none. split.
  - intros Hnil c Hin Ht.
    assert (Hc : In c (filter (fun c => String.eqb
                          (AccountCategory.account_type c) "REVENUE")
                          (account_categories d))).
    { apply filter_In. split; [assumption|now apply String.eqb_eq]. }
    rewrite Hnil in Hc. exact Hc.
  - intros Hall.
    destruct (filter _ (account_categories d)) as [|c l] eqn:Hf;
      [reflexivity|].
    assert (Hc : In c (c :: l)) by now left.
    rewrite <- Hf in Hc. apply filter_In in Hc. destruct Hc as [Hin Ht].
    apply String.eqb_eq in Ht. now destruct (Hall c Hin).
Qed.

Lemma violates_new_transaction d (t : Transaction.t) :
  Transaction.pk t = None ->
  violates (transactions d) t
  = transaction_number_taken d (Transaction.transaction_number t).
Proof.
  intros Hnew. unfold violates, transaction_number_taken, other_row.
  change (pk_of t) with (Transaction.pk t). rewrite Hnew. reflexivity.
Qed.

(** The database once the order row was rewritten as paid. *)
Lemma Order_save_paid now d o k r :
  Order.pk o = Some k ->
  get (orders d) k = Some r ->
  violates (orders d) o = false ->
  Model_save Order_objects (Order.set_paid now o) d
  = (Ok (Order.set_paid now o),
     put_rows Order_objects
       (replace_row k (Order.set_paid now o) (orders d)) d).
Proof.
  intros Hk Hr Hv. unfold Model_save.
  change (rows Order_objects d) with (orders d).
  now rewrite (save_update (orders d) (Order.set_paid now o) k r).
Qed.

(** C5, as stated, fails on an order that is marked paid a second time:
    the transaction of the first call holds the number [TXN-ORD-1], the
    insert of the second call violates [unique] on [transaction_number],
    and [mark_paid] raises after it has saved the order. *)
Lemma mark_paid_as_stated_fails :
  fst (Order_mark_paid 1000 served_order served_db) = Ok paid_once_order
  /\ first_revenue_category paid_once_db <> None
  /\ fst (Order_mark_paid 2000 paid_once_order paid_once_db)
     = Raise IntegrityError
  /\ ~ mark_paid_as_stated 2000 paid_once_order paid_once_db.
Proof.
  split; [reflexivity|]. split; [discriminate|]. split; [reflexivity|].
  intros (o' & d' & Hrun & _). discriminate Hrun.
Qed.

(** C5, amended.  For an order stored in the database, [mark_paid] sets
    the status to [PAID] and rewrites the order row.  When no category
    is of type [REVENUE] it returns and stores no transaction.  When one
    is, it takes the [REVENUE] category of least code and, when no stored
    transaction has the number [TXN-<order_number>], stores exactly one
    transaction more: numbered so, of type [INCOME], for the total of the
    order, in that category; when that number is taken it raises
    [IntegrityError], stores no transaction and leaves the order row
    rewritten as paid. *)
Theorem mark_paid_creates_income :
  forall (now : Z) (d : DB) (o r : Order.t) (k : Z),
    Order.pk o = Some k ->
    get (orders d) k = Some r ->
    violates (orders d) o = false ->
    let o' := Order.set_paid now o in
    let d0 := put_rows Order_objects (replace_row k o' (orders d)) d in
    Order.status o' = "PAID"
    /\ get (orders d0) k = Some o'
    /\ transactions d0 = transactions d
    /\ ((forall c, In c (account_categories d) ->
                   AccountCategory.account_type c <> "REVENUE") ->
        Order_mark_paid now o d = (Ok o', d0))
    /\ ((exists c, In c (account_categories d)
                   /\ AccountCategory.account_type c = "REVENUE") ->
        exists c : AccountCategory.t,
          first_revenue_category d = Some c
          /\ In c (account_categories d)
          /\ AccountCategory.account_type c = "REVENUE"
          /\ (forall c', In c' (account_categories d) ->
                         AccountCategory.account_type c' = "REVENUE" ->
                         String.leb (AccountCategory.code c)
                                    (AccountCategory.code c') = true)
          /\ (transaction_number_taken d (income_number o) = false ->
              exists d' t,
                Order_mark_paid now o d = (Ok o', d')
                /\ transactions d' = transactions d ++ [t]
                /\ orders d' = orders d0
                /\ Transaction.transaction_number t = income_number o
                /\ Transaction.transaction_type t = "INCOME"
                /\ Transaction.amount t = Order.total_amount o
                /\ Transaction.category_id t = AccountCategory.pk c)
          /\ (transaction_number_taken d (income_number o) = true ->
              Order_mark_paid now o d = (Raise IntegrityError, d0))).
Proof.
  intros now d o r k Hk Hr Hv o' d0.
  assert (Hsave : Model_save Order_objects o' d = (Ok o', d0))
    by now apply Order_save_paid with (r := r).
  split; [reflexivity|]. split; [|split; [reflexivity|split]].
  - apply get_replace_row with (r := r); assumption.
  - intros Hnone. apply first_revenue_category_none in Hnone.
    unfold Order_mark_paid, bind. fold o'. rewrite Hsave.
    change (first_revenue_category d0) with (first_revenue_category d).
    now rewrite Hnone.
  - intros (c0 & Hin0 & Ht0).
    destruct (first_revenue_category d) as [c|] eqn:Hc.
    2:{ exfalso.
        exact (proj1 (first_revenue_category_none d) Hc c0 Hin0 Ht0). }
    exists c. split; [reflexivity|].
    destruct (first_revenue_category_least d c Hc) as (Hin & Ht & Hleast).
    repeat (split; [assumption|]).
    set (t := income_transaction now o' c).
    assert (Hviol : violates (transactions d) t
                    = transaction_number_taken d (income_number o))
      by now apply violates_new_transaction.
    split; intros Htaken.
    + exists (put_rows Transaction_objects
                (transactions d ++ [with_pk (next_pk (transactions d)) t]) d0),
             (with_pk (next_pk (transactions d)) t).
      split; [|repeat split].
      unfold Order_mark_paid, bind at 1. fold o'. rewrite Hsave.
      change (first_revenue_category d0) with (first_revenue_category d).
      rewrite Hc. unfold bind, Model_save. fold t.
      change (rows Transaction_objects d0) with (transactions d).
      rewrite save_insert; [reflexivity|congruence|reflexivity].
    + unfold Order_mark_paid, bind at 1. fold o'. rewrite Hsave.
      change (first_revenue_category d0) with (first_revenue_category d).
      rewrite Hc. unfold bind, Model_save. fold t.
      change (rows Transaction_objects d0) with (transactions d).
      rewrite save_violation; [reflexivity|congruence].
Qed.

End Orders.

(* ================================================================== *)
(** * Reservations *)
(* ================================================================== *)

Module Bookings.
Import Orm OrmFacts.

(** A new reservation for a table, day and slot that a stored
    reservation names is refused, whatever the status of that one. *)
Lemma Reservation_save_same_booking d x r :
  Reservation.pk x = None ->
  In r (reservations d) ->
  Reservation.same_booking x r = true ->
  Reservation_save x d = (Raise IntegrityError, d).
Proof.
  intros Hnew Hin Hsame. unfold Reservation_save, Model_save.
  change (rows Reservation_objects d) with (reservations d).
  rewrite save_violation; [reflexivity|].
  apply existsb_exists. exists r. split; [assumption|].
  unfold other_row. change (pk_of x) with (Reservation.pk x). rewrite Hnew.
  simpl. now rewrite Hsame, orb_true_r.
Qed.

(** When [is_available_at] says no, the save is refused: an active
    reservation blocks the table for its day and slot. *)
Lemma Reservation_save_unavailable d x t :
  Reservation.pk x = None ->
  Reservation.table_id x = Some t ->
  Table_is_available_at d t (Reservation.reservation_date x)
                        (Reservation.time_slot x) = false ->
  Reservation_save x d = (Raise IntegrityError, d).
Proof.
  intros Hnew Ht Hav. unfold Table_is_available_at in Hav.
  match type of Hav with
  | negb (match filter ?f ?l with _ => _ end) = _ =>
      destruct (filter f l) as [|r rs] eqn:Hf; [discriminate|];
      assert (Hr : In r (filter f l)) by (rewrite Hf; now left)
  end.
  apply filter_In in Hr. destruct Hr as [Hin Hr].
  apply andb_prop in Hr. destruct Hr as [Hr _].
  apply andb_prop in Hr. destruct Hr as [Hr Hslot].
  apply andb_prop in Hr. destruct Hr as [Htab Hdate].
  apply Reservation_save_same_booking with (r := r); try assumption.
  unfold Reservation.same_booking. rewrite Ht.
  destruct (Reservation.table_id r) as [t'|]; [|discriminate].
  simpl in Htab. apply Z.eqb_eq in Htab. subst t'.
  apply Z.eqb_eq in Hdate. apply String.eqb_eq in Hslot.
  now rewrite Z.eqb_refl, Hdate, Z.eqb_refl, Hslot, String.eqb_refl.
Qed.

(** C7, on the code.  Once the pending reservation of table 3 for day
    100 at 19:00 is cancelled, [is_available_at] reports the table free
    there, and saving a new reservation for the same table, day and slot
    raises [IntegrityError] all the same, as it does when the stored
    reservation is [NO_SHOW] or [COMPLETED]: [unique_together] does not
    look at the status. *)
Theorem inactive_reservation_blocks :
  Reservation_cancel (stored_reservation "PENDING") (booked_db "PENDING")
  = (Ok (stored_reservation "CANCELLED"), booked_db "CANCELLED")
  /\ (Table_is_available_at (booked_db "CANCELLED") 3 100 "19:00" = true
      /\ Reservation_save new_reservation (booked_db "CANCELLED")
         = (Raise IntegrityError, booked_db "CANCELLED"))
  /\ (Table_is_available_at (booked_db "NO_SHOW") 3 100 "19:00" = true
      /\ Reservation_save new_reservation (booked_db "NO_SHOW")
         = (Raise IntegrityError, booked_db "NO_SHOW"))
  /\ (Table_is_available_at (booked_db "COMPLETED") 3 100 "19:00" = true
      /\ Reservation_save new_reservation (booked_db "COMPLETED")
         = (Raise IntegrityError, booked_db "COMPLETED")).
Proof.
  split; [reflexivity|].
  repeat split; try reflexivity;
    apply Reservation_save_same_booking with (r := stored_reservation _);
    try reflexivity; now left.
Qed.

End Bookings.

(* ================================================================== *)
(** * Cascades across models *)
(* ================================================================== *)

Module Cascades.
Import Orm OrmFacts.

Lemma signed_out mt x :
  str_in mt ["OUT"; "WASTE"] = true -> (signed mt x == - x)%Q.
Proof.
  unfold signed, str_in; simpl.
  destruct (String.eqb_spec mt "OUT") as [->|H1]; [reflexivity|].
  destruct (String.eqb_spec mt "WASTE") as [->|H2]; [reflexivity|].
  discriminate.
Qed.


(** Saving a movement that has a key rewrites its row only. *)
Lemma StockMovement_save_again d m p j :
  StockMovement.pk m = Some j ->
  exists d',
    StockMovement_save m p d = (Ok (m, p), d')
    /\ products d' = products d.
Proof.
  intros Hj. unfold StockMovement_save, bind, Model_save, save, ret.
  rewrite Hj. cbn beta iota delta [is_None].
  rewrite violates_unconstrained by reflexivity.
  change (pk_of m) with (StockMovement.pk m). rewrite Hj.
  destruct (existsb (has_pk j) (rows StockMovement_objects d));
    eexists; (split; reflexivity).
Qed.

(** Saving a payment that has a key rewrites its row, or raises when its
    number is the number of another payment; the invoice is not
    touched. *)
Lemma Payment_save_again today d pay inv j :
  Payment.pk pay = Some j ->
  exists r d',
    Payment_save today pay inv d = (r, d')
    /\ invoices d' = invoices d
    /\ (r = Ok (pay, inv) \/ r = Raise IntegrityError).
Proof.
  intros Hj. unfold Payment_save, bind, Model_save, save, ret.
  rewrite Hj. cbn beta iota delta [is_None].
  destruct (violates (rows Payment_objects d) pay).
  - eexists. eexists. split; [reflexivity|]. split; [reflexivity|now right].
  - change (pk_of pay) with (Payment.pk pay). rewrite Hj.
    destruct (existsb (has_pk j) (rows Payment_objects d));
      eexists; eexists; (split; [reflexivity|]);
      (split; [reflexivity|now left]).
Qed.

Lemma resave_movement_products n m p j :
  StockMovement.pk m = Some j ->
  forall d, exists d',
    resave_movement n m p d = (Ok tt, d') /\ products d' = products d.
Proof.
  intros Hj. induction n as [|n IH]; intros d; simpl.
  - exists d. now split.
  - destruct (StockMovement_save_again d m p j Hj) as (d1 & Hrun & Hprod).
    destruct (IH d1) as (d' & Hrest & Hprod').
    exists d'. unfold bind. rewrite Hrun. split; [assumption|congruence].
Qed.

Lemma resave_payment_invoices n today pay inv j :
  Payment.pk pay = Some j ->
  forall d, exists r d',
    resave_payment n today pay inv d = (r, d') /\ invoices d' = invoices d.
Proof.
  intros Hj. induction n as [|n IH]; intros d; simpl.
  - exists (Ok tt), d. now split.
  - destruct (Payment_save_again today d pay inv j Hj)
      as (r & d1 & Hrun & Hinv & [-> | ->]); unfold bind; rewrite Hrun.
    + destruct (IH d1) as (r' & d' & Hrest & Hinv').
      exists r', d'. split; [assumption|congruence].
    + exists (Raise IntegrityError), d1. now split.
Qed.

(** C10.  The cascades fire at creation only.  Saving a stock movement
    that has a key leaves every product row as it is, and saving a
    payment that has a key leaves every invoice row, its paid amount and
    status with it, as it is.  So when a movement was created and is
    saved again any number of times, the product has moved by the signed
    quantity once; when a payment was recorded and is saved again any
    number of times, the invoice is the one the creation left. *)
Theorem cascades_fire_once :
  (forall (d : DB) (m : StockMovement.t) (p : Product.t) (j : Z),
      StockMovement.pk m = Some j ->
      exists d',
        StockMovement_save m p d = (Ok (m, p), d')
        /\ products d' = products d)
  /\ (forall (today : Z) (d : DB) (pay : Payment.t) (inv : Invoice.t) (j : Z),
        Payment.pk pay = Some j ->
        exists r d',
          Payment_save today pay inv d = (r, d')
          /\ invoices d' = invoices d
          /\ (r = Ok (pay, inv) \/ r = Raise IntegrityError))
  /\ (forall (d : DB) (k : Z) (p p0 : Product.t) (mt : string)
             (q up : Decimal) (n : nat),
        get (products d) k = Some p ->
        exists m d1 d2 p',
          StockMovement_create k mt q up d = (Ok m, d1)
          /\ resave_movement n m p0 d1 = (Ok tt, d2)
          /\ get (products d2) k = Some p'
          /\ (quantity_value p'
              == quantity_value p + signed mt (Dec.val q))%Q)
  /\ (forall (d d1 : DB) (k : Z) (inv i0 inv' : Invoice.t) (pay : Payment.t)
             (today today' : Z) (num : string) (a : Decimal) (n : nat),
        get (invoices d) k = Some inv ->
        invoice_add_payment today k num a d = (Ok (pay, inv'), d1) ->
        exists r d2,
          resave_payment n today' pay i0 d1 = (r, d2)
          /\ get (invoices d2) k = Some (credited today a inv)
          /\ (paid_value (credited today a inv)
              == paid_value inv + Dec.val a)%Q).
Proof.
  split; [|split; [|split]].
  - intros d m p j. apply StockMovement_save_again.
  - intros today d pay inv j. apply Payment_save_again.
  - intros d k p p0 mt q up n Hp.
    set (m := StockMovement.mk None k mt q up).
    set (m' := with_pk (next_pk (stock_movements d)) m).
    destruct (resave_movement_products n m' p0 (next_pk (stock_movements d))
                eq_refl (after_movement d k m p)) as (d2 & Hrun & Hprod).
    exists m', (after_movement d k m p), d2, (StockMovement_apply m p).
    split; [now apply Inventory.StockMovement_create_spec|].
    split; [exact Hrun|]. split.
    + rewrite Hprod. apply Inventory.after_movement_product;
        [exact (get_pk _ _ _ Hp)|assumption].
    + apply Inventory.StockMovement_apply_value.
  - intros d d1 k inv i0 inv' pay today today' num a n Hinv Hrun.
    pose proof (Accounting.invoice_add_payment_row _ _ _ _ _ _ _ _ Hinv Hrun)
      as Hrow.
    assert (Hpk : exists j, Payment.pk pay = Some j).
    { unfold invoice_add_payment, bind at 1, fetch in Hrun.
      change (rows Invoice_objects d) with (invoices d) in Hrun.
      rewrite Hinv in Hrun.
      destruct (violates (payments d) (Payment.mk None num k a)) eqn:Hv.
      - rewrite Accounting.Payment_save_clash in Hrun by assumption.
        discriminate.
      - rewrite (Accounting.Payment_save_new today d _ inv k inv) in Hrun;
          [|reflexivity|assumption|exact (get_pk _ _ _ Hinv)|assumption].
        injection Hrun as <- _ _. eexists. reflexivity. }
    destruct Hpk as [j Hj].
    destruct (resave_payment_invoices n today' pay i0 j Hj d1)
      as (r & d2 & Hres & Hsame).
    exists r, d2. split; [assumption|]. split; [now rewrite Hsame|].
    apply Accounting.credited_paid.
Qed.

End Cascades.

(* ================================================================== *)
(** * The statements on worked instances *)
(* ================================================================== *)

Module Instances.
Import Orm.

(** Five movements on 10.00 in stock. *)
Lemma stock_is_initial_plus_signed_sum_witness :
  get (products ledger_db) 1 = Some ledger_product
  /\ exists d' p',
       create_movements 1 ledger_moves ledger_db = (Ok tt, d')
       /\ get (products d') 1 = Some p'
       /\ (quantity_value p' == quantity_value ledger_product
                                + signed_sum ledger_moves)%Q
       /\ List.length (stock_movements d')
          = (List.length (stock_movements ledger_db)
             + List.length ledger_moves)%nat.
Proof.
  split; [reflexivity|].
  apply (Inventory.stock_is_initial_plus_signed_sum
           ledger_moves ledger_db 1 ledger_product).
  reflexivity.
Defined.

(** The four classification examples. *)
Lemma stock_status_cases_witness :
  Product.stock_status empty_product = "OUT_OF_STOCK"
  /\ Product.stock_status low_product = "LOW_STOCK"
  /\ Product.stock_status normal_product = "NORMAL"
  /\ Product.stock_status optimal_product = "OPTIMAL".
Proof.
  split; [|split; [|split]].
  - apply (proj1 (Inventory.stock_status_cases empty_product)).
    vm_compute. discriminate.
  - apply (proj1 (proj2 (Inventory.stock_status_cases low_product))).
    split; vm_compute; reflexivity.
  - apply (proj1 (proj2 (proj2
             (Inventory.stock_status_cases normal_product)))).
    split; [|split]; vm_compute; try reflexivity; discriminate.
  - apply (proj1 (proj2 (proj2 (proj2
             (Inventory.stock_status_cases optimal_product))))).
    split; [|split]; vm_compute; try reflexivity; discriminate.
Defined.



(** The same scenario, computed twice. *)
Lemma calculate_totals_idempotent_witness :
  order_items scenario_db = order_items scenario_db
  /\ Order_calculate_totals scenario_db
       (Order_calculate_totals scenario_db scenario_order)
     = Order_calculate_totals scenario_db scenario_order.
Proof.
  split; [reflexivity|].
  apply (Orders.calculate_totals_idempotent scenario_db scenario_db
           scenario_order).
  reflexivity.
Defined.


(** The served order, marked paid for the first time. *)
Lemma mark_paid_creates_income_witness :
  exists d' t,
    Order_mark_paid 1000 served_order served_db
    = (Ok (Order.set_paid 1000 served_order), d')
    /\ transactions d' = transactions served_db ++ [t]
    /\ Transaction.transaction_type t = "INCOME"
    /\ Transaction.amount t = mkDec 2750 2.
Proof.
  destruct (Orders.mark_paid_creates_income
              1000 served_db served_order served_order 1
              eq_refl eq_refl eq_refl)
    as (_ & _ & _ & _ & Hsome).
  destruct Hsome as (c & _ & _ & _ & _ & Hfresh & _).
  { exists (AccountCategory.mk (Some 1) "700" "REVENUE").
    split; [now left|reflexivity]. }
  destruct (Hfresh eq_refl) as (d' & t & Hrun & Htx & _ & _ & Hty & Ham & _).
  exists d', t. repeat split; assumption.
Defined.


(** A stored movement and a stored payment, saved again. *)
Lemma cascades_fire_once_witness :
  (exists d',
      StockMovement_save stored_movement ledger_product ledger_db
      = (Ok (stored_movement, ledger_product), d')
      /\ products d' = products ledger_db)
  /\ (exists r d',
        Payment_save 12 stored_payment part_paid_invoice part_paid_db
        = (r, d')
        /\ invoices d' = invoices part_paid_db).
Proof.
  split.
  - apply (proj1 Cascades.cascades_fire_once ledger_db stored_movement
             ledger_product 1).
    reflexivity.
  - destruct (proj1 (proj2 Cascades.cascades_fire_once) 12 part_paid_db
                stored_payment part_paid_invoice 1 eq_refl)
      as (r & d' & Hrun & Hinv & _).
    exists r, d'. split; assumption.
Defined.

End Instances.

(* ================================================================== *)
(** * More on the stock ledger *)
(* ================================================================== *)

Module MoreOrm.
Import Orm OrmFacts.

Section Table.
Context {A : Type} `{Model A}.

Lemma get_delete_row (t : list A) k : get (delete_row k t) k = None.
Proof.
  unfold get, delete_row. induction t as [|a t IH]; simpl; [reflexivity|].
  destruct (has_pk k a) eqn:Ha; simpl; [exact IH|]. now rewrite Ha.
Qed.

Lemma get_delete_row_other (t : list A) k k' :
  k' <> k -> get (delete_row k t) k' = get t k'.
Proof.
  intros Hne. unfold get, delete_row.
  induction t as [|a t IH]; simpl; [reflexivity|].
  destruct (has_pk k a) eqn:Ha; simpl.
  - apply has_pk_iff in Ha. now rewrite (has_pk_other k k' a Ha Hne).
  - now rewrite IH.
Qed.

Lemma max_pk_ge (t : list A) r k :
  In r t -> pk_of r = Some k -> k <= max_pk t.
Proof.
  induction t as [|a t IH]; simpl; [contradiction|].
  intros [->|Hin] Hk.
  - rewrite Hk. lia.
  - specialize (IH Hin Hk). destruct (pk_of a); lia.
Qed.

Lemma next_pk_fresh (t : list A) r : In r t -> has_pk (next_pk t) r = false.
Proof.
  intros Hin. unfold has_pk. destruct (pk_of r) as [k|] eqn:Hk; [|reflexivity].
  pose proof (max_pk_ge t r k Hin Hk). unfold next_pk. apply Z.eqb_neq. lia.
Qed.

Lemma get_next_pk (t : list A) : get t (next_pk t) = None.
Proof.
  destruct (get t (next_pk t)) as [r|] eqn:Hg; [|reflexivity].
  pose proof (get_has_pk _ _ _ Hg) as H1.
  now rewrite (next_pk_fresh t r (get_In _ _ _ Hg)) in H1.
Qed.

Lemma get_app_none (t l : list A) k :
  get t k = None -> get (t ++ l) k = get l k.
Proof.
  unfold get. induction t as [|a t IH]; simpl; [reflexivity|].
  destruct (has_pk k a); [discriminate|exact IH].
Qed.

Lemma get_app_some (t l : list A) k r :
  get t k = Some r -> get (t ++ l) k = Some r.
Proof.
  unfold get. induction t as [|a t IH]; simpl; [discriminate|].
  destruct (has_pk k a); [trivial|exact IH].
Qed.

Lemma delete_row_fresh (t : list A) : delete_row (next_pk t) t = t.
Proof.
  unfold delete_row. apply forallb_filter_id. apply forallb_forall.
  intros r Hin. now rewrite (next_pk_fresh t r Hin).
Qed.
End Table.

End MoreOrm.

Module MoreInventory.
Import Orm OrmFacts MoreOrm.

(** Undoing a movement takes its signed quantity off the stock. *)
Lemma StockMovement_undo_value m p :
  (quantity_value (StockMovement_undo m p)
   == quantity_value p
      - signed (StockMovement.movement_type m)
               (Dec.val (StockMovement.quantity m)))%Q.
Proof.
  unfold StockMovement_undo, signed, quantity_value, str_in; simpl.
  destruct (String.eqb_spec (StockMovement.movement_type m) "IN") as [E|E];
    simpl; [rewrite DecFacts.val_sub; reflexivity|].
  destruct (String.eqb_spec (StockMovement.movement_type m) "OUT") as [E1|E1];
    simpl.
  { rewrite E1; simpl. rewrite DecFacts.val_add. ring. }
  destruct (String.eqb_spec (StockMovement.movement_type m) "WASTE") as [E2|E2];
    simpl.
  { rewrite E2; simpl. rewrite DecFacts.val_add. ring. }
  destruct (String.eqb_spec (StockMovement.movement_type m) "RETURN")
    as [E4|E4]; simpl; [rewrite DecFacts.val_sub; reflexivity|ring].
Qed.

Lemma StockMovement_undo_frame m p :
  Product.pk (StockMovement_undo m p) = Product.pk p
  /\ Product.unit_price (StockMovement_undo m p) = Product.unit_price p
  /\ Product.minimum_stock (StockMovement_undo m p) = Product.minimum_stock p
  /\ Product.optimal_stock (StockMovement_undo m p) = Product.optimal_stock p.
Proof.
  unfold StockMovement_undo.
  repeat match goal with |- context [if ?b then _ else _] => destruct b end;
    simpl; auto.
Qed.

(** The database after the view deleted the movement [m] with key [k]. *)
Lemma stock_movement_delete_run d k m p :
  get (stock_movements d) k = Some m ->
  get (products d) (StockMovement.product_id m) = Some p ->
  stock_movement_delete k d
  = (Ok tt,
     put_rows StockMovement_objects (delete_row k (stock_movements d))
       (put_rows Product_objects
          (replace_row (StockMovement.product_id m) (StockMovement_undo m p)
                       (products d)) d)).
Proof.
  intros Hm Hp. unfold stock_movement_delete, bind at 1, fetch.
  change (rows StockMovement_objects d) with (stock_movements d). rewrite Hm.
  unfold bind at 1.
  change (rows Product_objects d) with (products d). rewrite Hp.
  unfold bind, Model_save.
  change (rows Product_objects d) with (products d).
  rewrite (save_update (products d) (StockMovement_undo m p)
             (StockMovement.product_id m) p);
    [reflexivity
    |now apply violates_unconstrained
    |exact (eq_trans (proj1 (StockMovement_undo_frame m p)) (get_pk _ _ _ Hp))
    |assumption].
Qed.

(** X1.  Deleting a stored movement through the view removes its row,
    keeps the other movement rows, and takes the signed quantity of the
    movement off the stock the product has at that moment; asked for a
    movement that is not stored, the view fails and writes nothing. *)
Theorem stock_movement_delete_reverts :
  forall (d : DB) (k : Z),
    (forall (m : StockMovement.t) (p : Product.t),
        get (stock_movements d) k = Some m ->
        get (products d) (StockMovement.product_id m) = Some p ->
        exists d' p',
          stock_movement_delete k d = (Ok tt, d')
          /\ get (stock_movements d') k = None
          /\ (forall k', k' <> k ->
                get (stock_movements d') k' = get (stock_movements d) k')
          /\ get (products d') (StockMovement.product_id m) = Some p'
          /\ (quantity_value p'
              == quantity_value p
                 - signed (StockMovement.movement_type m)
                          (Dec.val (StockMovement.quantity m)))%Q)
    /\ (get (stock_movements d) k = None ->
        stock_movement_delete k d = (Raise DoesNotExist, d)).
Proof.
  intros d k. split.
  - intros m p Hm Hp.
    eexists. exists (StockMovement_undo m p).
    split; [exact (stock_movement_delete_run d k m p Hm Hp)|].
    split; [apply get_delete_row|].
    split; [intros k' Hne; now apply get_delete_row_other|].
    split; [|apply StockMovement_undo_value].
    simpl. apply get_replace_row with (r := p); [|assumption].
    exact (eq_trans (proj1 (StockMovement_undo_frame m p)) (get_pk _ _ _ Hp)).
  - intros Hnone. unfold stock_movement_delete, bind, fetch.
    change (rows StockMovement_objects d) with (stock_movements d).
    now rewrite Hnone.
Qed.

(** X2.  Creating a movement against a stored product and deleting it
    through the view is a round trip: the table of movements is the one
    before the creation, and the product has its stock, unit price and
    thresholds back, whatever the type and the quantity. *)
Theorem stock_movement_create_delete :
  forall (d : DB) (k : Z) (p : Product.t) (mt : string) (q up : Decimal),
    get (products d) k = Some p ->
    exists m j d1 d2 p2,
      StockMovement_create k mt q up d = (Ok m, d1)
      /\ StockMovement.pk m = Some j
      /\ stock_movement_delete j d1 = (Ok tt, d2)
      /\ stock_movements d2 = stock_movements d
      /\ get (products d2) k = Some p2
      /\ (quantity_value p2 == quantity_value p)%Q
      /\ Product.unit_price p2 = Product.unit_price p
      /\ Product.minimum_stock p2 = Product.minimum_stock p
      /\ Product.optimal_stock p2 = Product.optimal_stock p.
Proof.
  intros d k p mt q up Hp.
  set (m := StockMovement.mk None k mt q up).
  set (j := next_pk (stock_movements d)).
  set (m' := with_pk j m).
  set (p1 := StockMovement_apply m p).
  set (d1 := after_movement d k m p).
  pose proof (get_pk _ _ _ Hp) as Hk.
  assert (Hm1 : get (stock_movements d1) j = Some m').
  { unfold d1, after_movement; simpl.
    rewrite get_app_none by apply get_next_pk.
    unfold get, has_pk; simpl. now rewrite Z.eqb_refl. }
  assert (Hp1 : get (products d1) (StockMovement.product_id m') = Some p1)
    by now apply Inventory.after_movement_product.
  exists m', j, d1. eexists. exists (StockMovement_undo m' p1).
  split; [now apply Inventory.StockMovement_create_spec|].
  split; [reflexivity|].
  split; [exact (stock_movement_delete_run d1 j m' p1 Hm1 Hp1)|].
  destruct (StockMovement_undo_frame m' p1) as (U1 & U2 & U3 & U4).
  destruct (Inventory.StockMovement_apply_frame m p) as (A1 & A2 & A3 & A4).
  split; [|split; [|split; [|split; [|split]]]].
  - simpl. unfold delete_row. rewrite filter_app. simpl.
    unfold has_pk at 2; simpl. rewrite Z.eqb_refl. simpl.
    rewrite app_nil_r. apply delete_row_fresh.
  - simpl. apply get_replace_row with (r := p1).
    + exact (eq_trans U1 (eq_trans A1 Hk)).
    + exact Hp1.
  - rewrite StockMovement_undo_value. unfold p1.
    rewrite Inventory.StockMovement_apply_value. simpl. ring.
  - unfold p1 in *. congruence.
  - unfold p1 in *. congruence.
  - unfold p1 in *. congruence.
Qed.

Lemma eqb_zero (a : Decimal) :
  Dec.eqb a (Dec.of_int 0) = true <-> (Dec.val a == 0)%Q.
Proof. rewrite DecFacts.eqb_eq, Inventory.val_zero. reflexivity. Qed.

Lemma stock_status_values p :
  In (Product.stock_status p)
     ["OUT_OF_STOCK"; "LOW_STOCK"; "NORMAL"; "OPTIMAL"].
Proof.
  unfold Product.stock_status.
  repeat match goal with |- context [if ?b then _ else _] => destruct b end;
    simpl; auto.
Qed.

(** X3.  The stock-status filter of the product list and
    [stock_status] agree only in part.  The [LOW_STOCK] filter keeps
    exactly the products whose status is [LOW_STOCK].  The
    [OUT_OF_STOCK] filter keeps exactly the [OUT_OF_STOCK] products whose
    quantity is zero, and none below zero.  The [NORMAL] filter keeps
    the [NORMAL] products and also the [OUT_OF_STOCK] products whose
    quantity lies between the minimum and the optimal stock.  The
    [OPTIMAL] filter keeps the [OPTIMAL] products and also the
    [OUT_OF_STOCK] and [LOW_STOCK] products whose quantity reaches the
    optimal stock. *)
Theorem product_list_filter_and_status :
  forall p : Product.t,
    (product_list_stock_filter "LOW_STOCK" p = true
     <-> Product.stock_status p = "LOW_STOCK")
    /\ (product_list_stock_filter "OUT_OF_STOCK" p = true
        <-> Product.stock_status p = "OUT_OF_STOCK"
            /\ (quantity_value p == 0)%Q)
    /\ (product_list_stock_filter "NORMAL" p = true
        <-> Product.stock_status p = "NORMAL"
            \/ (Product.stock_status p = "OUT_OF_STOCK"
                /\ (Dec.val (Product.minimum_stock p) <= quantity_value p)%Q
                /\ (quantity_value p < Dec.val (Product.optimal_stock p))%Q))
    /\ (product_list_stock_filter "OPTIMAL" p = true
        <-> Product.stock_status p = "OPTIMAL"
            \/ ((Product.stock_status p = "OUT_OF_STOCK"
                 \/ Product.stock_status p = "LOW_STOCK")
                /\ (Dec.val (Product.optimal_stock p)
                    <= quantity_value p)%Q)).
Proof.
  intros p. unfold quantity_value.
  assert (Hout : product_list_stock_filter "OUT_OF_STOCK" p
                 = Dec.eqb (Product.quantity_in_stock p) (Dec.of_int 0))
    by reflexivity.
  assert (Hlow : product_list_stock_filter "LOW_STOCK" p
                 = Dec.ltb (Dec.of_int 0) (Product.quantity_in_stock p)
                   && Dec.ltb (Product.quantity_in_stock p)
                              (Product.minimum_stock p)) by reflexivity.
  assert (Hnor : product_list_stock_filter "NORMAL" p
                 = Dec.leb (Product.minimum_stock p)
                           (Product.quantity_in_stock p)
                   && Dec.ltb (Product.quantity_in_stock p)
                              (Product.optimal_stock p)) by reflexivity.
  assert (Hopt : product_list_stock_filter "OPTIMAL" p
                 = Dec.leb (Product.optimal_stock p)
                           (Product.quantity_in_stock p)) by reflexivity.
  rewrite Hout, Hlow, Hnor, Hopt. clear Hout Hlow Hnor Hopt.
  pose proof (eqb_zero (Product.quantity_in_stock p)) as Hzero.
  unfold Product.stock_status.
  destruct (Dec.eqb (Product.quantity_in_stock p) (Dec.of_int 0));
    Inventory.dec_cases; cbn [andb];
    repeat split; intros;
    repeat match goal with
      | H : _ /\ _ |- _ => destruct H
      | H : _ \/ _ |- _ => destruct H
      end;
    try discriminate; try reflexivity; try assumption;
    try (apply (proj1 Hzero); reflexivity);
    try (exfalso;
         match goal with
         | H : (_ == 0)%Q |- _ => apply (proj2 Hzero) in H; discriminate H
         end);
    try (left; reflexivity);
    try (right; repeat split; first [assumption | left; reflexivity
                                     | right; reflexivity]);
    try (exfalso; pose proof (proj1 Hzero eq_refl); lra);
    try (exfalso; lra).
Qed.

(** X4.  [is_low_stock] against [stock_status]: a product is low on
    stock exactly when its status is [LOW_STOCK], or [OUT_OF_STOCK] with
    a quantity below the minimum; a [NORMAL] or [OPTIMAL] product never
    is. *)
Theorem is_low_stock_and_status :
  forall p : Product.t,
    (Product.is_low_stock p = true
     <-> Product.stock_status p = "LOW_STOCK"
         \/ (Product.stock_status p = "OUT_OF_STOCK"
             /\ (quantity_value p < Dec.val (Product.minimum_stock p))%Q))
    /\ (Product.stock_status p = "NORMAL" \/ Product.stock_status p = "OPTIMAL"
        -> Product.is_low_stock p = false).
Proof.
  intros p. unfold quantity_value, Product.is_low_stock, Product.stock_status.
  Inventory.dec_cases; split;
    try (intros [H|H]; try discriminate H; reflexivity);
    split; intros H; try discriminate H; auto;
    try (destruct H as [H|[H H']]; try discriminate H; try reflexivity;
         exfalso; Inventory.q_contradiction).
Qed.

End MoreInventory.

(* ================================================================== *)
(** * More on invoices and payments *)
(* ================================================================== *)

Module MoreAccounting.
Import Orm OrmFacts.

Lemma balance_value_eq i : (balance_value i == total_value i - paid_value i)%Q.
Proof.
  unfold balance_value, Invoice.remaining_balance. apply DecFacts.val_sub.
Qed.

Lemma credited_total today a i :
  total_value (credited today a i) = total_value i.
Proof.
  unfold total_value.
  now rewrite (proj2 (proj2 (Accounting.credited_frame today a i))).
Qed.

Lemma credited_status_paid today a i :
  (total_value i <= paid_value i + Dec.val a)%Q ->
  Invoice.status (credited today a i) = "PAID".
Proof.
  intros H. unfold credited. apply Accounting.update_status_paid.
  unfold paid_value, total_value in *. simpl. now rewrite DecFacts.val_add.
Qed.

Lemma violates_new_payment d num k a :
  violates (payments d) (Payment.mk None num k a)
  = existsb (fun r => String.eqb num (Payment.payment_number r)) (payments d).
Proof.
  unfold violates. generalize (payments d). intros l.
  induction l as [|r l IH]; cbn [existsb]; [reflexivity|].
  rewrite IH. reflexivity.
Qed.

(** The view with its form, on a valid and on an invalid form. *)
Lemma invoice_add_payment_view_valid today d k num a inv :
  get (invoices d) k = Some inv ->
  PaymentForm_clean_amount a = true ->
  violates (payments d) (Payment.mk None num k a) = false ->
  exists r d',
    invoice_add_payment_view today k num a d = (Ok (Some r), d')
    /\ invoice_add_payment today k num a d = (Ok r, d').
Proof.
  intros Hinv Hclean Hfresh.
  destruct (Accounting.invoice_add_payment_runs today d k num a inv Hinv
              Hfresh) as (r & d' & Hrun).
  exists r, d'. split; [|exact Hrun].
  unfold invoice_add_payment, bind, fetch in Hrun.
  change (rows Invoice_objects d) with (invoices d) in Hrun.
  rewrite Hinv in Hrun.
  unfold invoice_add_payment_view, bind at 1, fetch.
  change (rows Invoice_objects d) with (invoices d).
  rewrite Hinv. unfold bind at 1, PaymentForm_is_valid.
  rewrite Hclean, <- (violates_new_payment d num k a), Hfresh.
  cbn [andb negb]. unfold bind at 1. now rewrite Hrun.
Qed.

Lemma invoice_add_payment_view_invalid today d k num a inv :
  get (invoices d) k = Some inv ->
  PaymentForm_clean_amount a = false
  \/ violates (payments d) (Payment.mk None num k a) = true ->
  invoice_add_payment_view today k num a d = (Ok None, d).
Proof.
  intros Hinv Hbad.
  unfold invoice_add_payment_view, bind at 1, fetch.
  change (rows Invoice_objects d) with (invoices d).
  rewrite Hinv. unfold bind at 1, PaymentForm_is_valid.
  rewrite <- (violates_new_payment d num k a).
  destruct Hbad as [-> | ->]; [reflexivity|].
  now rewrite andb_false_r.
Qed.

(** X5.  A payment of the remaining balance, the amount the payment
    form proposes, settles the invoice when the form accepts it: if the
    balance passes the checks of the form on the amount (not negative,
    at most two decimal places, within the digits of the column) and the
    payment number is not taken, the payment is recorded, the status
    becomes [PAID] and the balance zero.  On an invoice paid beyond its
    total the balance is negative: the form refuses it and nothing is
    stored. *)
Theorem paying_the_balance_settles :
  forall (today : Z) (d : DB) (k : Z) (num : string) (inv : Invoice.t),
    get (invoices d) k = Some inv ->
    (violates (payments d)
       (Payment.mk None num k (Invoice.remaining_balance inv)) = false ->
     PaymentForm_clean_amount (Invoice.remaining_balance inv) = true ->
     exists r d' inv',
       invoice_add_payment_view today k num (Invoice.remaining_balance inv) d
       = (Ok (Some r), d')
       /\ get (invoices d') k = Some inv'
       /\ Invoice.status inv' = "PAID"
       /\ (Dec.val (Invoice.remaining_balance inv') == 0)%Q)
    /\ ((balance_value inv < 0)%Q ->
        invoice_add_payment_view today k num (Invoice.remaining_balance inv) d
        = (Ok None, d)).
Proof.
  intros today d k num inv Hinv. split.
  - intros Hfresh Hclean.
    destruct (invoice_add_payment_view_valid today d k num _ inv Hinv Hclean
                Hfresh) as (r & d' & Hview & Hrun).
    pose proof (Accounting.invoice_add_payment_row _ _ _ _ _ _ _ _ Hinv Hrun)
      as Hrow.
    exists r, d', (credited today (Invoice.remaining_balance inv) inv).
    split; [exact Hview|]. split; [exact Hrow|].
    pose proof (balance_value_eq inv) as Hb. unfold balance_value in Hb.
    split.
    + apply credited_status_paid. rewrite Hb.
      setoid_replace (paid_value inv + (total_value inv - paid_value inv))%Q
        with (total_value inv) by ring.
      apply Qle_refl.
    + fold (balance_value
              (credited today (Invoice.remaining_balance inv) inv)).
      rewrite balance_value_eq, credited_total, Accounting.credited_paid, Hb.
      ring.
  - intros Hneg. apply (invoice_add_payment_view_invalid _ _ _ _ _ inv Hinv).
    left. unfold PaymentForm_clean_amount, MinValueValidator.
    apply andb_false_iff. right. apply DecFacts.leb_gt.
    now rewrite Inventory.val_zero.
Qed.

(** X6.  A recorded payment lowers the remaining balance by its amount,
    and nothing compares the amount with the balance: a payment above
    the balance is recorded like any other, leaves the invoice [PAID]
    and the balance negative. *)
Theorem payment_lowers_balance :
  forall (today : Z) (d d' : DB) (k : Z) (num : string) (a : Decimal)
         (inv : Invoice.t) (r : Payment.t * Invoice.t),
    get (invoices d) k = Some inv ->
    invoice_add_payment today k num a d = (Ok r, d') ->
    exists inv',
      get (invoices d') k = Some inv'
      /\ (Dec.val (Invoice.remaining_balance inv')
          == Dec.val (Invoice.remaining_balance inv) - Dec.val a)%Q
      /\ ((Dec.val (Invoice.remaining_balance inv) < Dec.val a)%Q ->
          Invoice.status inv' = "PAID"
          /\ (Dec.val (Invoice.remaining_balance inv') < 0)%Q).
Proof.
  intros today d d' k num a inv r Hinv Hrun.
  pose proof (Accounting.invoice_add_payment_row _ _ _ _ _ _ _ _ Hinv Hrun)
    as Hrow.
  exists (credited today a inv). split; [exact Hrow|].
  assert (Hbal : (balance_value (credited today a inv)
                  == balance_value inv - Dec.val a)%Q).
  { rewrite !balance_value_eq, credited_total, Accounting.credited_paid.
    ring. }
  split; [exact Hbal|].
  fold (balance_value inv). fold (balance_value (credited today a inv)).
  intros Hover. split.
  - apply credited_status_paid. rewrite balance_value_eq in Hover.
    apply Qlt_le_weak.
    apply Qplus_lt_l with (z := (- paid_value inv)%Q).
    setoid_replace (paid_value inv + Dec.val a + - paid_value inv)%Q
      with (Dec.val a) by ring.
    exact Hover.
  - rewrite Hbal. apply Qlt_minus_iff in Hover. apply Qlt_minus_iff.
    setoid_replace (0 + - (balance_value inv - Dec.val a))%Q
      with (Dec.val a + - balance_value inv)%Q by ring.
    exact Hover.
Qed.

(** X7.  An invoice paid in full stays [PAID] under further payments of
    amounts that are not negative: the paid amount does not fall back
    below the total. *)
Theorem paid_invoice_stays_paid :
  forall (l : list payment_spec) (d d' : DB) (k : Z) (inv : Invoice.t),
    get (invoices d) k = Some inv ->
    Invoice.status inv = "PAID" ->
    (total_value inv <= paid_value inv)%Q ->
    Forall (fun p => (0 <= Dec.val (snd p))%Q) l ->
    add_payments k l d = (Ok tt, d') ->
    exists inv',
      get (invoices d') k = Some inv'
      /\ Invoice.status inv' = "PAID"
      /\ (total_value inv' <= paid_value inv')%Q.
Proof.
  induction l as [|p l IH]; intros d d' k inv Hinv Hst Hfull Hpos Hrun.
  - injection Hrun as <-. exists inv. auto.
  - apply Accounting.add_payments_cons in Hrun.
    destruct Hrun as (r & d1 & Hone & Hrest).
    inversion Hpos as [|x xs Hp Hpos']; subst.
    pose proof (Accounting.invoice_add_payment_row _ _ _ _ _ _ _ _ Hinv Hone)
      as Hrow.
    assert (Hle : (total_value inv <= paid_value inv + Dec.val (snd p))%Q).
    { setoid_replace (total_value inv) with (total_value inv + 0)%Q by ring.
      now apply Qplus_le_compat. }
    apply (IH d1 d' k _ Hrow); try assumption.
    + now apply credited_status_paid.
    + now rewrite credited_total, Accounting.credited_paid.
Qed.

End MoreAccounting.

(* ================================================================== *)
(** * More on reservations *)
(* ================================================================== *)

Module MoreBookings.
Import Orm OrmFacts MoreOrm.

Section Count.
Context {A : Type} `{Model A}.

Lemma replace_row_absent (t : list A) k x :
  (forall a, In a t -> has_pk k a = false) -> replace_row k x t = t.
Proof.
  unfold replace_row. induction t as [|a t IH]; simpl; intros Hno;
    [reflexivity|].
  rewrite (Hno a (or_introl eq_refl)), IH; [reflexivity|].
  intros b Hb. apply Hno. now right.
Qed.

(** Rewriting the one row of key [k] changes a count by what the old
    row and the new row contribute. *)
Lemma count_replace_row (f : A -> bool) (t : list A) k x r :
  NoDup (map pk_of t) ->
  get t k = Some r ->
  Z.of_nat (List.length (filter f (replace_row k x t)))
  = Z.of_nat (List.length (filter f t)) - spot (f r) + spot (f x).
Proof.
  induction t as [|a t IH]; simpl; intros Hnd Hget; [discriminate|].
  inversion Hnd as [|y ys Hnotin Hnd']; subst.
  unfold get in Hget. simpl in Hget.
  destruct (has_pk k a) eqn:Ha.
  - injection Hget as ->.
    rewrite replace_row_absent.
    + unfold spot. destruct (f r), (f x); simpl List.length; lia.
    + intros b Hb. destruct (has_pk k b) eqn:Hkb; [|reflexivity].
      exfalso. apply Hnotin. apply has_pk_iff in Ha, Hkb.
      rewrite Ha, <- Hkb. now apply in_map.
  - specialize (IH Hnd' Hget). fold (replace_row k x t).
    destruct (f a); simpl List.length; lia.
Qed.
End Count.

Lemma current_reservations_count d s :
  TimeSlotAvailability_get_current_reservations d s
  = Z.of_nat (List.length (filter (takes_spot s) (reservations d))).
Proof. reflexivity. Qed.

(** X8.  Saving a new reservation looks at the unique constraints only,
    never at the ceiling of the time slot: when no stored row clashes it
    is stored, and the slot of its day and time has one spot less if the
    reservation is pending or confirmed; on a slot that was fully booked
    the available spots end below zero. *)
Theorem new_reservation_takes_spot :
  forall (d : DB) (s : TimeSlotAvailability.t) (x : Reservation.t),
    Reservation.pk x = None ->
    violates (reservations d) x = false ->
    exists x' d',
      Reservation_save x d = (Ok x', d')
      /\ TimeSlotAvailability_get_available_spots d' s
         = TimeSlotAvailability_get_available_spots d s
           - spot (takes_spot s x)
      /\ (TimeSlotAvailability_is_fully_booked d s = true ->
          takes_spot s x = true ->
          TimeSlotAvailability_get_available_spots d' s < 0).
Proof.
  intros d s x Hnew Hv.
  set (x' := with_pk (next_pk (reservations d)) x).
  exists x', (put_rows Reservation_objects (reservations d ++ [x']) d).
  assert (Hspots :
    TimeSlotAvailability_get_available_spots
      (put_rows Reservation_objects (reservations d ++ [x']) d) s
    = TimeSlotAvailability_get_available_spots d s - spot (takes_spot s x)).
  { unfold TimeSlotAvailability_get_available_spots.
    rewrite !current_reservations_count. simpl reservations.
    rewrite filter_app, length_app. simpl filter.
    change (takes_spot s x') with (takes_spot s x).
    unfold spot. destruct (takes_spot s x); simpl List.length; lia. }
  split; [|split].
  - unfold Reservation_save, Model_save.
    change (rows Reservation_objects d) with (reservations d).
    now rewrite save_insert.
  - exact Hspots.
  - intros Hfull Htakes. rewrite Hspots, Htakes.
    unfold TimeSlotAvailability_is_fully_booked in Hfull.
    apply Z.leb_le in Hfull. simpl. lia.
Qed.

(** A stored reservation whose status alone is changed. *)
Lemma Reservation_set_status_run d k r st :
  get (reservations d) k = Some r ->
  violates (reservations d) r = false ->
  Reservation_save (Reservation.set_status st r) d
  = (Ok (Reservation.set_status st r),
     put_rows Reservation_objects
       (replace_row k (Reservation.set_status st r) (reservations d)) d).
Proof.
  intros Hr Hv. unfold Reservation_save, Model_save.
  change (rows Reservation_objects d) with (reservations d).
  rewrite (save_update (reservations d) (Reservation.set_status st r) k r);
    [reflexivity|exact Hv|exact (get_pk _ _ _ Hr)|assumption].
Qed.

Lemma released_spot d s k r st :
  NoDup (map Reservation.pk (reservations d)) ->
  get (reservations d) k = Some r ->
  str_in st ["PENDING"; "CONFIRMED"] = false ->
  TimeSlotAvailability_get_available_spots
    (put_rows Reservation_objects
       (replace_row k (Reservation.set_status st r) (reservations d)) d) s
  = TimeSlotAvailability_get_available_spots d s + spot (takes_spot s r).
Proof.
  intros Hnd Hr Hst. unfold TimeSlotAvailability_get_available_spots.
  rewrite !current_reservations_count. simpl reservations.
  rewrite (count_replace_row (H := Reservation.model) (takes_spot s)
             (reservations d) k _ r Hnd Hr).
  assert (Hoff : takes_spot s (Reservation.set_status st r) = false).
  { unfold takes_spot. simpl Reservation.status. rewrite Hst.
    now rewrite andb_false_r. }
  rewrite Hoff. simpl spot. lia.
Qed.

Lemma available_after_release d k r t st :
  get (reservations d) k = Some r ->
  Reservation.table_id r = Some t ->
  (forall r2, In r2 (reservations d) ->
              Reservation.same_booking r r2 = true ->
              Reservation.pk r2 = Some k) ->
  str_in st ["PENDING"; "CONFIRMED"] = false ->
  Table_is_available_at
    (put_rows Reservation_objects
       (replace_row k (Reservation.set_status st r) (reservations d)) d)
    t (Reservation.reservation_date r) (Reservation.time_slot r) = true.
Proof.
  intros Hr Ht Honly Hst. unfold Table_is_available_at. simpl reservations.
  match goal with
  | |- negb (match filter ?f ?l with _ => _ end) = true =>
      destruct (filter f l) as [|a rest] eqn:Hf; [reflexivity|];
      assert (Ha : In a (filter f l)) by (rewrite Hf; now left)
  end.
  exfalso. apply filter_In in Ha. destruct Ha as [Hin Ha].
  apply andb_prop in Ha. destruct Ha as [Ha Hact].
  apply andb_prop in Ha. destruct Ha as [Ha Hslot].
  apply andb_prop in Ha. destruct Ha as [Htab Hdate].
  unfold replace_row in Hin. apply in_map_iff in Hin.
  destruct Hin as (b & Hb & Hinb).
  destruct (has_pk k b) eqn:Hkb.
  - subst a. cbn [Reservation.status Reservation.set_status] in Hact.
    rewrite Hst in Hact. discriminate.
  - subst a. assert (Hsame : Reservation.same_booking r b = true).
    { unfold Reservation.same_booking. rewrite Ht.
      destruct (Reservation.table_id b) as [t'|]; [|discriminate].
      simpl in Htab. apply Z.eqb_eq in Htab. subst t'.
      apply Z.eqb_eq in Hdate. apply String.eqb_eq in Hslot.
      now rewrite Z.eqb_refl, Hdate, Z.eqb_refl, Hslot, String.eqb_refl. }
    apply (Honly b Hinb) in Hsame.
    apply (proj2 (has_pk_iff (H := Reservation.model) k b)) in Hsame.
    congruence.
Qed.

(** X9.  Cancelling a stored reservation, completing it or marking it
    as a no-show releases what it held: the slot of its day and time
    gets one spot back if it was pending or confirmed, and when it is the
    only stored row for its table, day and slot, [is_available_at]
    reports the table free there. *)
Theorem closing_a_reservation_releases :
  forall (d : DB) (s : TimeSlotAvailability.t) (k : Z) (r : Reservation.t)
         (close : Reservation.t -> M Reservation.t),
    close = Reservation_cancel \/ close = Reservation_complete
    \/ close = Reservation_mark_no_show ->
    NoDup (map Reservation.pk (reservations d)) ->
    get (reservations d) k = Some r ->
    violates (reservations d) r = false ->
    exists r' d',
      close r d = (Ok r', d')
      /\ get (reservations d') k = Some r'
      /\ str_in (Reservation.status r') ["PENDING"; "CONFIRMED"] = false
      /\ TimeSlotAvailability_get_available_spots d' s
         = TimeSlotAvailability_get_available_spots d s
           + spot (takes_spot s r)
      /\ (forall t,
            Reservation.table_id r = Some t ->
            (forall r2, In r2 (reservations d) ->
                        Reservation.same_booking r r2 = true ->
                        Reservation.pk r2 = Some k) ->
            Table_is_available_at d' t (Reservation.reservation_date r)
                                  (Reservation.time_slot r) = true).
Proof.
  intros d s k r close Hclose Hnd Hr Hv.
  assert (Hgen : forall st,
             str_in st ["PENDING"; "CONFIRMED"] = false ->
             exists r' d',
               Reservation_save (Reservation.set_status st r) d = (Ok r', d')
               /\ get (reservations d') k = Some r'
               /\ str_in (Reservation.status r') ["PENDING"; "CONFIRMED"]
                  = false
               /\ TimeSlotAvailability_get_available_spots d' s
                  = TimeSlotAvailability_get_available_spots d s
                    + spot (takes_spot s r)
               /\ (forall t,
                     Reservation.table_id r = Some t ->
                     (forall r2, In r2 (reservations d) ->
                                 Reservation.same_booking r r2 = true ->
                                 Reservation.pk r2 = Some k) ->
                     Table_is_available_at d' t
                       (Reservation.reservation_date r)
                       (Reservation.time_slot r) = true)).
  { intros st Hst.
    exists (Reservation.set_status st r),
           (put_rows Reservation_objects
              (replace_row k (Reservation.set_status st r) (reservations d))
              d).
    split; [now apply Reservation_set_status_run|].
    split; [|split; [exact Hst|split]].
    - simpl reservations. apply get_replace_row with (r := r);
        [exact (get_pk _ _ _ Hr)|assumption].
    - now apply released_spot.
    - intros t Ht Honly. now apply available_after_release. }
  destruct Hclose as [->|[->| ->]]; apply Hgen; reflexivity.
Qed.

(** X10.  The two availability tests agree in one direction: when
    [is_available_at] reports a table taken for a day and slot, the time
    slot of that day and time counts at least one reservation. *)
Theorem taken_table_is_counted :
  forall (d : DB) (s : TimeSlotAvailability.t) (t : Z),
    Table_is_available_at d t (TimeSlotAvailability.date s)
                          (TimeSlotAvailability.time_slot s) = false ->
    1 <= TimeSlotAvailability_get_current_reservations d s
    /\ TimeSlotAvailability_get_available_spots d s
       < TimeSlotAvailability.max_reservations s.
Proof.
  intros d s t Hav.
  assert (H1 : 1 <= TimeSlotAvailability_get_current_reservations d s).
  { unfold Table_is_available_at in Hav.
    rewrite current_reservations_count.
    match type of Hav with
    | negb (match filter ?f ?l with _ => _ end) = _ =>
        destruct (filter f l) as [|r rs] eqn:Hf; [discriminate|];
        assert (Hr : In r (filter f l)) by (rewrite Hf; now left)
    end.
    apply filter_In in Hr. destruct Hr as [Hin Hr].
    apply andb_prop in Hr. destruct Hr as [Hr Hact].
    apply andb_prop in Hr. destruct Hr as [Hr Hslot].
    apply andb_prop in Hr. destruct Hr as [_ Hdate].
    assert (Hc : In r (filter (takes_spot s) (reservations d))).
    { apply filter_In. split; [assumption|]. unfold takes_spot.
      now rewrite Hdate, Hslot, Hact. }
    destruct (filter (takes_spot s) (reservations d)); [contradiction|].
    simpl List.length. lia. }
  split; [exact H1|]. unfold TimeSlotAvailability_get_available_spots. lia.
Qed.

End MoreBookings.

(* ================================================================== *)
(** * More on orders *)
(* ================================================================== *)

Module MoreOrders.
Import Orm OrmFacts MoreOrm.

Lemma keeps_orders_refl d : keeps_orders d d.
Proof. unfold keeps_orders. auto. Qed.

Lemma keeps_orders_trans d1 d2 d3 :
  keeps_orders d1 d2 -> keeps_orders d2 d3 -> keeps_orders d1 d3.
Proof.
  unfold keeps_orders. intros (A1 & A2 & A3 & A4) (B1 & B2 & B3 & B4).
  repeat split; congruence.
Qed.

Lemma StockMovement_save_keeps_orders m p d r d' :
  StockMovement_save m p d = (r, d') -> keeps_orders d d'.
Proof.
  unfold StockMovement_save, bind, Model_save, ret.
  destruct (is_None (StockMovement.pk m)).
  - destruct (save (rows Product_objects d) (StockMovement_apply m p))
      as [[t x]|e]; [|intros H; injection H as _ <-; apply keeps_orders_refl].
    match goal with
    | |- context [save ?rows ?y] => destruct (save rows y) as [[t' x']|e']
    end; intros H; injection H as _ <-; repeat split.
  - match goal with
    | |- context [save ?rows ?y] => destruct (save rows y) as [[t' x']|e']
    end; intros H; injection H as _ <-; repeat split.
Qed.

Lemma deduct_each_keeps_orders item :
  forall l d r d', deduct_each item l d = (r, d') -> keeps_orders d d'.
Proof.
  induction l as [|ing l IH]; intros d r d'; simpl.
  - intros H. injection H as _ <-. apply keeps_orders_refl.
  - unfold bind at 1, fetch.
    destruct (get (rows Product_objects d)
                  (MenuItemIngredient.product_id ing)) as [p|];
      [|intros H; injection H as _ <-; apply keeps_orders_refl].
    unfold bind at 1.
    match goal with
    | |- context [StockMovement_save ?m ?q d] =>
        destruct (StockMovement_save m q d) as [[x|e] d1] eqn:Hs
    end.
    + intros H. apply (keeps_orders_trans d d1 d').
      * exact (StockMovement_save_keeps_orders _ _ _ _ _ Hs).
      * exact (IH _ _ _ H).
    + intros H. injection H as _ <-.
      exact (StockMovement_save_keeps_orders _ _ _ _ _ Hs).
Qed.

(** Saving a new order item appends its row and leaves the orders. *)
Lemma OrderItem_save_new_rows d item item' d' :
  OrderItem.pk item = None ->
  OrderItem_save item d = (Ok item', d') ->
  item' = with_pk (next_pk (order_items d)) item
  /\ order_items d' = order_items d ++ [item']
  /\ orders d' = orders d.
Proof.
  intros Hnew. unfold OrderItem_save, bind at 1. rewrite Hnew.
  rewrite (Orders.OrderItem_save_new_row d item Hnew).
  set (it := with_pk (next_pk (order_items d)) item).
  set (d0 := put_rows OrderItem_objects (order_items d ++ [it]) d).
  cbn beta iota delta [is_None]. unfold bind at 1, fetch.
  destruct (get (rows MenuItem_objects d0) (OrderItem.menu_item_id it))
    as [mi|]; [|discriminate].
  destruct (MenuItem.track_inventory mi).
  - unfold bind, OrderItem_deduct_from_inventory.
    destruct (deduct_each it
                (MenuItem_ingredients d0 (OrderItem.menu_item_id it)) d0)
      as [[u|e] d1] eqn:Hd; [|discriminate].
    intros H. injection H as <- <-.
    destruct (deduct_each_keeps_orders _ _ _ _ _ Hd) as (K1 & K2 & _).
    split; [reflexivity|]. split; [exact K1|exact K2].
  - intros H. injection H as <- <-. repeat split.
Qed.

Lemma Order_items_app d o k (it : OrderItem.t) d1 :
  Order.pk o = Some k ->
  OrderItem.order_id it = k ->
  order_items d1 = order_items d ++ [it] ->
  Order_items d1 o = Order_items d o ++ [it].
Proof.
  intros Hk Hit Hrows. unfold Order_items. rewrite Hrows, filter_app.
  simpl. rewrite Hk, Hit. simpl. now rewrite Z.eqb_refl.
Qed.

Lemma filter_comm {A : Type} (f g : A -> bool) (l : list A) :
  filter f (filter g l) = filter g (filter f l).
Proof.
  induction l as [|a l IH]; simpl; [reflexivity|].
  destruct (f a) eqn:Ef, (g a) eqn:Eg; simpl;
    rewrite ?Ef, ?Eg, IH; reflexivity.
Qed.

Lemma items_value_app l l' :
  (items_value (l ++ l') == items_value l + items_value l')%Q.
Proof.
  induction l as [|i l IH]; simpl; [ring|]. rewrite IH. ring.
Qed.

End MoreOrders.

(* ================================================================== *)
(** * Decimal columns *)
(* ================================================================== *)

Module Columns.
Import Dec DecFacts.

Lemma quantize_places dp a : places (quantize dp a) = dp.
Proof. unfold quantize. destruct (places a <=? dp)%nat; reflexivity. Qed.

Lemma quantize_exact dp a :
  (places a <= dp)%nat -> (val (quantize dp a) == val a)%Q.
Proof.
  intros Hle. unfold quantize.
  rewrite (proj2 (Nat.leb_le _ _) Hle). unfold val; cbn [coef places].
  replace (pow10 dp) with (pow10 (dp - places a) * pow10 (places a)).
  - apply frac_scale; apply pow10_pos.
  - rewrite <- pow10_add. f_equal. lia.
Qed.

Lemma half_unit_frac (c s e : Z) :
  0 < s -> 0 < e ->
  (inject_Z c / inject_Z (s * e) - inject_Z 1 / inject_Z (2 * e)
   == inject_Z (2 * c - s) / inject_Z (2 * (s * e)))%Q
  /\ (inject_Z c / inject_Z (s * e) + inject_Z 1 / inject_Z (2 * e)
      == inject_Z (2 * c + s) / inject_Z (2 * (s * e)))%Q.
Proof.
  intros Hs He.
  assert (~ (inject_Z s == 0)%Q) by now apply inject_nonzero.
  assert (~ (inject_Z e == 0)%Q) by now apply inject_nonzero.
  unfold Z.sub.
  rewrite !inject_Z_plus, !inject_Z_opp, !inject_Z_mult.
  split; field; auto.
Qed.

(** Quantizing moves a number by half a unit of the last place at
    most. *)
Lemma quantize_near dp a :
  (val a - inject_Z 1 / inject_Z (2 * pow10 dp) <= val (quantize dp a))%Q
  /\ (val (quantize dp a) <= val a + inject_Z 1 / inject_Z (2 * pow10 dp))%Q.
Proof.
  pose proof (pow10_pos dp) as Hdp.
  assert (Hh : (0 <= inject_Z 1 / inject_Z (2 * pow10 dp))%Q).
  { apply Qle_shift_div_l.
    - change 0%Q with (inject_Z 0). rewrite <- Zlt_Qlt. lia.
    - rewrite Qmult_0_l. discriminate. }
  destruct (Nat.leb_spec (places a) dp) as [Hle|Hgt].
  - rewrite (quantize_exact dp a Hle). split.
    + rewrite <- (Qplus_0_r (val a)) at 2. unfold Qminus.
      apply Qplus_le_r.
      apply (Qopp_le_compat 0) in Hh. exact Hh.
    + rewrite <- (Qplus_0_r (val a)) at 1. now apply Qplus_le_r.
  - set (s := pow10 (places a - dp)).
    assert (Hs : 0 < s) by apply pow10_pos.
    assert (Hp : pow10 (places a) = s * pow10 dp).
    { unfold s. rewrite <- pow10_add. f_equal. lia. }
    pose proof (Z.div_mod (coef a) s ltac:(lia)) as Hdiv.
    pose proof (Z.mod_pos_bound (coef a) s Hs) as Hmod.
    destruct (half_unit_frac (coef a) s (pow10 dp) Hs Hdp) as [Hm Hpl].
    assert (Hq : (val (quantize dp a)
                  == inject_Z (coef (quantize dp a)) / inject_Z (pow10 dp))%Q).
    { unfold val. now rewrite quantize_places. }
    assert (Hc : coef (quantize dp a)
                 = (if (2 * (coef a mod s) <? s)%Z then coef a / s
                    else if (s <? 2 * (coef a mod s))%Z then coef a / s + 1
                    else if Z.even (coef a / s) then coef a / s
                         else coef a / s + 1)%Z).
    { unfold quantize. rewrite (proj2 (Nat.leb_gt _ _) Hgt). reflexivity. }
    rewrite Hq. unfold val. rewrite Hp, Hm, Hpl.
    split; apply frac_le; try nia; rewrite Hc;
      destruct (Z.ltb_spec (2 * (coef a mod s)) s);
      try destruct (Z.ltb_spec s (2 * (coef a mod s)));
      try destruct (Z.even (coef a / s)); nia.
Qed.

Lemma half_cent : (inject_Z 1 / inject_Z (2 * pow10 2) == 1 # 200)%Q.
Proof. reflexivity. Qed.

(** What a [DecimalField] of two decimal places holds of a value. *)
Lemma DecimalField_cents md a x :
  DecimalField md 2 a = Some x -> x = quantize 2 a /\ cents x (val a).
Proof.
  unfold DecimalField.
  destruct (Z.abs (coef (quantize 2 a)) <? pow10 md)%Z; [|discriminate].
  intros H. injection H as <-. split; [reflexivity|].
  destruct (quantize_near 2 a) as [Hlo Hhi]. rewrite half_cent in Hlo, Hhi.
  split; [apply quantize_places|]. split; assumption.
Qed.

Lemma DecimalField_exact md a x :
  (places a <= 2)%nat -> DecimalField md 2 a = Some x -> (val x == val a)%Q.
Proof.
  intros Hle H. apply DecimalField_cents in H. destruct H as [-> _].
  now apply quantize_exact.
Qed.

Lemma cents_compat x y y' : (y == y')%Q -> cents x y -> cents x y'.
Proof.
  intros E (H1 & H2 & H3). unfold cents. rewrite <- E. auto.
Qed.

Lemma clean_decimal_places a : clean_decimal a = true -> (places a <= 2)%nat.
Proof.
  unfold clean_decimal, DecimalValidator. intros H.
  apply andb_prop in H. destruct H as [H _].
  apply andb_prop in H. destruct H as [H _].
  now apply Nat.leb_le.
Qed.

(** A value that a form has checked is stored as it is. *)
Lemma DecimalField_clean md a x :
  clean_decimal a = true -> DecimalField md 2 a = Some x ->
  (val x == val a)%Q.
Proof.
  intros Hc. apply DecimalField_exact. now apply clean_decimal_places.
Qed.

End Columns.

(* ================================================================== *)
(** * Calls on the tables of purchase orders, stock-takings and
      invoice lines *)
(* ================================================================== *)

Module StoreFacts.
Import Orm OrmFacts MoreOrm.

Section Table.
Context {A : Type} `{Model A}.

Lemma Table_fetch_run (o : Table A) s k r :
  get (table_rows o s) k = Some r -> Table_fetch o k s = (Done r, s).
Proof. intros Hg. unfold Table_fetch. now rewrite Hg. Qed.

Lemma Table_save_update (o : Table A) s x k r :
  violates (table_rows o s) x = false -> pk_of x = Some k ->
  get (table_rows o s) k = Some r ->
  Table_save o x s = (Done x, table_put o (replace_row k x (table_rows o s)) s).
Proof.
  intros Hv Hk Hg. unfold Table_save.
  now rewrite (save_update _ x k r Hv Hk Hg).
Qed.

Lemma exists_replace_row (t : list A) k k' x :
  pk_of x = Some k ->
  existsb (has_pk k') (replace_row k x t) = existsb (has_pk k') t.
Proof.
  intros Hx. unfold replace_row.
  induction t as [|a t IH]; simpl; [reflexivity|]. rewrite IH. f_equal.
  destruct (has_pk k a) eqn:Ha; [|reflexivity].
  apply has_pk_iff in Ha. unfold has_pk. now rewrite Hx, Ha.
Qed.

Lemma exists_get (t : list A) k :
  existsb (has_pk k) t = true -> exists r, get t k = Some r.
Proof.
  unfold get. induction t as [|a t IH]; simpl; [discriminate|].
  destruct (has_pk k a); [intros _; now exists a|exact IH].
Qed.

Lemma violates_same_key (t : list A) x y :
  pk_of x = pk_of y ->
  (forall r, unique_clash x r = unique_clash y r) ->
  violates t x = violates t y.
Proof.
  intros Hk Hu. unfold violates, other_row. rewrite Hk.
  induction t as [|a t IH]; simpl; [reflexivity|]. now rewrite IH, Hu.
Qed.

Lemma violates_replaced (t : list A) k x y :
  pk_of x = Some k -> pk_of y = Some k ->
  violates (replace_row k y t) x = violates t x.
Proof.
  intros Hx Hy. unfold violates, replace_row, other_row. rewrite Hx.
  apply (proj2 (has_pk_iff k y)) in Hy.
  induction t as [|a t IH]; simpl; [reflexivity|].
  rewrite IH. destruct (has_pk k a) eqn:Ha; [|now rewrite Ha].
  now rewrite Hy.
Qed.

Lemma Table_save_done_update (o : Table A) s x k r a s' :
  pk_of x = Some k -> get (table_rows o s) k = Some r ->
  Table_save o x s = (Done a, s') ->
  a = x /\ s' = table_put o (replace_row k x (table_rows o s)) s.
Proof.
  intros Hk Hg. unfold Table_save, save.
  destruct (violates (table_rows o s) x); [discriminate|].
  rewrite Hk, (get_exists _ _ _ Hg). intros Hr. injection Hr as <- <-.
  split; reflexivity.
Qed.

Lemma Table_save_done_insert (o : Table A) s x a s' :
  pk_of x = None ->
  Table_save o x s = (Done a, s') ->
  a = with_pk (next_pk (table_rows o s)) x
  /\ s' = table_put o (table_rows o s ++ [a]) s.
Proof.
  intros Hk. unfold Table_save, save.
  destruct (violates (table_rows o s) x); [discriminate|].
  rewrite Hk. intros Hr. injection Hr as <- <-. split; reflexivity.
Qed.

Lemma Model_save_done_update (o : Objects A) d x k r a d' :
  pk_of x = Some k -> get (rows o d) k = Some r ->
  Model_save o x d = (Ok a, d') ->
  a = x /\ d' = put_rows o (replace_row k x (rows o d)) d.
Proof.
  intros Hk Hg. unfold Model_save, save.
  destruct (violates (rows o d) x); [discriminate|].
  rewrite Hk, (get_exists _ _ _ Hg). intros Hr. injection Hr as <- <-.
  split; reflexivity.
Qed.

Lemma save_columns_done (columns : A -> option A) (save : A -> W A)
    self s x s' :
  save_columns columns save self s = (Done x, s') ->
  exists row stored,
    columns self = Some row
    /\ save row s = (Done stored, s')
    /\ x = keyed stored self.
Proof.
  unfold save_columns. destruct (columns self) as [row|]; [|discriminate].
  unfold W_bind, W_ret. destruct (save row s) as [[stored|e] s1] eqn:E;
    intros Hr; [|discriminate].
  injection Hr as <- <-. exists row, stored. auto.
Qed.

Lemma keys_injective (t : list A) a b :
  NoDup (map pk_of t) -> In a t -> In b t -> pk_of a = pk_of b -> a = b.
Proof.
  induction t as [|c t IH]; simpl; [contradiction|].
  intros Hnd Ha Hb Hk. inversion Hnd as [|x xs Hnot Hnd']; subst.
  destruct Ha as [->|Ha], Hb as [->|Hb]; auto.
  - exfalso. apply Hnot. rewrite Hk. now apply in_map.
  - exfalso. apply Hnot. rewrite <- Hk. now apply in_map.
Qed.
End Table.

Lemma lift_run {A : Type} (m : M A) s a d :
  m (db s) = (Ok a, d) -> lift m s = (Done a, set_db d s).
Proof. intros Hm. unfold lift. now rewrite Hm. Qed.

Lemma lift_done {A : Type} (m : M A) s a s' :
  lift m s = (Done a, s') ->
  exists d', m (db s) = (Ok a, d') /\ s' = set_db d' s.
Proof.
  unfold lift. destruct (m (db s)) as [[x|e] d']; intros H;
    [|discriminate].
  injection H as <- <-. now exists d'.
Qed.

Lemma set_db_same s : set_db (db s) s = s.
Proof. now destruct s. Qed.

Lemma db_set_db d s : db (set_db d s) = d.
Proof. now destruct s. Qed.

Lemma lift_fetch_run {A : Type} `{Model A} (o : Objects A) s k r :
  get (rows o (db s)) k = Some r -> lift (fetch o k) s = (Done r, s).
Proof.
  intros Hg. unfold lift, fetch. rewrite Hg. now rewrite set_db_same.
Qed.

End StoreFacts.

(* ================================================================== *)
(** * Purchase orders *)
(* ================================================================== *)

Module Purchases.
Import Orm OrmFacts MoreOrm StoreFacts.

Lemma received_is_fully_received i :
  PurchaseOrderItem.is_fully_received (received i) = true.
Proof.
  unfold PurchaseOrderItem.is_fully_received, received; simpl.
  apply DecFacts.leb_le. apply Qle_refl.
Qed.

Lemma receive_item_is_fully_received i :
  PurchaseOrderItem.is_fully_received (receive_item i) = true.
Proof.
  unfold receive_item. destruct (to_receive i) eqn:E.
  - apply received_is_fully_received.
  - unfold to_receive in E. apply DecFacts.ltb_ge in E.
    now apply DecFacts.leb_le.
Qed.

Lemma fully_received_not_to_receive i :
  PurchaseOrderItem.is_fully_received i = true -> to_receive i = false.
Proof.
  unfold PurchaseOrderItem.is_fully_received, to_receive. intros E.
  apply DecFacts.leb_le in E. now apply DecFacts.ltb_ge.
Qed.

(** ** The rows after a reception *)

Lemma same_key_received i r : same_key i (received r) = same_key i r.
Proof. reflexivity. Qed.

Lemma receipts_received l r :
  (forall i, In i l -> same_key i r = true -> i = r) ->
  receipts l (received r) = received r.
Proof.
  unfold receipts. induction l as [|i l IH]; simpl; intros H; [reflexivity|].
  replace (receipt (received r) i) with (received r).
  - apply IH. intros j Hj. apply H. now right.
  - unfold receipt. rewrite same_key_received.
    destruct (to_receive i); simpl; [|reflexivity].
    destruct (same_key i r) eqn:E; [|reflexivity].
    now rewrite (H i (or_introl eq_refl) E).
Qed.

Lemma receipts_at l r :
  (forall i, In i l -> same_key i r = true -> i = r) ->
  receipts l r
  = if existsb (fun i => to_receive i && same_key i r) l then received r
    else r.
Proof.
  induction l as [|i l IH]; simpl; intros H; [reflexivity|].
  unfold receipts; simpl. unfold receipt at 2.
  destruct (to_receive i && same_key i r) eqn:E; simpl.
  - apply andb_prop in E. destruct E as [_ E].
    rewrite (H i (or_introl eq_refl) E).
    apply receipts_received. intros j Hj. apply H. now right.
  - apply IH. intros j Hj. apply H. now right.
Qed.

Lemma same_key_eq t i r :
  NoDup (map PurchaseOrderItem.pk t) -> In i t -> In r t ->
  same_key i r = true -> i = r.
Proof.
  intros Hnd Hi Hr Hsame.
  apply (keys_injective (H := PurchaseOrderItem.model) t); auto.
  unfold same_key in Hsame.
  destruct (PurchaseOrderItem.pk i) as [k|] eqn:Hk; [|discriminate].
  apply (proj1 (has_pk_iff (H := PurchaseOrderItem.model) k r)) in Hsame.
  simpl. now rewrite Hk, <- Hsame.
Qed.

Lemma same_key_refl r :
  PurchaseOrderItem.pk r <> None -> same_key r r = true.
Proof.
  intros Hk. unfold same_key.
  destruct (PurchaseOrderItem.pk r) as [k|] eqn:E; [|contradiction].
  apply (proj2 (has_pk_iff (H := PurchaseOrderItem.model) k r)). exact E.
Qed.

Lemma receipts_of_order o t :
  NoDup (map PurchaseOrderItem.pk t) ->
  (forall r, In r t -> PurchaseOrderItem.pk r <> None) ->
  map (receipts (filter (of_purchase_order o) t)) t = receive_items_of o t.
Proof.
  intros Hnd Hkeys. unfold receive_items_of. apply map_ext_in.
  intros r Hr. rewrite receipts_at.
  - assert (Hex : existsb (fun i => to_receive i && same_key i r)
                          (filter (of_purchase_order o) t)
                  = of_purchase_order o r && to_receive r).
    { destruct (of_purchase_order o r && to_receive r) eqn:E.
      - apply andb_prop in E. destruct E as [Hof Hto].
        apply existsb_exists. exists r. split.
        + apply filter_In. now split.
        + rewrite Hto. simpl. apply same_key_refl. now apply Hkeys.
      - apply not_true_is_false. intros Hex.
        apply existsb_exists in Hex. destruct Hex as (i & Hi & Htrig).
        apply filter_In in Hi. destruct Hi as [Hit Hio].
        apply andb_prop in Htrig. destruct Htrig as [Hto Hsame].
        assert (i = r) by (apply (same_key_eq t); auto). subst i.
        rewrite Hio, Hto in E. discriminate. }
    rewrite Hex. unfold receive_item.
    destruct (of_purchase_order o r), (to_receive r); reflexivity.
  - intros i Hi Hsame. apply filter_In in Hi. destruct Hi as [Hit _].
    now apply (same_key_eq t).
Qed.

Lemma receive_items_of_items o t :
  filter (of_purchase_order o) (receive_items_of o t)
  = map receive_item (filter (of_purchase_order o) t).
Proof.
  unfold receive_items_of. induction t as [|r t IH]; simpl; [reflexivity|].
  destruct (of_purchase_order o r) eqn:E.
  - replace (of_purchase_order o (receive_item r)) with true.
    + simpl. now rewrite IH.
    + unfold receive_item. destruct (to_receive r); auto.
  - now rewrite E.
Qed.

(** ** The loop of the reception *)

Lemma outstanding_of_cons i l k :
  (outstanding_of (i :: l) k
   == (if (PurchaseOrderItem.product_id i =? k)%Z then outstanding i else 0)
      + outstanding_of l k)%Q.
Proof.
  simpl. destruct (PurchaseOrderItem.product_id i =? k)%Z; ring.
Qed.

Lemma receive_each_spec :
  forall l s,
    (forall i, In i l ->
       get (products (db s)) (PurchaseOrderItem.product_id i) <> None) ->
    (forall i, In i l ->
       exists k, PurchaseOrderItem.pk i = Some k
                 /\ existsb (has_pk k) (purchase_order_items s) = true) ->
    exists s' new,
      receive_each l s = (Done tt, s')
      /\ purchase_orders s' = purchase_orders s
      /\ purchase_order_items s' = map (receipts l) (purchase_order_items s)
      /\ stock_movements (db s') = stock_movements (db s) ++ new
      /\ Forall2 receives (filter to_receive l) new
      /\ (forall k p, get (products (db s)) k = Some p ->
           exists p', get (products (db s')) k = Some p'
                      /\ (quantity_value p'
                          == quantity_value p + outstanding_of l k)%Q).
Proof.
  induction l as [|i l IH]; intros s Hex Hrows.
  - exists s, []. simpl. repeat split; auto.
    + unfold receipts. simpl. now rewrite map_id.
    + now rewrite app_nil_r.
    + intros k p Hp. exists p. split; [assumption|]. ring.
  - destruct (to_receive i) eqn:Hto.
    + set (k := PurchaseOrderItem.product_id i).
      destruct (get (products (db s)) k) as [p|] eqn:Hp;
        [|exfalso; apply (Hex i); [now left|exact Hp]].
      destruct (Hrows i (or_introl eq_refl)) as (ki & Hki & Hrow).
      destruct (exists_get _ _ Hrow) as (r0 & Hr0).
      set (q := (PurchaseOrderItem.quantity i
                 - PurchaseOrderItem.received_quantity i)%dec).
      set (m := StockMovement.mk None k "IN" q (PurchaseOrderItem.unit_price i)).
      set (d1 := after_movement (db s) k m p).
      set (s1 := table_put PurchaseOrderItem_objects
                   (replace_row ki (received i) (purchase_order_items s))
                   (set_db d1 s)).
      assert (Hex1 : forall j, In j l ->
                get (products (db s1)) (PurchaseOrderItem.product_id j)
                <> None).
      { intros j Hj. simpl. unfold d1.
        rewrite (Orders.after_movement_get (db s) k m p _ Hp).
        destruct (Z.eqb_spec (PurchaseOrderItem.product_id j) k);
          [discriminate|]. apply Hex. now right. }
      assert (Hrows1 : forall j, In j l ->
                exists kj, PurchaseOrderItem.pk j = Some kj
                           /\ existsb (has_pk kj) (purchase_order_items s1)
                              = true).
      { intros j Hj. destruct (Hrows j (or_intror Hj)) as (kj & Hkj & Hrj).
        exists kj. split; [assumption|]. simpl.
        rewrite (exists_replace_row (H := PurchaseOrderItem.model));
          [assumption|exact Hki]. }
      destruct (IH s1 Hex1 Hrows1)
        as (s' & new & Hrun & Hpo & Hitems & Hmov & Hall & Hqty).
      exists s', (with_pk (next_pk (stock_movements (db s))) m :: new).
      split; [|split; [|split; [|split; [|split]]]].
      * simpl. unfold to_receive in Hto. rewrite Hto.
        unfold W_bind at 1. unfold W_bind at 1. fold k q.
        rewrite (lift_run _ s _ _
                   (Inventory.StockMovement_create_spec (db s) k p "IN" q
                      (PurchaseOrderItem.unit_price i) Hp)).
        fold m d1. unfold W_bind at 1. fold (received i).
        rewrite (Table_save_update (H := PurchaseOrderItem.model)
                   PurchaseOrderItem_objects (set_db d1 s) (received i) ki r0);
          [|now apply violates_unconstrained|exact Hki|exact Hr0].
        exact Hrun.
      * rewrite Hpo. reflexivity.
      * rewrite Hitems. simpl. unfold replace_row. rewrite map_map.
        apply map_ext. intros r. unfold receipts at 2. simpl.
        unfold receipt at 2. rewrite Hto. unfold same_key. rewrite Hki.
        reflexivity.
      * rewrite Hmov. simpl. now rewrite <- app_assoc.
      * simpl. rewrite Hto. constructor; [|exact Hall].
        unfold receives. simpl. repeat split. discriminate.
      * intros k' p0 Hp0.
        destruct (Hqty k' (if (k' =? k)%Z then StockMovement_apply m p
                           else p0)) as (p' & Hp' & Hval).
        { change (db s1) with d1. unfold d1.
          rewrite (Orders.after_movement_get (db s) k m p k' Hp).
          destruct (Z.eqb_spec k' k); [reflexivity|assumption]. }
        exists p'. split; [assumption|]. rewrite Hval.
        rewrite outstanding_of_cons. fold k. rewrite (Z.eqb_sym k k').
        destruct (Z.eqb_spec k' k) as [->|Hne].
        -- assert (p0 = p) by congruence. subst p0.
           rewrite Inventory.StockMovement_apply_value.
           change (StockMovement.quantity m) with q.
           change (StockMovement.movement_type m) with "IN".
           change (signed "IN" (Dec.val q)) with (Dec.val q).
           unfold outstanding. rewrite Hto. unfold q.
           rewrite DecFacts.val_sub. ring.
        -- ring.
    + destruct (IH s) as (s' & new & Hrun & Hpo & Hitems & Hmov & Hall & Hqty).
      { intros j Hj. apply Hex. now right. }
      { intros j Hj. apply Hrows. now right. }
      exists s', new.
      split; [|split; [|split; [|split; [|split]]]].
      * simpl. unfold to_receive in Hto. rewrite Hto.
        unfold W_bind at 1. unfold W_ret. exact Hrun.
      * exact Hpo.
      * rewrite Hitems. apply map_ext. intros r. unfold receipts. simpl.
        replace (receipt r i) with r; [reflexivity|].
        unfold receipt. now rewrite Hto.
      * exact Hmov.
      * simpl. now rewrite Hto.
      * intros k' p0 Hp0. destruct (Hqty k' p0 Hp0) as (p' & Hp' & Hval).
        exists p'. split; [assumption|]. rewrite Hval.
        rewrite outstanding_of_cons. unfold outstanding. rewrite Hto.
        destruct (PurchaseOrderItem.product_id i =? k')%Z; ring.
Qed.

(** Nothing is to come: the loop writes nothing. *)
Lemma receive_each_nothing :
  forall l s,
    (forall i, In i l -> PurchaseOrderItem.is_fully_received i = true) ->
    receive_each l s = (Done tt, s).
Proof.
  induction l as [|i l IH]; intros s Hall; [reflexivity|].
  simpl.
  pose proof (fully_received_not_to_receive i (Hall i (or_introl eq_refl)))
    as Hto.
  unfold to_receive in Hto. rewrite Hto. unfold W_bind at 1, W_ret.
  apply IH. intros j Hj. apply Hall. now right.
Qed.

(** ** The reception of a purchase order *)

Lemma set_received_violates today t o :
  violates t (PurchaseOrder.set_received today o) = violates t o.
Proof.
  apply (violates_same_key (H := PurchaseOrder.model)); reflexivity.
Qed.

Lemma purchase_order_receive_run today s k o :
  get (purchase_orders s) k = Some o ->
  violates (purchase_orders s) o = false ->
  NoDup (map PurchaseOrderItem.pk (purchase_order_items s)) ->
  (forall r, In r (purchase_order_items s) ->
             PurchaseOrderItem.pk r <> None) ->
  (forall i, In i (PurchaseOrder_items s o) ->
     get (products (db s)) (PurchaseOrderItem.product_id i) <> None) ->
  exists s' new,
    purchase_order_receive today k s
    = (Done (PurchaseOrder.set_received today o), s')
    /\ purchase_orders s'
       = replace_row k (PurchaseOrder.set_received today o)
                     (purchase_orders s)
    /\ purchase_order_items s'
       = receive_items_of o (purchase_order_items s)
    /\ stock_movements (db s') = stock_movements (db s) ++ new
    /\ Forall2 receives (filter to_receive (PurchaseOrder_items s o)) new
    /\ (forall j p, get (products (db s)) j = Some p ->
          exists p', get (products (db s')) j = Some p'
                     /\ (quantity_value p'
                         == quantity_value p
                            + outstanding_of (PurchaseOrder_items s o) j)%Q).
Proof.
  intros Hget Hv Hnd Hkeys Hprod.
  destruct (receive_each_spec (PurchaseOrder_items s o) s Hprod)
    as (s1 & new & Hrun & Hpo & Hitems & Hmov & Hall & Hqty).
  { intros i Hi. apply filter_In in Hi. destruct Hi as [Hi _].
    destruct (PurchaseOrderItem.pk i) as [ki|] eqn:Hki;
      [|exfalso; now apply (Hkeys i Hi)].
    exists ki. split; [reflexivity|]. apply existsb_exists. exists i.
    split; [assumption|].
    apply (proj2 (has_pk_iff (H := PurchaseOrderItem.model) ki i)).
    exact Hki. }
  pose proof (get_pk (H := PurchaseOrder.model) _ _ _ Hget) as Hk.
  exists (table_put PurchaseOrder_objects
            (replace_row k (PurchaseOrder.set_received today o)
                         (purchase_orders s1)) s1), new.
  split; [|split; [|split; [|split; [|split]]]].
  - unfold purchase_order_receive, W_bind at 1.
    rewrite (Table_fetch_run (H := PurchaseOrder.model)
               PurchaseOrder_objects s k o Hget).
    unfold W_bind at 1. rewrite Hrun.
    apply (Table_save_update (H := PurchaseOrder.model)
             PurchaseOrder_objects s1 (PurchaseOrder.set_received today o)
             k o).
    + change (table_rows PurchaseOrder_objects s1) with (purchase_orders s1).
      rewrite Hpo, set_received_violates. exact Hv.
    + exact Hk.
    + change (table_rows PurchaseOrder_objects s1) with (purchase_orders s1).
      rewrite Hpo. exact Hget.
  - simpl. now rewrite Hpo.
  - simpl. rewrite Hitems. now apply receipts_of_order.
  - exact Hmov.
  - exact Hall.
  - exact Hqty.
Qed.

(** X14.  Receiving a purchase order, whatever its status: the order is
    stored as [RECEIVED] with the day of the reception; one [IN]
    movement is created for each item of which something is still to
    come, for the quantity to come and at the unit price of the item;
    every product gains what was to come of it; and afterwards every item
    of the order is fully received, with the rows of the other orders
    as they were. *)
Theorem purchase_order_receive_takes_in :
  forall (today : Z) (s : Store) (k : Z) (o : PurchaseOrder.t),
    get (purchase_orders s) k = Some o ->
    violates (purchase_orders s) o = false ->
    NoDup (map PurchaseOrderItem.pk (purchase_order_items s)) ->
    (forall r, In r (purchase_order_items s) ->
               PurchaseOrderItem.pk r <> None) ->
    (forall i, In i (PurchaseOrder_items s o) ->
       get (products (db s)) (PurchaseOrderItem.product_id i) <> None) ->
    exists o' s' new,
      purchase_order_receive today k s = (Done o', s')
      /\ get (purchase_orders s') k = Some o'
      /\ PurchaseOrder.status o' = "RECEIVED"
      /\ PurchaseOrder.actual_delivery_date o' = Some today
      /\ stock_movements (db s') = stock_movements (db s) ++ new
      /\ Forall2 receives (filter to_receive (PurchaseOrder_items s o)) new
      /\ (forall j p, get (products (db s)) j = Some p ->
            exists p', get (products (db s')) j = Some p'
                       /\ (quantity_value p'
                           == quantity_value p
                              + outstanding_of (PurchaseOrder_items s o) j)%Q)
      /\ PurchaseOrder_items s' o'
         = map receive_item (PurchaseOrder_items s o)
      /\ (forall i, In i (PurchaseOrder_items s' o') ->
                    PurchaseOrderItem.is_fully_received i = true)
      /\ (forall r, of_purchase_order o r = false ->
                    (In r (purchase_order_items s')
                     <-> In r (purchase_order_items s))).
Proof.
  intros today s k o Hget Hv Hnd Hkeys Hprod.
  destruct (purchase_order_receive_run today s k o Hget Hv Hnd Hkeys Hprod)
    as (s' & new & Hrun & Hpo & Hitems & Hmov & Hall & Hqty).
  pose proof (get_pk (H := PurchaseOrder.model) _ _ _ Hget) as Hk.
  assert (Hrows : PurchaseOrder_items s' (PurchaseOrder.set_received today o)
                  = map receive_item (PurchaseOrder_items s o)).
  { unfold PurchaseOrder_items. rewrite Hitems.
    apply (receive_items_of_items o). }
  exists (PurchaseOrder.set_received today o), s', new.
  split; [exact Hrun|].
  split.
  { rewrite Hpo.
    apply (get_replace_row (H := PurchaseOrder.model)) with (r := o);
      assumption. }
  split; [reflexivity|]. split; [reflexivity|].
  split; [exact Hmov|]. split; [exact Hall|]. split; [exact Hqty|].
  split; [exact Hrows|]. split.
  - intros i Hi. rewrite Hrows in Hi. apply in_map_iff in Hi.
    destruct Hi as (i0 & <- & _). apply receive_item_is_fully_received.
  - intros r Hr. rewrite Hitems. unfold receive_items_of.
    rewrite in_map_iff. split.
    + intros (r0 & Hr0 & Hin). destruct (of_purchase_order o r0) eqn:E.
      * exfalso. subst r. unfold receive_item in Hr.
        destruct (to_receive r0); [|congruence].
        change (of_purchase_order o (received r0))
          with (of_purchase_order o r0) in Hr.
        congruence.
      * now subst r0.
    + intros Hin. exists r. now rewrite Hr.
Qed.

(** X15.  Receiving the same purchase order a second time takes
    nothing more into stock: no movement is created, no product and no
    item changes; only the day of delivery of the order is written
    again. *)
Theorem purchase_order_receive_twice :
  forall (today today' : Z) (s s1 : Store) (k : Z) (o o1 : PurchaseOrder.t),
    get (purchase_orders s) k = Some o ->
    violates (purchase_orders s) o = false ->
    NoDup (map PurchaseOrderItem.pk (purchase_order_items s)) ->
    (forall r, In r (purchase_order_items s) ->
               PurchaseOrderItem.pk r <> None) ->
    (forall i, In i (PurchaseOrder_items s o) ->
       get (products (db s)) (PurchaseOrderItem.product_id i) <> None) ->
    purchase_order_receive today k s = (Done o1, s1) ->
    exists o2 s2,
      purchase_order_receive today' k s1 = (Done o2, s2)
      /\ db s2 = db s1
      /\ purchase_order_items s2 = purchase_order_items s1
      /\ get (purchase_orders s2) k = Some o2
      /\ PurchaseOrder.status o2 = "RECEIVED"
      /\ PurchaseOrder.actual_delivery_date o2 = Some today'.
Proof.
  intros today today' s s1 k o o1 Hget Hv Hnd Hkeys Hprod Hfirst.
  destruct (purchase_order_receive_run today s k o Hget Hv Hnd Hkeys Hprod)
    as (s' & new & Hrun & Hpo & Hitems & _).
  rewrite Hrun in Hfirst. injection Hfirst as <- <-.
  pose proof (get_pk (H := PurchaseOrder.model) _ _ _ Hget) as Hk.
  set (o1 := PurchaseOrder.set_received today o).
  assert (Hk1 : pk_of o1 = Some k) by exact Hk.
  assert (Hget1 : get (purchase_orders s') k = Some o1).
  { rewrite Hpo.
    apply (get_replace_row (H := PurchaseOrder.model)) with (r := o);
      assumption. }
  assert (Hdone : forall i, In i (PurchaseOrder_items s' o1) ->
                            PurchaseOrderItem.is_fully_received i = true).
  { intros i Hi. unfold PurchaseOrder_items in Hi. rewrite Hitems in Hi.
    change (filter _ (receive_items_of o (purchase_order_items s)))
      with (filter (of_purchase_order o)
                   (receive_items_of o (purchase_order_items s))) in Hi.
    rewrite receive_items_of_items in Hi. apply in_map_iff in Hi.
    destruct Hi as (i0 & <- & _). apply receive_item_is_fully_received. }
  set (o2 := PurchaseOrder.set_received today' o1).
  exists o2, (table_put PurchaseOrder_objects
                (replace_row k o2 (purchase_orders s')) s').
  split; [|split; [|split; [|split; [|split]]]]; try reflexivity.
  - unfold purchase_order_receive, W_bind at 1.
    rewrite (Table_fetch_run (H := PurchaseOrder.model)
               PurchaseOrder_objects s' k o1 Hget1).
    unfold W_bind at 1. rewrite (receive_each_nothing _ s' Hdone).
    apply (Table_save_update (H := PurchaseOrder.model)
             PurchaseOrder_objects s' o2 k o1).
    + change (table_rows PurchaseOrder_objects s') with (purchase_orders s').
      unfold o2. rewrite set_received_violates, Hpo. fold o1.
      rewrite (violates_replaced (H := PurchaseOrder.model)
                 (purchase_orders s) k o1 o1 Hk1 Hk1).
      unfold o1. rewrite set_received_violates. exact Hv.
    + exact Hk.
    + exact Hget1.
  - simpl.
    apply (get_replace_row (H := PurchaseOrder.model)) with (r := o1);
      assumption.
Qed.

(** ** The total of a purchase order *)

Lemma py_sum_purchase l :
  (Dec.val (py_sum (map PurchaseOrderItem.total_price l))
   == purchase_value l)%Q.
Proof.
  unfold py_sum. rewrite Orders.py_sum_from, Inventory.val_zero, Qplus_0_l.
  induction l as [|i l IH]; simpl; [reflexivity|].
  rewrite IH. unfold PurchaseOrderItem.total_price.
  now rewrite DecFacts.val_mul.
Qed.

Lemma PurchaseOrder_columns_spec self row :
  PurchaseOrder_columns self = Some row ->
  PurchaseOrder.pk row = PurchaseOrder.pk self
  /\ PurchaseOrder.status row = PurchaseOrder.status self
  /\ PurchaseOrder.actual_delivery_date row
     = PurchaseOrder.actual_delivery_date self
  /\ cents (PurchaseOrder.total_amount row)
           (Dec.val (PurchaseOrder.total_amount self)).
Proof.
  unfold PurchaseOrder_columns.
  destruct (DecimalField 10 2 (PurchaseOrder.total_amount self)) as [x|]
    eqn:E; [|discriminate].
  intros H. injection H as <-. simpl.
  split; [reflexivity|]. split; [reflexivity|]. split; [reflexivity|].
  apply (Columns.DecimalField_cents _ _ _ E).
Qed.

Lemma PurchaseOrderItem_columns_spec self row :
  PurchaseOrderItem_columns self = Some row ->
  PurchaseOrderItem.pk row = PurchaseOrderItem.pk self
  /\ PurchaseOrderItem.purchase_order_id row
     = PurchaseOrderItem.purchase_order_id self
  /\ PurchaseOrderItem.product_id row = PurchaseOrderItem.product_id self
  /\ DecimalField 10 2 (PurchaseOrderItem.quantity self)
     = Some (PurchaseOrderItem.quantity row)
  /\ DecimalField 10 2 (PurchaseOrderItem.unit_price self)
     = Some (PurchaseOrderItem.unit_price row)
  /\ DecimalField 10 2 (PurchaseOrderItem.received_quantity self)
     = Some (PurchaseOrderItem.received_quantity row).
Proof.
  unfold PurchaseOrderItem_columns.
  destruct (DecimalField 10 2 (PurchaseOrderItem.quantity self)) as [x|]
    eqn:E1; [|discriminate].
  destruct (DecimalField 10 2 (PurchaseOrderItem.unit_price self)) as [y|]
    eqn:E2; [|discriminate].
  destruct (DecimalField 10 2 (PurchaseOrderItem.received_quantity self))
    as [z|] eqn:E3; [|discriminate].
  intros H. injection H as <-. simpl.
  split; [reflexivity|]. split; [reflexivity|]. split; [reflexivity|].
  repeat split.
Qed.

Lemma PurchaseOrderItem_columns_keyed j self row :
  PurchaseOrderItem_columns self = Some row ->
  PurchaseOrderItem_columns (with_pk j self) = Some (with_pk j row).
Proof.
  unfold PurchaseOrderItem_columns. simpl.
  destruct (DecimalField 10 2 (PurchaseOrderItem.quantity self));
    [|discriminate].
  destruct (DecimalField 10 2 (PurchaseOrderItem.unit_price self));
    [|discriminate].
  destruct (DecimalField 10 2 (PurchaseOrderItem.received_quantity self));
    [|discriminate].
  intros H. injection H as <-. reflexivity.
Qed.

Lemma PurchaseOrder_keyed stored self k :
  PurchaseOrder.pk stored = Some k -> PurchaseOrder.pk self = Some k ->
  keyed stored self = self.
Proof.
  intros Hs Hk. unfold keyed. simpl. rewrite Hs.
  destruct self; simpl in *. now subst.
Qed.

(** Saving the order after [calculate_total], when it returns. *)
Lemma PurchaseOrder_save_total s0 k o o' s' :
  get (purchase_orders s0) k = Some o ->
  PurchaseOrder_save (PurchaseOrder_calculate_total s0 o) s0 = (Done o', s') ->
  exists row,
    o' = PurchaseOrder_calculate_total s0 o
    /\ PurchaseOrder_columns o' = Some row
    /\ s' = table_put PurchaseOrder_objects
              (replace_row k row (purchase_orders s0)) s0
    /\ get (purchase_orders s') k = Some row
    /\ PurchaseOrder.status row = PurchaseOrder.status o
    /\ cents (PurchaseOrder.total_amount row)
             (purchase_value (PurchaseOrder_items s0 o)).
Proof.
  intros Hget Hrun.
  pose proof (get_pk (H := PurchaseOrder.model) _ _ _ Hget) as Hk.
  simpl in Hk.
  apply (save_columns_done (H := PurchaseOrder.model)) in Hrun.
  destruct Hrun as (row & stored & Hcol & Hsave & Ho').
  destruct (PurchaseOrder_columns_spec _ _ Hcol) as (Hpk & Hst & _ & Hc).
  assert (Hrk : PurchaseOrder.pk row = Some k) by (now rewrite Hpk).
  destruct (Table_save_done_update (H := PurchaseOrder.model)
              PurchaseOrder_objects s0 row k o stored s' Hrk Hget Hsave)
    as [-> ->].
  rewrite (PurchaseOrder_keyed row (PurchaseOrder_calculate_total s0 o) k
             Hrk Hk) in Ho'. subst o'.
  exists row. split; [reflexivity|]. split; [exact Hcol|].
  split; [reflexivity|]. split.
  - simpl. apply (get_replace_row (H := PurchaseOrder.model)) with (r := o);
      assumption.
  - split; [exact Hst|].
    apply (Columns.cents_compat _ _ _ (py_sum_purchase _)). exact Hc.
Qed.

(** X16.  The views that add an item to a purchase order and delete
    one store a total that follows the items: when the view returns, the
    stored total is the value of the stored items of the order, the new
    one included or the deleted one left out, as its column of two
    decimal places holds it; the new item is stored with the quantities
    and the price that the form accepted.  Neither view touches the
    stock, whatever quantity the item records as received, and neither
    changes the status of the order. *)
Theorem purchase_order_total_follows_items :
  forall (s : Store) (k : Z) (o : PurchaseOrder.t),
    get (purchase_orders s) k = Some o ->
    (forall (product_id : Z) (quantity unit_price received_quantity : Decimal)
            (o' : PurchaseOrder.t) (s' : Store),
       purchase_order_add_item k product_id quantity unit_price
                               received_quantity s = (Done (Some o'), s') ->
       exists item row,
         get (purchase_orders s') k = Some row
         /\ PurchaseOrder_columns o' = Some row
         /\ PurchaseOrder_items s' row = PurchaseOrder_items s o ++ [item]
         /\ PurchaseOrderItem_columns
              (PurchaseOrderItem.mk (PurchaseOrderItem.pk item) k product_id
                 quantity unit_price received_quantity) = Some item
         /\ (Dec.val (PurchaseOrderItem.quantity item) == Dec.val quantity)%Q
         /\ (Dec.val (PurchaseOrderItem.unit_price item)
             == Dec.val unit_price)%Q
         /\ cents (PurchaseOrder.total_amount row)
                  (purchase_value (PurchaseOrder_items s o ++ [item]))
         /\ PurchaseOrder.status row = PurchaseOrder.status o
         /\ db s' = db s)
    /\ (forall (j : Z) (item : PurchaseOrderItem.t) (o' : PurchaseOrder.t)
               (s' : Store),
          get (purchase_order_items s) j = Some item ->
          PurchaseOrderItem.purchase_order_id item = k ->
          purchase_order_item_delete j s = (Done o', s') ->
          exists row,
            get (purchase_order_items s') j = None
            /\ get (purchase_orders s') k = Some row
            /\ PurchaseOrder_columns o' = Some row
            /\ PurchaseOrder_items s' row
               = delete_row j (PurchaseOrder_items s o)
            /\ cents (PurchaseOrder.total_amount row)
                     (purchase_value
                        (delete_row j (PurchaseOrder_items s o)))
            /\ PurchaseOrder.status row = PurchaseOrder.status o
            /\ db s' = db s).
Proof.
  intros s k o Hget.
  pose proof (get_pk (H := PurchaseOrder.model) _ _ _ Hget) as Hk.
  simpl in Hk. split.
  - intros pid q up rq o' s' Hrun.
    unfold purchase_order_add_item, W_bind at 1 in Hrun.
    rewrite (Table_fetch_run (H := PurchaseOrder.model)
               PurchaseOrder_objects s k o Hget) in Hrun.
    unfold W_bind at 1, PurchaseOrderItemForm_is_valid in Hrun.
    destruct (get (products (db s)) pid) as [product|]; [|discriminate].
    destruct (clean_decimal q) eqn:Hcq; [|discriminate].
    destruct (clean_decimal up) eqn:Hcup; [|discriminate].
    destruct (clean_decimal rq) eqn:Hcrq; [|discriminate].
    cbn [andb] in Hrun. unfold W_bind at 1 in Hrun.
    set (it0 := PurchaseOrderItem.mk None k pid q up rq) in Hrun.
    destruct (PurchaseOrderItem_save it0 s) as [[it1|e] s1] eqn:Hit;
      [|discriminate].
    unfold W_bind at 1, W_ret in Hrun.
    match type of Hrun with
    | context [PurchaseOrder_save ?x ?y] =>
        destruct (PurchaseOrder_save x y) as [[o1|e] s2] eqn:Hsv;
          [|discriminate]
    end.
    injection Hrun as -> ->. rename Hsv into Hrun.
    apply (save_columns_done (H := PurchaseOrderItem.model)) in Hit.
    destruct Hit as (row0 & item & Hcol0 & Hsave0 & _).
    destruct (PurchaseOrderItem_columns_spec _ _ Hcol0)
      as (Hpk0 & Hof0 & _ & Hq & Hup & _).
    destruct (Table_save_done_insert (H := PurchaseOrderItem.model)
                PurchaseOrderItem_objects s row0 item s1 Hpk0 Hsave0)
      as [Hitem ->].
    set (s1 := table_put PurchaseOrderItem_objects
                 (table_rows PurchaseOrderItem_objects s ++ [item]) s) in *.
    destruct (PurchaseOrder_save_total s1 k o o' s' Hget Hrun)
      as (row & Ho' & Hcol & -> & Hstored & Hst & Hc).
    destruct (PurchaseOrder_columns_spec _ _ Hcol) as (Hpk & _).
    assert (Hrows : PurchaseOrder_items s1 o
                    = PurchaseOrder_items s o ++ [item]).
    { unfold PurchaseOrder_items. simpl. rewrite filter_app. simpl.
      rewrite Hk. rewrite Hitem. simpl. rewrite Hof0. simpl.
      now rewrite Z.eqb_refl. }
    exists item, row.
    split; [exact Hstored|]. split; [exact Hcol|]. split.
    { unfold PurchaseOrder_items. simpl. rewrite Hpk, Ho'. exact Hrows. }
    split.
    { rewrite Hitem.
      apply (PurchaseOrderItem_columns_keyed
               (next_pk (table_rows PurchaseOrderItem_objects s)) it0 row0
               Hcol0). }
    split; [rewrite Hitem; exact (Columns.DecimalField_clean _ _ _ Hcq Hq)|].
    split; [rewrite Hitem; exact (Columns.DecimalField_clean _ _ _ Hcup Hup)|].
    split; [now rewrite <- Hrows|]. split; [exact Hst|reflexivity].
  - intros j item o' s' Hitem Hof Hrun.
    unfold purchase_order_item_delete, W_bind at 1 in Hrun.
    rewrite (Table_fetch_run (H := PurchaseOrderItem.model)
               PurchaseOrderItem_objects s j item Hitem) in Hrun.
    unfold W_bind at 1 in Hrun. rewrite Hof in Hrun.
    rewrite (Table_fetch_run (H := PurchaseOrder.model)
               PurchaseOrder_objects s k o Hget) in Hrun.
    unfold W_bind at 1, Table_delete in Hrun.
    set (s1 := table_put PurchaseOrderItem_objects
                 (delete_row j (table_rows PurchaseOrderItem_objects s)) s)
      in *.
    destruct (PurchaseOrder_save_total s1 k o o' s' Hget Hrun)
      as (row & Ho' & Hcol & -> & Hstored & Hst & Hc).
    destruct (PurchaseOrder_columns_spec _ _ Hcol) as (Hpk & _).
    assert (Hrows : PurchaseOrder_items s1 o
                    = delete_row j (PurchaseOrder_items s o)).
    { unfold PurchaseOrder_items, delete_row. simpl.
      apply MoreOrders.filter_comm. }
    exists row. split.
    { simpl. apply (get_delete_row (H := PurchaseOrderItem.model)). }
    split; [exact Hstored|]. split; [exact Hcol|]. split.
    { unfold PurchaseOrder_items. simpl. rewrite Hpk, Ho'. exact Hrows. }
    split; [now rewrite <- Hrows|]. split; [exact Hst|reflexivity].
Qed.

End Purchases.

(* ================================================================== *)
(** * Stock-takings *)
(* ================================================================== *)

Module StockTakings.
Import Orm OrmFacts MoreOrm StoreFacts.

Lemma map_injective {A B : Type} (f : A -> B) (l : list A) a b :
  NoDup (map f l) -> In a l -> In b l -> f a = f b -> a = b.
Proof.
  induction l as [|c l IH]; simpl; [contradiction|].
  intros Hnd Ha Hb Hk. inversion Hnd as [|x xs Hnot Hnd']; subst.
  destruct Ha as [->|Ha], Hb as [->|Hb]; auto.
  - exfalso. apply Hnot. rewrite Hk. now apply in_map.
  - exfalso. apply Hnot. rewrite <- Hk. now apply in_map.
Qed.

Lemma filter_none {A : Type} (f : A -> bool) (l : list A) :
  (forall r, In r l -> f r = false) -> filter f l = [].
Proof.
  induction l as [|c l IH]; simpl; intros Hall; [reflexivity|].
  rewrite (Hall c (or_introl eq_refl)). apply IH.
  intros r Hr. apply Hall. now right.
Qed.

Lemma filter_only {A : Type} (f : A -> Z) (l : list A) a :
  NoDup (map f l) -> In a l ->
  filter (fun r => (f r =? f a)%Z) l = [a].
Proof.
  induction l as [|c l IH]; simpl; [contradiction|].
  intros Hnd Ha. inversion Hnd as [|x xs Hnot Hnd']; subst.
  destruct Ha as [->|Ha].
  - rewrite Z.eqb_refl. f_equal.
    apply filter_none. intros r Hr. apply Z.eqb_neq.
    intros E. apply Hnot. rewrite <- E. now apply in_map.
  - destruct (Z.eqb_spec (f c) (f a)) as [E|E]; [|now apply IH].
    exfalso. apply Hnot. rewrite E. now apply in_map.
Qed.

Lemma NoDup_map_filter {A B : Type} (f : A -> B) (g : A -> bool) l :
  NoDup (map f l) -> NoDup (map f (filter g l)).
Proof.
  induction l as [|a l IH]; simpl; intros Hnd; [constructor|].
  inversion Hnd as [|x xs Hnot Hnd']; subst.
  destruct (g a); [|now apply IH]. simpl. constructor; [|now apply IH].
  intros Hin. apply Hnot. apply in_map_iff in Hin.
  destruct Hin as (b & Hb & Hin). apply filter_In in Hin.
  rewrite <- Hb. apply in_map. tauto.
Qed.

(** ** [calculate_discrepancies] *)

Lemma discrepancies_of_spec :
  forall l s,
    (forall i, In i l ->
       get (products (db s)) (InventoryItem.product_id i) <> None) ->
    exists discs,
      discrepancies_of l s = (Done discs, s)
      /\ Forall2 (entry_of (db s)) (filter differs l) discs.
Proof.
  induction l as [|i l IH]; intros s Hex.
  - exists []. split; [reflexivity|constructor].
  - destruct (IH s) as (discs & Hrun & Hall).
    { intros j Hj. apply Hex. now right. }
    simpl. unfold differs at 1, InventoryItem.discrepancy.
    destruct (negb _) eqn:Hd.
    + destruct (get (products (db s)) (InventoryItem.product_id i))
        as [p|] eqn:Hp; [|exfalso; apply (Hex i); [now left|exact Hp]].
      eexists. split.
      * unfold W_bind at 1, lift, fetch.
        change (rows Product_objects (db s)) with (products (db s)).
        rewrite Hp, set_db_same. unfold W_bind at 1. rewrite Hrun.
        reflexivity.
      * constructor; [|exact Hall]. unfold entry_of. simpl.
        repeat split. exact Hp.
    + exists discs. split; assumption.
Qed.

(** ** The loop of the completion *)

Lemma entry_of_transport d d' l discs :
  (forall j, In j l ->
     get (products d') (InventoryItem.product_id j)
     = get (products d) (InventoryItem.product_id j)) ->
  Forall2 (entry_of d) l discs -> Forall2 (entry_of d') l discs.
Proof.
  intros Hsame Hall. induction Hall as [|i e l discs He Hall IH];
    constructor.
  - destruct He as (H1 & H2 & H3). unfold entry_of.
    rewrite (Hsame i (or_introl eq_refl)). auto.
  - apply IH. intros j Hj. apply Hsame. now right.
Qed.

Lemma adjusts_prices d d' i m :
  (forall k, price_in d' k = price_in d k) ->
  adjusts d' i m -> adjusts d i m.
Proof.
  intros Hprice (H1 & H2 & H3 & H4 & H5). unfold adjusts.
  rewrite <- Hprice. auto.
Qed.

(** One round of the loop, for the entry of the item [i]. *)
Lemma adjust_one inv s i p :
  get (products (db s)) (InventoryItem.product_id i) = Some p ->
  only_item s inv i ->
  let k := InventoryItem.product_id i in
  let m := StockMovement.mk None k "ADJUSTMENT"
             (Dec_abs (InventoryItem.discrepancy i)) (Product.unit_price p) in
  let p2 := Product.set_quantity_in_stock (InventoryItem.physical_quantity i)
                                          p in
  let d1 := after_movement (db s) k m p in
  let d2 := put_rows Product_objects (replace_row k p2 (products d1)) d1 in
  forall e rest,
    Discrepancy.product e = p ->
    Discrepancy.difference e = InventoryItem.discrepancy i ->
    adjust_each inv (e :: rest) s = adjust_each inv rest (set_db d2 s).
Proof.
  intros Hp Honly k m p2 d1 d2 e rest He Hdiff.
  pose proof (get_pk (H := Product.model) _ _ _ Hp) as Hk. simpl in Hk.
  simpl. rewrite He, Hdiff, Hk. fold k. fold m.
  unfold W_bind at 1.
  rewrite (lift_run _ s _ _
             (Inventory.StockMovement_save_new (db s) m p k p eq_refl Hk Hp)).
  fold d1. cbn [snd]. unfold W_bind at 1.
  change (StockMovement_apply m p) with p.
  unfold StockTaking_items_get.
  replace (filter _ (StockTaking_rows (set_db d1 s) inv)) with [i].
  - unfold W_bind at 1, lift, Model_save.
    change (rows Product_objects (db (set_db d1 s))) with (products d1).
    rewrite (save_update (products d1) p2 k p);
      [|now apply violates_unconstrained|exact Hk|].
    + reflexivity.
    + unfold d1. rewrite (Orders.after_movement_get (db s) k m p k Hp).
      now rewrite Z.eqb_refl.
  - rewrite <- Honly. apply filter_ext. intros r. now rewrite Hk.
Qed.

Lemma adjust_each_spec inv :
  forall l discs s,
    Forall2 (entry_of (db s)) l discs ->
    NoDup (map InventoryItem.product_id l) ->
    (forall i, In i l -> only_item s inv i) ->
    exists s' new,
      adjust_each inv discs s = (Done tt, s')
      /\ inventories s' = inventories s
      /\ inventory_items s' = inventory_items s
      /\ stock_movements (db s') = stock_movements (db s) ++ new
      /\ Forall2 (adjusts (db s)) l new
      /\ (forall i p, In i l ->
            get (products (db s)) (InventoryItem.product_id i) = Some p ->
            get (products (db s')) (InventoryItem.product_id i)
            = Some (Product.set_quantity_in_stock
                      (InventoryItem.physical_quantity i) p))
      /\ (forall k, ~ In k (map InventoryItem.product_id l) ->
            get (products (db s')) k = get (products (db s)) k)
      /\ (forall k, price_in (db s') k = price_in (db s) k).
Proof.
  induction l as [|i l IH]; intros discs s Hall Hnd Honly;
    inversion Hall as [|i0 e l0 rest He Hrest]; subst.
  - exists s, []. simpl. repeat split; auto.
    + now rewrite app_nil_r.
    + intros i p [].
  - inversion Hnd as [|x xs Hnot Hnd']; subst.
    destruct He as (Hp & Hdiff & _).
    set (p := Discrepancy.product e) in *.
    set (k := InventoryItem.product_id i) in *.
    set (m := StockMovement.mk None k "ADJUSTMENT"
                (Dec_abs (InventoryItem.discrepancy i))
                (Product.unit_price p)).
    set (p2 := Product.set_quantity_in_stock
                 (InventoryItem.physical_quantity i) p).
    set (d1 := after_movement (db s) k m p).
    set (d2 := put_rows Product_objects (replace_row k p2 (products d1)) d1).
    pose proof (get_pk (H := Product.model) _ _ _ Hp) as Hk. simpl in Hk.
    assert (Hget2 : forall k', get (products d2) k'
                    = if (k' =? k)%Z then Some p2
                      else get (products (db s)) k').
    { intros k'. unfold d2. simpl.
      destruct (Z.eqb_spec k' k) as [->|Hne].
      - apply (get_replace_row (H := Product.model)) with (r := p);
          [exact Hk|].
        apply (get_replace_row (H := Product.model)) with (r := p);
          assumption.
      - rewrite (get_replace_row_other (H := Product.model));
          [|exact Hk|assumption].
        rewrite (get_replace_row_other (H := Product.model));
          [reflexivity|exact Hk|assumption]. }
    assert (Hprice2 : forall k', price_in d2 k' = price_in (db s) k').
    { intros k'. unfold price_in. rewrite Hget2.
      destruct (Z.eqb_spec k' k) as [->|Hne]; [|reflexivity].
      rewrite Hp. reflexivity. }
    assert (Hother : forall j, In j l -> InventoryItem.product_id j <> k).
    { intros j Hj E. apply Hnot. rewrite <- E. now apply in_map. }
    destruct (IH rest (set_db d2 s)) as
      (s' & new & Hrun & Hinv & Hitems & Hmov & Hadj & Hset & Hkeep & Hprice).
    { apply (entry_of_transport (db s)); [|exact Hrest].
      intros j Hj. change (db (set_db d2 s)) with d2. rewrite Hget2.
      destruct (Z.eqb_spec (InventoryItem.product_id j) k) as [E|E];
        [exfalso; now apply (Hother j)|reflexivity]. }
    { exact Hnd'. }
    { intros j Hj. apply (Honly j). now right. }
    exists s', (with_pk (next_pk (stock_movements (db s))) m :: new).
    split; [|split; [|split; [|split; [|split; [|split; [|split]]]]]].
    + rewrite (adjust_one inv s i p Hp (Honly i (or_introl eq_refl))
                 e rest eq_refl Hdiff).
      exact Hrun.
    + exact Hinv.
    + exact Hitems.
    + rewrite Hmov. simpl. now rewrite <- app_assoc.
    + constructor.
      * unfold adjusts, price_in. fold k. rewrite Hp. simpl.
        repeat split. discriminate.
      * eapply Forall2_impl; [|exact Hadj].
        intros a b. apply adjusts_prices. exact Hprice2.
    + intros j q [<-|Hj] Hq.
      * fold k. rewrite Hkeep; [|exact Hnot].
        change (db (set_db d2 s)) with d2. rewrite Hget2, Z.eqb_refl.
        fold k in Hq. rewrite Hp in Hq. injection Hq as <-. reflexivity.
      * apply Hset; [assumption|].
        change (db (set_db d2 s)) with d2. rewrite Hget2.
        destruct (Z.eqb_spec (InventoryItem.product_id j) k) as [E|E];
          [exfalso; now apply (Hother j)|assumption].
    + intros k' Hk'. rewrite Hkeep.
      * change (db (set_db d2 s)) with d2. rewrite Hget2.
        destruct (Z.eqb_spec k' k) as [->|Hne]; [|reflexivity].
        exfalso. apply Hk'. now left.
      * intros Hin. apply Hk'. now right.
    + intros k'. rewrite Hprice. exact (Hprice2 k').
Qed.


(** ** The completion of a stock-taking *)

Lemma inventory_complete_run :
  forall (by_name : list InventoryItem.t -> list InventoryItem.t)
         (s : Store) (k : Z) (inv : StockTaking.t),
    (forall l, Permutation (by_name l) l) ->
    get (inventories s) k = Some inv ->
    violates (inventories s) inv = false ->
    NoDup (map InventoryItem.product_id (StockTaking_rows s inv)) ->
    (forall i, In i (StockTaking_rows s inv) ->
       get (products (db s)) (InventoryItem.product_id i) <> None) ->
    exists s' new,
      inventory_complete by_name k s
      = (Done (StockTaking.set_status "COMPLETED" inv), s')
      /\ inventories s'
         = replace_row k (StockTaking.set_status "COMPLETED" inv)
                       (inventories s)
      /\ inventory_items s' = inventory_items s
      /\ stock_movements (db s') = stock_movements (db s) ++ new
      /\ Forall2 (adjusts (db s))
                 (filter differs (StockTaking_items by_name s inv)) new
      /\ (forall i p, In i (StockTaking_rows s inv) ->
            get (products (db s)) (InventoryItem.product_id i) = Some p ->
            get (products (db s')) (InventoryItem.product_id i)
            = Some (counted i p))
      /\ (forall j, ~ In j (map InventoryItem.product_id
                                (StockTaking_rows s inv)) ->
            get (products (db s')) j = get (products (db s)) j).
Proof.
  intros by_name s k inv Hperm Hget Hv Hnd Hex.
  set (l0 := StockTaking_rows s inv) in *.
  set (l1 := by_name l0).
  pose proof (Hperm l0 : Permutation l1 l0) as Hp10.
  assert (Hin10 : forall i, In i l1 <-> In i l0).
  { intros i. split; [apply Permutation_in; exact Hp10|].
    apply Permutation_in. now apply Permutation_sym. }
  assert (Hnd1 : NoDup (map InventoryItem.product_id l1)).
  { apply (Permutation_NoDup (l := map InventoryItem.product_id l0));
      [|exact Hnd].
    apply Permutation_map. now apply Permutation_sym. }
  destruct (discrepancies_of_spec l1 s) as (discs & Hdiscs & Hentries).
  { intros i Hi. apply Hex. now apply Hin10. }
  destruct (adjust_each_spec inv (filter differs l1) discs s Hentries)
    as (s1 & new & Hrun & Hinv & Hitems & Hmov & Hadj & Hset & Hkeep & _).
  { now apply NoDup_map_filter. }
  { intros i Hi. apply filter_In in Hi. destruct Hi as [Hi _].
    apply Hin10 in Hi. unfold only_item. fold l0.
    now apply (filter_only InventoryItem.product_id l0 i). }
  pose proof (get_pk (H := StockTaking.model) _ _ _ Hget) as Hk.
  set (inv' := StockTaking.set_status "COMPLETED" inv).
  exists (table_put StockTaking_objects
            (replace_row k inv' (inventories s1)) s1), new.
  split; [|split; [|split; [|split; [|split; [|split]]]]];
    try assumption.
  - unfold inventory_complete, W_bind at 1.
    rewrite (Table_fetch_run (H := StockTaking.model)
               StockTaking_objects s k inv Hget).
    unfold W_bind at 1, StockTaking_calculate_discrepancies,
      StockTaking_items.
    fold l0. fold l1. rewrite Hdiscs. unfold W_bind at 1. rewrite Hrun.
    apply (Table_save_update (H := StockTaking.model)
             StockTaking_objects s1 inv' k inv).
    + change (table_rows StockTaking_objects s1) with (inventories s1).
      rewrite Hinv.
      rewrite (violates_same_key (H := StockTaking.model)
                 (inventories s) inv' inv); [exact Hv|reflexivity|].
      reflexivity.
    + exact Hk.
    + change (table_rows StockTaking_objects s1) with (inventories s1).
      now rewrite Hinv.
  - simpl. now rewrite Hinv.
  - intros i p Hi Hp. change (db (table_put _ _ s1)) with (db s1).
    unfold counted. destruct (differs i) eqn:Hd.
    + apply Hset; [|exact Hp]. apply filter_In. split; [|exact Hd].
      now apply Hin10.
    + rewrite Hkeep; [exact Hp|]. intros Hin.
      apply in_map_iff in Hin. destruct Hin as (j & Hj & Hjin).
      apply filter_In in Hjin. destruct Hjin as [Hjin Hdj].
      apply Hin10 in Hjin.
      assert (j = i)
        by (apply (map_injective InventoryItem.product_id l0); auto).
      subst j. congruence.
  - intros j Hj. change (db (table_put _ _ s1)) with (db s1).
    apply Hkeep. intros Hin. apply Hj.
    apply in_map_iff in Hin. destruct Hin as (i & Hi & Hiin).
    apply filter_In in Hiin. destruct Hiin as [Hiin _].
    apply Hin10 in Hiin. rewrite <- Hi. now apply in_map.
Qed.


Lemma counted_twice i p : counted i (counted i p) = counted i p.
Proof. unfold counted. destruct (differs i); reflexivity. Qed.


End StockTakings.

(* ================================================================== *)
(** * Invoice lines *)
(* ================================================================== *)

Module InvoiceLines.
Import Orm OrmFacts MoreOrm StoreFacts.

Lemma py_sum_lines l :
  (Dec.val (py_sum (map InvoiceItem.total_price l)) == lines_value l)%Q.
Proof.
  unfold py_sum. rewrite Orders.py_sum_from, Inventory.val_zero, Qplus_0_l.
  induction l as [|i l IH]; simpl; [reflexivity|].
  rewrite IH. unfold InvoiceItem.total_price.
  now rewrite DecFacts.val_mul.
Qed.

Lemma lines_value_app l l' :
  (lines_value (l ++ l') == lines_value l + lines_value l')%Q.
Proof.
  induction l as [|i l IH]; simpl; [ring|]. rewrite IH. ring.
Qed.

(** What [calculate_totals] computes, as numbers, and what it leaves. *)
Lemma calculate_totals_invoice s inv tot :
  let r := Invoice_calculate_totals s (inv, tot) in
  (total_value (fst r)
   == with_tax (InvoiceTotals.tax_rate tot) (lines_value (Invoice_items s inv)))%Q
  /\ (Dec.val (InvoiceTotals.subtotal (snd r))
      == lines_value (Invoice_items s inv))%Q
  /\ Invoice.status (fst r) = Invoice.status inv
  /\ Invoice.paid_amount (fst r) = Invoice.paid_amount inv
  /\ Invoice.pk (fst r) = Invoice.pk inv
  /\ InvoiceTotals.pk (snd r) = InvoiceTotals.pk tot
  /\ InvoiceTotals.tax_rate (snd r) = InvoiceTotals.tax_rate tot.
Proof.
  unfold Invoice_calculate_totals, total_value, with_tax; simpl.
  repeat split.
  - rewrite DecFacts.val_add, DecFacts.val_div100, DecFacts.val_mul,
      py_sum_lines.
    reflexivity.
  - apply py_sum_lines.
Qed.

Lemma Invoice_fetch_run s k inv tot :
  get (invoices (db s)) k = Some inv ->
  get (invoice_totals s) k = Some tot ->
  Invoice_fetch k s = (Done (inv, tot), s).
Proof.
  intros Hinv Htot. unfold Invoice_fetch, W_bind at 1, lift, fetch.
  change (rows Invoice_objects (db s)) with (invoices (db s)).
  rewrite Hinv, set_db_same. unfold W_bind at 1.
  now rewrite (Table_fetch_run (H := InvoiceTotals.model)
                 InvoiceTotals_objects s k tot Htot).
Qed.

Lemma Invoice_columns_spec self row :
  Invoice_columns self = Some row ->
  Invoice.pk (fst row) = Invoice.pk (fst self)
  /\ Invoice.status (fst row) = Invoice.status (fst self)
  /\ InvoiceTotals.pk (snd row) = InvoiceTotals.pk (snd self)
  /\ DecimalField 10 2 (Invoice.total_amount (fst self))
     = Some (Invoice.total_amount (fst row))
  /\ DecimalField 10 2 (Invoice.paid_amount (fst self))
     = Some (Invoice.paid_amount (fst row))
  /\ DecimalField 10 2 (InvoiceTotals.subtotal (snd self))
     = Some (InvoiceTotals.subtotal (snd row))
  /\ DecimalField 5 2 (InvoiceTotals.tax_rate (snd self))
     = Some (InvoiceTotals.tax_rate (snd row))
  /\ DecimalField 10 2 (InvoiceTotals.tax_amount (snd self))
     = Some (InvoiceTotals.tax_amount (snd row)).
Proof.
  unfold Invoice_columns.
  destruct (DecimalField 10 2 (InvoiceTotals.subtotal (snd self)));
    [|discriminate].
  destruct (DecimalField 5 2 (InvoiceTotals.tax_rate (snd self)));
    [|discriminate].
  destruct (DecimalField 10 2 (InvoiceTotals.tax_amount (snd self)));
    [|discriminate].
  destruct (DecimalField 10 2 (Invoice.total_amount (fst self)));
    [|discriminate].
  destruct (DecimalField 10 2 (Invoice.paid_amount (fst self)));
    [|discriminate].
  intros H. injection H as <-. simpl. repeat split.
Qed.

Lemma InvoiceItem_columns_spec self row :
  InvoiceItem_columns self = Some row ->
  InvoiceItem.pk row = InvoiceItem.pk self
  /\ InvoiceItem.invoice_id row = InvoiceItem.invoice_id self
  /\ DecimalField 10 2 (InvoiceItem.quantity self)
     = Some (InvoiceItem.quantity row)
  /\ DecimalField 10 2 (InvoiceItem.unit_price self)
     = Some (InvoiceItem.unit_price row).
Proof.
  unfold InvoiceItem_columns.
  destruct (DecimalField 10 2 (InvoiceItem.quantity self)) eqn:E1;
    [|discriminate].
  destruct (DecimalField 10 2 (InvoiceItem.unit_price self)) eqn:E2;
    [|discriminate].
  intros H. injection H as <-. simpl.
  repeat split.
Qed.

Lemma InvoiceItem_columns_keyed j self row :
  InvoiceItem_columns self = Some row ->
  InvoiceItem_columns (with_pk j self) = Some (with_pk j row).
Proof.
  unfold InvoiceItem_columns. simpl.
  destruct (DecimalField 10 2 (InvoiceItem.quantity self)); [|discriminate].
  destruct (DecimalField 10 2 (InvoiceItem.unit_price self));
    [|discriminate].
  intros H. injection H as <-. reflexivity.
Qed.

Lemma Invoice_keyed (stored self : InvoiceInstance) k :
  Invoice.pk (fst stored) = Some k ->
  Invoice.pk (fst self) = Some k -> InvoiceTotals.pk (snd self) = Some k ->
  keyed stored self = self.
Proof.
  intros Hs Hk Hk'. unfold keyed. simpl. rewrite Hs.
  destruct self as [[] []]; simpl in *. now subst.
Qed.

(** Saving an instance of a stored invoice, when it returns, rewrites
    both parts of its row with the values their columns hold. *)
Lemma Invoice_save_done s k inv tot self o' s' :
  get (invoices (db s)) k = Some inv ->
  get (invoice_totals s) k = Some tot ->
  Invoice.pk (fst self) = Some k -> InvoiceTotals.pk (snd self) = Some k ->
  Invoice_save self s = (Done o', s') ->
  exists row,
    o' = self
    /\ Invoice_columns self = Some row
    /\ get (invoices (db s')) k = Some (fst row)
    /\ get (invoice_totals s') k = Some (snd row)
    /\ invoice_items s' = invoice_items s
    /\ payments (db s') = payments (db s)
    /\ products (db s') = products (db s)
    /\ stock_movements (db s') = stock_movements (db s).
Proof.
  intros Hinv Htot Hk Hk' Hrun.
  apply (save_columns_done (H := InvoiceInstance_model)) in Hrun.
  destruct Hrun as (row & stored & Hcol & Hsave & Ho').
  destruct (Invoice_columns_spec _ _ Hcol) as (Hpk & _ & Hpk' & _).
  assert (Hrk : Invoice.pk (fst row) = Some k) by (now rewrite Hpk).
  assert (Hrk' : InvoiceTotals.pk (snd row) = Some k) by (now rewrite Hpk').
  cbv beta in Hsave. unfold W_bind at 1 in Hsave.
  destruct (lift (Model_save Invoice_objects (fst row)) s) as [[i1|e] s1]
    eqn:E1; [|discriminate].
  apply lift_done in E1. destruct E1 as (d1 & E1 & ->).
  destruct (Model_save_done_update (H := Invoice.model) Invoice_objects
              (db s) (fst row) k inv i1 d1 Hrk Hinv E1) as [-> ->].
  unfold W_bind at 1 in Hsave.
  set (s1 := set_db (put_rows Invoice_objects
                       (replace_row k (fst row) (rows Invoice_objects (db s)))
                       (db s)) s) in *.
  destruct (Table_save InvoiceTotals_objects (snd row) s1) as [[t1|e] s2]
    eqn:E2; [|discriminate].
  destruct (Table_save_done_update (H := InvoiceTotals.model)
              InvoiceTotals_objects s1 (snd row) k tot t1 s2 Hrk' Htot E2)
    as [-> ->].
  unfold W_ret in Hsave. injection Hsave as <- <-.
  rewrite <- surjective_pairing in Ho'.
  rewrite (Invoice_keyed row self k Hrk Hk Hk') in Ho'.
  exists row. split; [exact Ho'|]. split; [exact Hcol|].
  split; [|split; [|repeat split]].
  - simpl.
    apply (get_replace_row (H := Invoice.model)) with (r := inv); assumption.
  - simpl.
    apply (get_replace_row (H := InvoiceTotals.model)) with (r := tot);
      assumption.
Qed.

(** The stored row that follows [calculate_totals] and [save] on the
    instance of a stored invoice whose amounts are values of their
    columns. *)
Lemma Invoice_totals_saved s k inv tot o' s' :
  get (invoices (db s)) k = Some inv ->
  get (invoice_totals s) k = Some tot ->
  Invoice_columns (inv, tot) = Some (inv, tot) ->
  Invoice_save (Invoice_calculate_totals s (inv, tot)) s = (Done o', s') ->
  exists row,
    Invoice_columns o' = Some row
    /\ get (invoices (db s')) k = Some (fst row)
    /\ get (invoice_totals s') k = Some (snd row)
    /\ Invoice.pk (fst row) = Invoice.pk inv
    /\ invoice_items s' = invoice_items s
    /\ cents (Invoice.total_amount (fst row))
             (with_tax (InvoiceTotals.tax_rate tot)
                (lines_value (Invoice_items s inv)))
    /\ cents (InvoiceTotals.subtotal (snd row))
             (lines_value (Invoice_items s inv))
    /\ Invoice.status (fst row) = Invoice.status inv
    /\ Invoice.paid_amount (fst row) = Invoice.paid_amount inv
    /\ InvoiceTotals.tax_rate (snd row) = InvoiceTotals.tax_rate tot
    /\ payments (db s') = payments (db s).
Proof.
  intros Hinv Htot Hfix Hrun.
  pose proof (get_pk (H := Invoice.model) _ _ _ Hinv) as Hk.
  pose proof (get_pk (H := InvoiceTotals.model) _ _ _ Htot) as Hk'.
  simpl in Hk, Hk'.
  destruct (calculate_totals_invoice s inv tot)
    as (Htotal & Hsub & Hstatus & Hpaid & Hpk & Hpk' & Hrate).
  set (r := Invoice_calculate_totals s (inv, tot)) in *.
  destruct (Invoice_save_done s k inv tot r o' s' Hinv Htot)
    as (row & -> & Hcol & Hget & Hget' & Hitems & Hpay & _);
    [now rewrite Hpk|now rewrite Hpk'|exact Hrun|].
  destruct (Invoice_columns_spec _ _ Hcol)
    as (Hrpk & Hrst & _ & Ht & Hp & Hs & Hr & _).
  destruct (Invoice_columns_spec _ _ Hfix)
    as (_ & _ & _ & _ & Hp0 & _ & Hr0 & _).
  simpl in Hp0, Hr0.
  rewrite Hpaid, Hp0 in Hp. rewrite Hrate, Hr0 in Hr.
  injection Hp as Hp. injection Hr as Hr.
  exists row. split; [exact Hcol|]. split; [exact Hget|].
  split; [exact Hget'|]. split; [now rewrite Hrpk|].
  split; [exact Hitems|]. split.
  { apply (Columns.cents_compat _ _ _ Htotal).
    apply (Columns.DecimalField_cents _ _ _ Ht). }
  split.
  { apply (Columns.cents_compat _ _ _ Hsub).
    apply (Columns.DecimalField_cents _ _ _ Hs). }
  split; [now rewrite Hrst|]. split; [now rewrite <- Hp|].
  split; [now rewrite <- Hr|exact Hpay].
Qed.

Lemma with_tax_compat rate a b :
  (a == b)%Q -> (with_tax rate a == with_tax rate b)%Q.
Proof. intros E. unfold with_tax. now rewrite E. Qed.

Lemma with_tax_add rate a b :
  (with_tax rate (a + b) == with_tax rate a + with_tax rate b)%Q.
Proof. unfold with_tax. field. Qed.

(** What the view [invoice_add_item] leaves when it returns. *)
Lemma invoice_add_item_done s k inv tot q up o' s' :
  get (invoices (db s)) k = Some inv ->
  get (invoice_totals s) k = Some tot ->
  Invoice_columns (inv, tot) = Some (inv, tot) ->
  invoice_add_item k q up s = (Done (Some o'), s') ->
  exists item row,
    get (invoices (db s')) k = Some (fst row)
    /\ get (invoice_totals s') k = Some (snd row)
    /\ Invoice_columns o' = Some row
    /\ Invoice_items s' (fst row) = Invoice_items s inv ++ [item]
    /\ InvoiceItem_columns (InvoiceItem.mk (InvoiceItem.pk item) k q up)
       = Some item
    /\ (Dec.val (InvoiceItem.quantity item) == Dec.val q)%Q
    /\ (Dec.val (InvoiceItem.unit_price item) == Dec.val up)%Q
    /\ cents (Invoice.total_amount (fst row))
             (with_tax (InvoiceTotals.tax_rate tot)
                (lines_value (Invoice_items s inv ++ [item])))
    /\ cents (InvoiceTotals.subtotal (snd row))
             (lines_value (Invoice_items s inv ++ [item]))
    /\ Invoice.status (fst row) = Invoice.status inv
    /\ Invoice.paid_amount (fst row) = Invoice.paid_amount inv
    /\ InvoiceTotals.tax_rate (snd row) = InvoiceTotals.tax_rate tot
    /\ payments (db s') = payments (db s).
Proof.
  intros Hinv Htot Hfix Hrun.
  pose proof (get_pk (H := Invoice.model) _ _ _ Hinv) as Hk.
  simpl in Hk.
  unfold invoice_add_item, W_bind at 1 in Hrun.
  rewrite (Invoice_fetch_run s k inv tot Hinv Htot) in Hrun.
  unfold InvoiceItemForm_is_valid in Hrun.
  destruct (clean_decimal q) eqn:Hcq; [|discriminate].
  destruct (clean_decimal up) eqn:Hcup; [|discriminate].
  cbn [andb] in Hrun. unfold W_bind at 1 in Hrun.
  set (it0 := InvoiceItem.mk None k q up) in Hrun.
  destruct (InvoiceItem_save it0 s) as [[it1|e] s1] eqn:Hit; [|discriminate].
  unfold W_bind at 1, W_ret in Hrun.
  match type of Hrun with
  | context [Invoice_save ?x ?y] =>
      destruct (Invoice_save x y) as [[o1|e] s2] eqn:Hsv; [|discriminate]
  end.
  injection Hrun as -> ->. rename Hsv into Hrun.
  apply (save_columns_done (H := InvoiceItem.model)) in Hit.
  destruct Hit as (row0 & item & Hcol0 & Hsave0 & _).
  destruct (InvoiceItem_columns_spec _ _ Hcol0) as (Hpk0 & Hof0 & Hq & Hup).
  destruct (Table_save_done_insert (H := InvoiceItem.model)
              InvoiceItem_objects s row0 item s1 Hpk0 Hsave0)
    as [Hitem ->].
  set (s1 := table_put InvoiceItem_objects
               (table_rows InvoiceItem_objects s ++ [item]) s) in *.
  assert (Hrows : Invoice_items s1 inv = Invoice_items s inv ++ [item]).
  { unfold Invoice_items. simpl. rewrite filter_app. simpl.
    rewrite Hk, Hitem. simpl. rewrite Hof0. simpl.
    now rewrite Z.eqb_refl. }
  destruct (Invoice_totals_saved s1 k inv tot o' s' Hinv Htot Hfix Hrun)
    as (row & Hcol & Hget & Hget' & Hpk & Hitems & Ht & Hs & Hst & Hp & Hr
        & Hpay).
  exists item, row.
  split; [exact Hget|]. split; [exact Hget'|]. split; [exact Hcol|].
  split.
  { unfold Invoice_items. rewrite Hitems, Hpk. exact Hrows. }
  split.
  { rewrite Hitem.
    apply (InvoiceItem_columns_keyed
             (next_pk (table_rows InvoiceItem_objects s)) it0 row0 Hcol0). }
  split; [rewrite Hitem; exact (Columns.DecimalField_clean _ _ _ Hcq Hq)|].
  split; [rewrite Hitem; exact (Columns.DecimalField_clean _ _ _ Hcup Hup)|].
  split; [now rewrite <- Hrows|]. split; [now rewrite <- Hrows|].
  repeat (split; [assumption|]). exact Hpay.
Qed.

Lemma lines_value_new l item q up :
  (Dec.val (InvoiceItem.quantity item) == Dec.val q)%Q ->
  (Dec.val (InvoiceItem.unit_price item) == Dec.val up)%Q ->
  (lines_value (l ++ [item]) == lines_value l + Dec.val q * Dec.val up)%Q.
Proof.
  intros Hq Hup. rewrite lines_value_app. simpl. rewrite Hq, Hup. ring.
Qed.



Lemma credited_status_partial today a i :
  (0 < paid_value i + Dec.val a)%Q ->
  (paid_value i + Dec.val a < total_value i)%Q ->
  Invoice.status (credited today a i) = "PARTIALLY_PAID".
Proof.
  intros H0 H1. unfold credited. apply Accounting.update_status_partial;
    unfold paid_value, total_value in *; simpl; now rewrite DecFacts.val_add.
Qed.

(** X22.  [PAID] is not final.  After a line is added to a paid
    invoice the status is still [PAID]; the next payment that the form
    of the view accepts is evaluated against the new stored total, and
    when it leaves the paid amount more than half a cent below the total
    of the lines with the tax, the invoice becomes [PARTIALLY_PAID], with
    a balance left to pay. *)
Theorem paid_invoice_reopens :
  forall (today : Z) (s : Store) (k : Z) (inv : Invoice.t)
         (tot : InvoiceTotals.t) (q up : Decimal) (num : string)
         (a : Decimal) (o1 : InvoiceInstance) (s1 : Store),
    get (invoices (db s)) k = Some inv ->
    get (invoice_totals s) k = Some tot ->
    Invoice_columns (inv, tot) = Some (inv, tot) ->
    Invoice.status inv = "PAID" ->
    invoice_add_item k q up s = (Done (Some o1), s1) ->
    PaymentForm_clean_amount a = true ->
    violates (payments (db s)) (Payment.mk None num k a) = false ->
    (0 < paid_value inv + Dec.val a)%Q ->
    (paid_value inv + Dec.val a + (1 # 200)
     < with_tax (InvoiceTotals.tax_rate tot)
         (lines_value (Invoice_items s inv) + Dec.val q * Dec.val up))%Q ->
    exists inv1 r s2 inv2,
      get (invoices (db s1)) k = Some inv1
      /\ Invoice.status inv1 = "PAID"
      /\ lift (invoice_add_payment_view today k num a) s1
         = (Done (Some r), s2)
      /\ get (invoices (db s2)) k = Some inv2
      /\ Invoice.status inv2 = "PARTIALLY_PAID"
      /\ (0 < balance_value inv2)%Q.
Proof.
  intros today s k inv tot q up num a o1 s1 Hinv Htot Hfix Hpaid Hrun Hclean
         Hfresh Hpos Hless.
  destruct (invoice_add_item_done s k inv tot q up o1 s1 Hinv Htot Hfix Hrun)
    as (item & row & Hget1 & _ & Hcol & Hrows & _ & Hq & Hup & Ht & _ & Hst
        & Hpa & _ & Hpay).
  pose proof (lines_value_new (Invoice_items s inv) item q up Hq Hup) as E.
  apply (Columns.cents_compat _ _ _
           (with_tax_compat (InvoiceTotals.tax_rate tot) _ _ E)) in Ht.
  set (inv1 := fst row) in *.
  assert (Hpv : paid_value inv1 = paid_value inv)
    by (unfold paid_value; now rewrite Hpa).
  destruct (MoreAccounting.invoice_add_payment_view_valid today (db s1) k num
              a inv1 Hget1 Hclean) as (r & d2 & Hview & Hrun2).
  { now rewrite Hpay. }
  pose proof (Accounting.invoice_add_payment_row _ _ _ _ _ _ _ _ Hget1 Hrun2)
    as Hrow.
  assert (Hbelow : (paid_value inv + Dec.val a < total_value inv1)%Q).
  { destruct Ht as (_ & Hlo & _). unfold total_value. lra. }
  exists inv1, r, (set_db d2 s1), (credited today a inv1).
  split; [exact Hget1|]. split; [now rewrite Hst|].
  split; [now apply lift_run|]. split; [exact Hrow|].
  split.
  - apply credited_status_partial; rewrite Hpv; assumption.
  - rewrite MoreAccounting.balance_value_eq, MoreAccounting.credited_total,
      Accounting.credited_paid, Hpv. lra.
Qed.

End InvoiceLines.

(* ================================================================== *)
(** * The views on order items *)
(* ================================================================== *)

Module OrderViews.
Import Orm OrmFacts MoreOrm StoreFacts.

Lemma Order_columns_spec self row :
  Order_columns self = Some row ->
  Order.pk row = Order.pk self
  /\ Order.order_number row = Order.order_number self
  /\ Order.status row = Order.status self
  /\ Order.paid_at row = Order.paid_at self
  /\ DecimalField 10 2 (Order.subtotal self) = Some (Order.subtotal row)
  /\ DecimalField 5 2 (Order.tax_rate self) = Some (Order.tax_rate row)
  /\ DecimalField 10 2 (Order.tax_amount self) = Some (Order.tax_amount row)
  /\ DecimalField 10 2 (Order.discount_amount self)
     = Some (Order.discount_amount row)
  /\ DecimalField 10 2 (Order.total_amount self)
     = Some (Order.total_amount row).
Proof.
  unfold Order_columns.
  destruct (DecimalField 10 2 (Order.subtotal self)); [|discriminate].
  destruct (DecimalField 5 2 (Order.tax_rate self)); [|discriminate].
  destruct (DecimalField 10 2 (Order.tax_amount self)); [|discriminate].
  destruct (DecimalField 10 2 (Order.discount_amount self)); [|discriminate].
  destruct (DecimalField 10 2 (Order.total_amount self)); [|discriminate].
  intros H. injection H as <-. simpl. repeat split.
Qed.

Lemma Order_keyed stored self k :
  Order.pk stored = Some k -> Order.pk self = Some k ->
  keyed stored self = self.
Proof.
  intros Hs Hk. unfold keyed. simpl. rewrite Hs.
  destruct self; simpl in *. now subst.
Qed.

(** Saving the instance of a stored order, when it returns, rewrites
    its row with the values the columns hold. *)
Lemma Order_save_done s k r self o' s' :
  get (orders (db s)) k = Some r -> Order.pk self = Some k ->
  Order_save self s = (Done o', s') ->
  exists row,
    o' = self
    /\ Order_columns self = Some row
    /\ s' = set_db (put_rows Order_objects
                      (replace_row k row (orders (db s))) (db s)) s.
Proof.
  intros Hr Hk Hrun.
  apply (save_columns_done (H := Order.model)) in Hrun.
  destruct Hrun as (row & stored & Hcol & Hsave & Ho').
  destruct (Order_columns_spec _ _ Hcol) as (Hpk & _).
  assert (Hrk : Order.pk row = Some k) by (now rewrite Hpk).
  apply lift_done in Hsave. destruct Hsave as (d1 & Hsave & ->).
  destruct (Model_save_done_update (H := Order.model) Order_objects
              (db s) row k r stored d1 Hrk Hr Hsave) as [-> ->].
  rewrite (Order_keyed row self k Hrk Hk) in Ho'.
  exists row. auto.
Qed.

(** Whatever the save of an order returns, it leaves the other
    tables. *)
Lemma Order_save_frame self s r s' :
  Order_save self s = (r, s') ->
  products (db s') = products (db s)
  /\ stock_movements (db s') = stock_movements (db s)
  /\ order_items (db s') = order_items (db s).
Proof.
  unfold Order_save, save_columns.
  destruct (Order_columns self) as [row|];
    [|intros H; injection H as _ <-; repeat split].
  unfold W_bind, W_ret, lift, Model_save.
  destruct (save (rows Order_objects (db s)) row) as [[t x]|e];
    intros H; injection H as _ <-; repeat split.
Qed.

(** The totals that [calculate_totals] and [save] leave in the row. *)
Lemma totals_follow_saved d o row :
  Order_columns (Order_calculate_totals d o) = Some row ->
  totals_follow o row (items_value (Order_items d o)).
Proof.
  intros Hcol.
  destruct (Order_columns_spec _ _ Hcol)
    as (_ & _ & _ & _ & Hs & _ & Ht & _ & Htot).
  destruct (Orders.calculate_totals_values d o) as (Vs & Vt & Vtot).
  cbv zeta in Vs, Vt, Vtot.
  apply Columns.DecimalField_cents in Hs, Ht, Htot.
  destruct Hs as [_ Hs], Ht as [_ Ht], Htot as [_ Htot].
  rewrite Vs in Vt. rewrite Vs, Vt in Vtot.
  unfold totals_follow.
  split; [exact (Columns.cents_compat _ _ _ Vs Hs)|].
  split; [exact (Columns.cents_compat _ _ _ Vt Ht)|].
  exact (Columns.cents_compat _ _ _ Vtot Htot).
Qed.

(** The row keeps what [calculate_totals] does not set, for an order
    whose rate and discount are values of their columns. *)
Lemma Order_columns_keeps d o row :
  Order_columns o = Some o ->
  Order_columns (Order_calculate_totals d o) = Some row ->
  Order.pk row = Order.pk o
  /\ Order.order_number row = Order.order_number o
  /\ Order.status row = Order.status o
  /\ Order.paid_at row = Order.paid_at o
  /\ Order.tax_rate row = Order.tax_rate o
  /\ Order.discount_amount row = Order.discount_amount o.
Proof.
  intros Hfix Hcol.
  destruct (Order_columns_spec _ _ Hcol)
    as (Hpk & Hn & Hst & Hp & _ & Hr & _ & Hd & _).
  destruct (Order_columns_spec _ _ Hfix)
    as (_ & _ & _ & _ & _ & Hr0 & _ & Hd0 & _).
  simpl in Hr, Hd. rewrite Hr0 in Hr. rewrite Hd0 in Hd.
  injection Hr as Hr. injection Hd as Hd. repeat split; auto.
Qed.

Lemma calculate_totals_same d d' o o' :
  Order_items d' o' = Order_items d o ->
  Order.pk o' = Order.pk o ->
  Order.order_number o' = Order.order_number o ->
  Order.status o' = Order.status o ->
  Order.paid_at o' = Order.paid_at o ->
  Order.tax_rate o' = Order.tax_rate o ->
  Order.discount_amount o' = Order.discount_amount o ->
  Order_calculate_totals d' o' = Order_calculate_totals d o.
Proof.
  intros Hi Hk Hn Hs Hp Hr Hd.
  unfold Order_calculate_totals, Order.set_totals.
  now rewrite Hi, Hk, Hn, Hs, Hp, Hr, Hd.
Qed.

(** What the view [order_add_items] has done when it returns an
    order. *)
Lemma order_add_items_done av s k mi_id q o mi o' s' :
  get (orders (db s)) k = Some o ->
  get (menu_items (db s)) mi_id = Some mi ->
  order_add_items av k mi_id q s = (Done (Some o'), s') ->
  exists item d1 row,
    OrderItem_save (OrderItem.mk None k mi_id q (MenuItem.price mi)) (db s)
    = (Ok item, d1)
    /\ (1 <= q)%Z /\ av mi_id = true
    /\ item = with_pk (next_pk (order_items (db s)))
                      (OrderItem.mk None k mi_id q (MenuItem.price mi))
    /\ order_items d1 = order_items (db s) ++ [item]
    /\ orders d1 = orders (db s)
    /\ o' = Order_calculate_totals d1 o
    /\ Order_columns o' = Some row
    /\ s' = set_db (put_rows Order_objects
                      (replace_row k row (orders d1)) d1) s.
Proof.
  intros Ho Hmi Hrun.
  pose proof (get_pk _ _ _ Ho) as Hk. simpl in Hk.
  unfold order_add_items, W_bind at 1 in Hrun.
  rewrite (lift_fetch_run Order_objects s k o Ho) in Hrun.
  unfold W_bind at 1, OrderItemForm_is_valid in Hrun.
  rewrite Hmi in Hrun.
  destruct (av mi_id) eqn:Hav; [|discriminate].
  destruct (1 <=? q)%Z eqn:Hq; [|discriminate].
  cbn [andb] in Hrun. unfold W_bind at 1 in Hrun.
  rewrite (lift_fetch_run MenuItem_objects s mi_id mi Hmi) in Hrun.
  unfold W_bind at 1 in Hrun.
  set (it0 := OrderItem.mk None k mi_id q (MenuItem.price mi)) in *.
  destruct (lift (OrderItem_save it0) s) as [[item|e] s1] eqn:Hit;
    [|discriminate].
  apply lift_done in Hit. destruct Hit as (d1 & Hit & ->).
  destruct (MoreOrders.OrderItem_save_new_rows (db s) it0 item d1 eq_refl Hit)
    as (Hitem & Hrows & Hord).
  unfold W_bind at 1, W_ret in Hrun.
  match type of Hrun with
  | context [Order_save ?x ?y] =>
      destruct (Order_save x y) as [[o1|e] s2] eqn:Hsv; [|discriminate]
  end.
  injection Hrun as -> ->.
  change (db (set_db d1 s)) with d1 in Hsv.
  destruct (Order_save_done (set_db d1 s) k o (Order_calculate_totals d1 o)
              o' s') as (row & Ho' & Hcol & Hs');
    [change (db (set_db d1 s)) with d1; now rewrite Hord|exact Hk|exact Hsv|].
  exists item, d1, row.
  split; [exact Hit|]. split; [now apply Z.leb_le|]. split; [reflexivity|].
  split; [exact Hitem|]. split; [exact Hrows|]. split; [exact Hord|].
  split; [exact Ho'|]. split; [now rewrite Ho'|].
  rewrite Hs'. now rewrite db_set_db.
Qed.



(** X13.  Adding an item of a menu item that tracks inventory and then
    deleting that item leaves the order and its items as they were and
    the stock short.  The ingredients are the rows of the ingredient
    table that point to the menu item.  When the first view returns,
    one new order item is stored and one [OUT] movement per ingredient;
    when the second view, called with the key of that item, returns,
    the order items are the rows before, the stored order is the one
    computed from them, and the movements stay, with every product less
    what they took. *)
Theorem add_then_delete_item_keeps_deduction :
  forall (is_available : Z -> bool) (s : Store) (k mi_id q : Z)
         (o : Order.t) (mi : MenuItem.t) (o1 : Order.t) (s1 : Store),
    let ings :=
      filter (fun ing => (MenuItemIngredient.menu_item_id ing =? mi_id)%Z)
             (menu_item_ingredients (db s)) in
    get (orders (db s)) k = Some o ->
    Order_columns o = Some o ->
    get (menu_items (db s)) mi_id = Some mi ->
    MenuItem.track_inventory mi = true ->
    (forall ing, In ing ings ->
       get (products (db s)) (MenuItemIngredient.product_id ing) <> None) ->
    order_add_items is_available k mi_id q s = (Done (Some o1), s1) ->
    exists item j new,
      order_items (db s1) = order_items (db s) ++ [item]
      /\ OrderItem.pk item = Some j
      /\ OrderItem.order_id item = k
      /\ OrderItem.menu_item_id item = mi_id
      /\ OrderItem.quantity item = q
      /\ stock_movements (db s1) = stock_movements (db s) ++ new
      /\ Forall2 (deducts (db s) item) ings new
      /\ (forall (o2 : Order.t) (s2 : Store),
            order_item_delete j s1 = (Done o2, s2) ->
            order_items (db s2) = order_items (db s)
            /\ o2 = Order_calculate_totals (db s) o
            /\ (exists row,
                  get (orders (db s2)) k = Some row
                  /\ Order_columns o2 = Some row
                  /\ totals_follow o row (items_value (Order_items (db s) o)))
            /\ stock_movements (db s2) = stock_movements (db s) ++ new
            /\ (forall i p, get (products (db s)) i = Some p ->
                  exists p', get (products (db s2)) i = Some p'
                             /\ (quantity_value p'
                                 == quantity_value p
                                    - deducted item ings i)%Q)).
Proof.
  intros av s k mi_id q o mi o1 s1 ings Ho Hfix Hmi Htrack Hex Hrun.
  pose proof (get_pk _ _ _ Ho) as Hk. simpl in Hk.
  destruct (order_add_items_done av s k mi_id q o mi o1 s1 Ho Hmi Hrun)
    as (item & d1 & row1 & Hsave & _ & _ & Hitem & Hrows & Hord & Ho1 & Hcol1
        & ->).
  set (it0 := OrderItem.mk None k mi_id q (MenuItem.price mi)) in *.
  destruct (Orders.OrderItem_save_tracked (db s) it0 mi eq_refl Hmi Htrack Hex)
    as (d1' & item' & new & Hsave' & Hmov & Hall & Hstock).
  rewrite Hsave in Hsave'. injection Hsave' as <- <-.
  change (MenuItem_ingredients (db s) (OrderItem.menu_item_id it0))
    with ings in Hall, Hstock.
  set (j := next_pk (order_items (db s))) in *.
  rewrite Ho1 in Hcol1.
  destruct (Order_columns_keeps d1 o row1 Hfix Hcol1)
    as (Hpk1 & Hn1 & Hst1 & Hp1 & Hr1 & Hd1).
  set (d1r := put_rows Order_objects (replace_row k row1 (orders d1)) d1).
  assert (Hdb1 : db (set_db d1r s) = d1r) by apply db_set_db.
  assert (Hded : forall ing m, deducts (db s) it0 ing m
                               -> deducts (db s) item ing m).
  { intros ing m. unfold deducts. now rewrite Hitem. }
  assert (Hdd : forall i, deducted item ings i = deducted it0 ings i).
  { intros i. unfold deducted. now rewrite Hitem. }
  exists item, j, new. rewrite Hdb1.
  split; [exact Hrows|]. split; [now rewrite Hitem|].
  split; [now rewrite Hitem|]. split; [now rewrite Hitem|].
  split; [now rewrite Hitem|]. split; [exact Hmov|]. split.
  { clear - Hall Hded. induction Hall; constructor; auto. }
  intros o2 s2 Hdel.
  assert (Hget_item : get (order_items d1r) j = Some item).
  { change (order_items d1r) with (order_items d1). rewrite Hrows.
    rewrite get_app_none by apply get_next_pk.
    rewrite Hitem. unfold get, has_pk; simpl. now rewrite Z.eqb_refl. }
  assert (Hget_row1 : get (orders d1r) k = Some row1).
  { simpl. apply get_replace_row with (r := o);
      [simpl; congruence|now rewrite Hord]. }
  unfold order_item_delete, W_bind at 1 in Hdel.
  rewrite (lift_fetch_run OrderItem_objects (set_db d1r s) j item) in Hdel
    by (rewrite Hdb1; exact Hget_item).
  unfold W_bind at 1 in Hdel.
  replace (OrderItem.order_id item) with k in Hdel by (now rewrite Hitem).
  rewrite (lift_fetch_run Order_objects (set_db d1r s) k row1) in Hdel
    by (rewrite Hdb1; exact Hget_row1).
  unfold W_bind at 1, lift at 1, Model_delete in Hdel.
  rewrite Hdb1 in Hdel.
  set (d2 := put_rows OrderItem_objects
               (delete_row j (rows OrderItem_objects d1r)) d1r) in *.
  assert (Hdb2 : db (set_db d2 (set_db d1r s)) = d2) by apply db_set_db.
  rewrite Hdb2 in Hdel.
  assert (Hback : order_items d2 = order_items (db s)).
  { change (order_items d2) with (delete_row j (order_items d1)).
    rewrite Hrows. unfold delete_row. rewrite filter_app.
    assert (Hold : filter (fun r => negb (has_pk j r)) (order_items (db s))
                   = order_items (db s)) by apply delete_row_fresh.
    rewrite Hold, Hitem. simpl. unfold has_pk; simpl.
    rewrite Z.eqb_refl. simpl. apply app_nil_r. }
  assert (Hsame : Order_calculate_totals d2 row1
                  = Order_calculate_totals (db s) o).
  { apply calculate_totals_same; try assumption.
    unfold Order_items. now rewrite Hback, Hpk1. }
  rewrite Hsame in Hdel.
  destruct (Order_save_done (set_db d2 (set_db d1r s)) k row1
              (Order_calculate_totals (db s) o) o2 s2)
    as (row2 & Ho2 & Hcol2 & ->);
    [rewrite Hdb2; exact Hget_row1|exact Hk|exact Hdel|].
  destruct (Order_columns_keeps (db s) o row2 Hfix Hcol2) as (Hpk2 & _).
  rewrite Hdb2.
  split; [exact Hback|]. split; [exact Ho2|]. split.
  { exists row2. split.
    - rewrite ?db_set_db; simpl. apply get_replace_row with (r := row1);
        [simpl; congruence|exact Hget_row1].
    - split; [now rewrite Ho2|]. now apply totals_follow_saved. }
  split.
  { rewrite ?db_set_db; simpl. exact Hmov. }
  intros i p Hp. destruct (Hstock i p Hp) as (p' & Hp' & Hval).
  exists p'. split; [rewrite ?db_set_db; simpl; exact Hp'|].
  now rewrite Hdd.
Qed.

End OrderViews.

(* ================================================================== *)
(** * The further statements on worked instances *)
(* ================================================================== *)

Module MoreInstances.
Import Orm.

(** The stored movement of 2.50 out is deleted: 10.00 become 12.50. *)
Lemma stock_movement_delete_reverts_witness :
  exists d' p',
    stock_movement_delete 1 moved_db = (Ok tt, d')
    /\ get (stock_movements d') 1 = None
    /\ get (products d') 1 = Some p'
    /\ Product.quantity_in_stock p' = mkDec 1250 2.
Proof.
  destruct (proj1 (MoreInventory.stock_movement_delete_reverts moved_db 1)
              stored_movement ledger_product eq_refl eq_refl)
    as (d' & p' & Hrun & Hgone & _ & Hp & _).
  exists d', p'. repeat (split; [assumption|]).
  injection Hrun as <-. injection Hp as <-. reflexivity.
Defined.

(** A waste of 0.50 created and deleted again. *)
Lemma stock_movement_create_delete_witness :
  exists m j d1 d2 p2,
    StockMovement_create 1 "WASTE" (mkDec 50 2) (mkDec 120 2) ledger_db
    = (Ok m, d1)
    /\ stock_movement_delete j d1 = (Ok tt, d2)
    /\ stock_movements d2 = stock_movements ledger_db
    /\ get (products d2) 1 = Some p2
    /\ (quantity_value p2 == quantity_value ledger_product)%Q.
Proof.
  destruct (MoreInventory.stock_movement_create_delete ledger_db 1
              ledger_product "WASTE" (mkDec 50 2) (mkDec 120 2) eq_refl)
    as (m & j & d1 & d2 & p2 & H1 & _ & H2 & H3 & H4 & H5 & _).
  exists m, j, d1, d2, p2. repeat split; assumption.
Defined.

(** Three products on which filter and status part: one without
    stock passes the [NORMAL] filter, one low on stock passes the
    [OPTIMAL] filter, one at -1.00 passes no filter of its status. *)
Lemma product_list_filter_and_status_witness :
  (product_list_stock_filter "NORMAL" idle_product = true
   /\ Product.stock_status idle_product = "OUT_OF_STOCK")
  /\ (product_list_stock_filter "OPTIMAL" inverted_product = true
      /\ Product.stock_status inverted_product = "LOW_STOCK")
  /\ (product_list_stock_filter "OUT_OF_STOCK" overdrawn_product = false
      /\ Product.stock_status overdrawn_product = "OUT_OF_STOCK").
Proof.
  split; [|split]; (split; [|reflexivity]).
  - apply (proj2 (proj1 (proj2 (proj2
             (MoreInventory.product_list_filter_and_status idle_product))))).
    right. split; [reflexivity|].
    split; [vm_compute; discriminate|vm_compute; reflexivity].
  - apply (proj2 (proj2 (proj2 (proj2
             (MoreInventory.product_list_filter_and_status
                inverted_product))))).
    right. split; [right; reflexivity|vm_compute; discriminate].
  - destruct (product_list_stock_filter "OUT_OF_STOCK" overdrawn_product)
      eqn:E; [|reflexivity].
    apply (proj1 (proj1 (proj2
             (MoreInventory.product_list_filter_and_status
                overdrawn_product)))) in E.
    destruct E as [_ E]. vm_compute in E. discriminate E.
Defined.

(** 5.00 in stock for a minimum of 10.00. *)
Lemma is_low_stock_and_status_witness :
  Product.is_low_stock low_product = true
  /\ Product.is_low_stock normal_product = false.
Proof.
  split.
  - apply (proj1 (MoreInventory.is_low_stock_and_status low_product)).
    left. reflexivity.
  - apply (proj2 (MoreInventory.is_low_stock_and_status normal_product)).
    left. reflexivity.
Defined.

(** The balance of 54.00 paid at once; the balance of -6.00 of the
    invoice paid by 60.00 is refused. *)
Lemma paying_the_balance_settles_witness :
  (exists r d' inv',
     invoice_add_payment_view 10 1 "PAY-9"
       (Invoice.remaining_balance sent_invoice) sent_db = (Ok (Some r), d')
     /\ get (invoices d') 1 = Some inv'
     /\ Invoice.status inv' = "PAID"
     /\ (Dec.val (Invoice.remaining_balance inv') == 0)%Q)
  /\ invoice_add_payment_view 10 1 "PAY-9"
       (Invoice.remaining_balance overpaid_invoice) overpaid_db
     = (Ok None, overpaid_db).
Proof.
  split.
  - apply (proj1 (MoreAccounting.paying_the_balance_settles 10 sent_db 1
                    "PAY-9" sent_invoice eq_refl)); reflexivity.
  - apply (proj2 (MoreAccounting.paying_the_balance_settles 10 overpaid_db
                    1 "PAY-9" overpaid_invoice eq_refl)).
    vm_compute. reflexivity.
Defined.

(** 60.00 paid on 54.00. *)
Lemma payment_lowers_balance_witness :
  exists inv',
    Invoice.status inv' = "PAID"
    /\ (Dec.val (Invoice.remaining_balance inv') < 0)%Q.
Proof.
  destruct (MoreAccounting.payment_lowers_balance 10 sent_db _ 1 "PAY-9"
              (mkDec 6000 2) sent_invoice _ eq_refl eq_refl)
    as (inv' & _ & _ & Hover).
  exists inv'. apply Hover. reflexivity.
Defined.

(** 1.00 more on the paid invoice. *)
Lemma paid_invoice_stays_paid_witness :
  exists inv',
    get (invoices (snd (add_payments 1 [third_payment] paid_db))) 1
    = Some inv'
    /\ Invoice.status inv' = "PAID".
Proof.
  destruct (MoreAccounting.paid_invoice_stays_paid [third_payment] paid_db
              (snd (add_payments 1 [third_payment] paid_db)) 1
              settled_invoice eq_refl eq_refl)
    as (inv' & Hget & Hst & _).
  - vm_compute. discriminate.
  - constructor; [|constructor]. vm_compute. discriminate.
  - reflexivity.
  - exists inv'. split; assumption.
Defined.

(** A second table booked on a slot with room for one. *)
Lemma new_reservation_takes_spot_witness :
  exists x' d',
    Reservation_save other_table_reservation (booked_db "PENDING")
    = (Ok x', d')
    /\ TimeSlotAvailability_get_available_spots d' evening_slot < 0.
Proof.
  destruct (MoreBookings.new_reservation_takes_spot (booked_db "PENDING")
              evening_slot other_table_reservation eq_refl eq_refl)
    as (x' & d' & Hrun & _ & Hfull).
  exists x', d'. split; [assumption|]. apply Hfull; reflexivity.
Defined.

(** The pending reservation of table 3 is cancelled. *)
Lemma closing_a_reservation_releases_witness :
  exists r' d',
    Reservation_cancel (stored_reservation "PENDING") (booked_db "PENDING")
    = (Ok r', d')
    /\ TimeSlotAvailability_get_available_spots d' evening_slot = 1
    /\ Table_is_available_at d' 3 100 "19:00" = true.
Proof.
  destruct (MoreBookings.closing_a_reservation_releases (booked_db "PENDING")
              evening_slot 1 (stored_reservation "PENDING")
              Reservation_cancel (or_introl eq_refl))
    as (r' & d' & Hrun & _ & _ & Hspots & Hfree).
  - constructor; [intros []|constructor].
  - reflexivity.
  - reflexivity.
  - exists r', d'. split; [assumption|]. split; [rewrite Hspots; reflexivity|].
    apply (Hfree 3 eq_refl). intros r2 [<-|[]] _. reflexivity.
Defined.

(** Table 3 is taken on day 100 at 19:00. *)
Lemma taken_table_is_counted_witness :
  1 <= TimeSlotAvailability_get_current_reservations (booked_db "PENDING")
         evening_slot.
Proof.
  apply (MoreBookings.taken_table_is_counted (booked_db "PENDING")
           evening_slot 3).
  reflexivity.
Defined.



Lemma bistro_products :
  forall ing,
    In ing (filter (fun ing => (MenuItemIngredient.menu_item_id ing =? 1)%Z)
                   (menu_item_ingredients (db bistro_store))) ->
    get (products (db bistro_store)) (MenuItemIngredient.product_id ing)
    <> None.
Proof. intros ing [<-|[<-|[]]]; discriminate. Qed.

(** Three of the tracked dish added to the open order and taken off
    again: the order has no item, 0.60 of product 1 and 0.15 of product 2
    are gone. *)
Lemma add_then_delete_item_keeps_deduction_witness :
  exists o1 s1 j o2 s2,
    order_add_items on_offer 1 1 3 bistro_store = (Done (Some o1), s1)
    /\ order_item_delete j s1 = (Done o2, s2)
    /\ order_items (db s2) = []
    /\ get (orders (db s2)) 1 = Some open_order
    /\ stock_movements (db s2)
       = [StockMovement.mk (Some 1) 1 "OUT" (mkDec 60 2) (mkDec 350 2);
          StockMovement.mk (Some 2) 2 "OUT" (mkDec 15 2) (mkDec 1200 2)]
    /\ option_map Product.quantity_in_stock (get (products (db s2)) 1)
       = Some (mkDec 940 2)
    /\ option_map Product.quantity_in_stock (get (products (db s2)) 2)
       = Some (mkDec 385 2).
Proof.
  destruct (order_add_items on_offer 1 1 3 bistro_store) as [[[o1|]|e] s1]
    eqn:Hrun; try (vm_compute in Hrun; discriminate Hrun).
  destruct (OrderViews.add_then_delete_item_keeps_deduction on_offer
              bistro_store 1 1 3 open_order
              (MenuItem.mk (Some 1) (mkDec 1450 2) true) o1 s1
              eq_refl eq_refl eq_refl eq_refl bistro_products Hrun)
    as (item & j & new & Hrows & Hj & _ & _ & _ & Hmov & _ & Hdel).
  vm_compute in Hrun. injection Hrun as <- <-.
  vm_compute in Hrows. injection Hrows as <-.
  vm_compute in Hj. injection Hj as <-.
  destruct (order_item_delete 1 _) as [[o2|e] s2] eqn:Hrun2 in Hdel;
    [|vm_compute in Hrun2; discriminate Hrun2].
  destruct (Hdel o2 s2 eq_refl) as (Hback & _ & _ & Hmov2 & _).
  eexists _, _, 1%Z, o2, s2. split; [reflexivity|].
  split; [exact Hrun2|].
  vm_compute in Hrun2. injection Hrun2 as <- <-.
  repeat split.
Defined.

End MoreInstances.

(* ================================================================== *)
(** * Purchase orders, stock-takings and invoice lines on worked
      instances *)
(* ================================================================== *)

Module StoreInstances.
Import Orm.

Lemma supply_keys :
  NoDup (map PurchaseOrderItem.pk (purchase_order_items supply_store))
  /\ (forall r, In r (purchase_order_items supply_store) ->
                PurchaseOrderItem.pk r <> None)
  /\ (forall i, In i (PurchaseOrder_items supply_store supply_order) ->
        get (products (db supply_store)) (PurchaseOrderItem.product_id i)
        <> None).
Proof.
  split; [|split].
  - repeat constructor; simpl; intuition discriminate.
  - intros r [<-|[<-|[<-|[]]]]; discriminate.
  - intros i [<-|[<-|[]]]; discriminate.
Qed.

(** The cancelled order is received on day 50: product 1 goes from
    10.00 to 13.00. *)
Lemma purchase_order_receive_takes_in_witness :
  exists o' s' p',
    purchase_order_receive 50 1 supply_store = (Done o', s')
    /\ PurchaseOrder.status o' = "RECEIVED"
    /\ get (products (db s')) 1 = Some p'
    /\ (quantity_value p' == 13)%Q.
Proof.
  destruct supply_keys as (Hnd & Hkeys & Hprod).
  destruct (Purchases.purchase_order_receive_takes_in 50 supply_store 1
              supply_order eq_refl eq_refl Hnd Hkeys Hprod)
    as (o' & s' & new & Hrun & _ & Hst & _ & _ & _ & Hqty & _).
  destruct (Hqty 1 (Product.mk (Some 1) (mkDec 1000 2) (mkDec 0 2)
                      (mkDec 0 2) (mkDec 350 2)) eq_refl)
    as (p' & Hp' & Hval).
  exists o', s', p'. repeat (split; [assumption|]).
  rewrite Hval. reflexivity.
Defined.

(** The order is received on day 50 and again on day 60. *)
Lemma purchase_order_receive_twice_witness :
  exists o1 s1 o2 s2,
    purchase_order_receive 50 1 supply_store = (Done o1, s1)
    /\ purchase_order_receive 60 1 s1 = (Done o2, s2)
    /\ db s2 = db s1
    /\ PurchaseOrder.actual_delivery_date o2 = Some 60.
Proof.
  destruct supply_keys as (Hnd & Hkeys & Hprod).
  destruct (purchase_order_receive 50 1 supply_store) as [[o1|e] s1] eqn:Hrun;
    [|discriminate Hrun].
  destruct (Purchases.purchase_order_receive_twice 50 60 supply_store s1 1
              supply_order o1 eq_refl eq_refl Hnd Hkeys Hprod Hrun)
    as (o2 & s2 & Hrun2 & Hdb & _ & _ & _ & Hdate).
  exists o1, s1, o2, s2. repeat split; assumption.
Defined.

(** 1.50 of product 2 at 0.33 are added to the order of 13.50: the
    items are worth 13.995, and 14.00 is stored. *)
Lemma purchase_order_total_follows_items_witness :
  exists o' s' row,
    purchase_order_add_item 1 2 (mkDec 150 2) (mkDec 33 2) (mkDec 0 2)
                            supply_store = (Done (Some o'), s')
    /\ get (purchase_orders s') 1 = Some row
    /\ PurchaseOrder.total_amount o' = mkDec 139950 4
    /\ PurchaseOrder.total_amount row = mkDec 1400 2
    /\ db s' = db supply_store.
Proof.
  destruct (purchase_order_add_item 1 2 (mkDec 150 2) (mkDec 33 2) (mkDec 0 2)
                                    supply_store) as [[[o'|]|e] s'] eqn:Hrun;
    try (vm_compute in Hrun; discriminate Hrun).
  destruct (proj1 (Purchases.purchase_order_total_follows_items supply_store 1
                     supply_order eq_refl)
              2 (mkDec 150 2) (mkDec 33 2) (mkDec 0 2) o' s' Hrun)
    as (item & row & Hget & _ & _ & _ & _ & _ & _ & _ & Hdb).
  exists o', s', row. split; [reflexivity|]. split; [exact Hget|].
  split; [|split; [|exact Hdb]].
  - vm_compute in Hrun. now injection Hrun as <- <-.
  - vm_compute in Hrun. injection Hrun as <- <-.
    vm_compute in Hget. now injection Hget as <-.
Defined.

Lemma count_rows :
  NoDup (map InventoryItem.product_id (StockTaking_rows count_store count))
  /\ (forall i, In i (StockTaking_rows count_store count) ->
        get (products (db count_store)) (InventoryItem.product_id i) <> None).
Proof.
  split.
  - repeat constructor; simpl; intuition discriminate.
  - intros i [<-|[<-|[]]]; discriminate.
Qed.





(** A line of 1.00 at 0.32 on the paid invoice of 54.00, then a payment
    of 0.37: 54.37 are paid of 54.38. *)
Lemma paid_invoice_reopens_witness :
  exists o1 s1 inv1 r s2 inv2,
    invoice_add_item 1 (mkDec 100 2) (mkDec 32 2) billed_store
    = (Done (Some o1), s1)
    /\ get (invoices (db s1)) 1 = Some inv1
    /\ Invoice.status inv1 = "PAID"
    /\ lift (invoice_add_payment_view 12 1 "PAY-4" (mkDec 37 2)) s1
       = (Done (Some r), s2)
    /\ get (invoices (db s2)) 1 = Some inv2
    /\ Invoice.status inv2 = "PARTIALLY_PAID"
    /\ (0 < balance_value inv2)%Q.
Proof.
  destruct (invoice_add_item 1 (mkDec 100 2) (mkDec 32 2) billed_store)
    as [[[o1|]|e] s1] eqn:Hrun; try (vm_compute in Hrun; discriminate Hrun).
  destruct (InvoiceLines.paid_invoice_reopens 12 billed_store 1
              settled_invoice billed_totals (mkDec 100 2) (mkDec 32 2)
              "PAY-4" (mkDec 37 2) o1 s1 eq_refl eq_refl eq_refl eq_refl Hrun
              eq_refl eq_refl)
    as (inv1 & r & s2 & inv2 & H1 & H2 & H3 & H4 & H5 & H6).
  - vm_compute. reflexivity.
  - vm_compute. reflexivity.
  - exists o1, s1, inv1, r, s2, inv2. split; [reflexivity|].
    repeat (split; [assumption|]). exact H6.
Defined.


End StoreInstances.
